(** * Organization management service

    A shallow embedding of
      - [models/base_model.py]   (GenericBaseModel, get_id_field),
      - [models/oms_models.py]   (Organizations, Users and their orderings),
      - [db/query_parser.py]     (QueryParser),
      - [dao/base_dao.py]        (BaseDao),
      - [utils/utils.py]         (fetch_row_based_on_column),
      - [services/oms_service.py] (OmsService),
      - [api/v1/endpoints/oms.py] (the three endpoints),
      - [utils/serialization.py] (serialize),
    followed by the properties of the specification that concern them.

    Python values are a small dynamically typed universe; keyword
    arguments are insertion-ordered dictionaries (association lists);
    a table is the list of its rows in insertion order; a row is the
    dictionary of its cells.  Exceptions are values of type [Exn]; an operation
    that writes returns its outcome together with the table it leaves. *)

From Stdlib Require Import ZArith List String Ascii Bool Lia Permutation.
From stdpp Require Import base option strings list pretty.
Import ListNotations.
Local Open Scope string_scope.
Local Open Scope Z_scope.

(** ** Python values *)

#[local] Unset Elimination Schemes.
Inductive Value : Type :=
  | VNone
  | VBool (b : bool)
  | VInt (n : Z)
  | VStr (s : string)
  | VTime (t : Z)               (* a timezone-aware datetime, as a timestamp *)
  | VList (l : list Value).
#[local] Set Elimination Schemes.

(** Python truthiness, as used by [if not x]. *)
Definition truthy (v : Value) : bool :=
  match v with
  | VNone => false
  | VBool b => b
  | VInt n => negb (n =? 0)
  | VStr s => negb (String.eqb s "")
  | VTime _ => true
  | VList l => match l with [] => false | _ => true end
  end.

Definition is_none (v : Value) : bool :=
  match v with VNone => true | _ => false end.

Fixpoint value_eqb (a b : Value) {struct a} : bool :=
  match a, b with
  | VNone, VNone => true
  | VBool x, VBool y => Bool.eqb x y
  | VInt x, VInt y => x =? y
  | VStr x, VStr y => String.eqb x y
  | VTime x, VTime y => x =? y
  | VList xs, VList ys =>
      (fix go (xs ys : list Value) {struct xs} : bool :=
         match xs, ys with
         | [], [] => true
         | x :: xs', y :: ys' => value_eqb x y && go xs' ys'
         | _, _ => false
         end) xs ys
  | _, _ => false
  end.

(** An order on values, used by ORDER BY. Values of different kinds are
    ordered by kind. *)
Definition value_rank (v : Value) : Z :=
  match v with
  | VNone => 0 | VBool _ => 1 | VInt _ => 2 | VTime _ => 3 | VStr _ => 4
  | VList _ => 5
  end.

Definition value_leb (a b : Value) : bool :=
  match a, b with
  | VBool x, VBool y => implb x y
  | VInt x, VInt y => x <=? y
  | VTime x, VTime y => x <=? y
  | VStr x, VStr y => String.leb x y
  | _, _ => value_rank a <=? value_rank b
  end.

(** ** Strings: the fragments of [str] the code uses *)

Definition is_upper (c : ascii) : bool :=
  let n := nat_of_ascii c in (Nat.leb 65 n && Nat.leb n 90)%bool.

Definition ascii_lower (c : ascii) : ascii :=
  if is_upper c then ascii_of_nat (nat_of_ascii c + 32) else c.

(** [s.lower()] on ASCII strings. *)
Fixpoint lower (s : string) : string :=
  match s with
  | EmptyString => EmptyString
  | String c rest => String (ascii_lower c) (lower rest)
  end.

(** [s.split('__')]: cut at every non-overlapping occurrence of two
    underscores, scanning from the left; [cur] is the segment being read. *)
Fixpoint split_dunder_from (cur s : string) : list string :=
  match s with
  | EmptyString => [cur]
  | String c rest =>
      match rest with
      | String c' rest' =>
          if (Ascii.eqb c "_" && Ascii.eqb c' "_")%bool
          then cur :: split_dunder_from EmptyString rest'
          else split_dunder_from (cur +:+ String c EmptyString) rest
      | EmptyString => [cur +:+ String c EmptyString]
      end
  end.

Definition split_dunder (s : string) : list string :=
  split_dunder_from EmptyString s.

(** ** Keyword arguments: insertion-ordered dictionaries *)

Abbreviation Kwargs := (list (string * Value)).

Fixpoint dict_get (kw : Kwargs) (k : string) : option Value :=
  match kw with
  | [] => None
  | (k', v) :: rest => if String.eqb k' k then Some v else dict_get rest k
  end.

(** [kwargs.get(k, None)] *)
Definition dict_get_or_none (kw : Kwargs) (k : string) : Value :=
  match dict_get kw k with Some v => v | None => VNone end.

(** [k in kwargs] *)
Definition dict_mem (kw : Kwargs) (k : string) : bool :=
  match dict_get kw k with Some _ => true | None => false end.

(** [kwargs[k] = v]: an existing key keeps its position, a new key goes
    last. *)
Fixpoint dict_set (kw : Kwargs) (k : string) (v : Value) : Kwargs :=
  match kw with
  | [] => [(k, v)]
  | (k', v') :: rest =>
      if String.eqb k' k then (k', v) :: rest
      else (k', v') :: dict_set rest k v
  end.

Definition dict_keys (kw : Kwargs) : list string := map fst kw.

(** ** Record schemas ([models/base_model.py], [models/oms_models.py]) *)

Inductive ColType : Type := TString | TDateTime | TBoolean.

Record Column : Type := mkColumn {
  col_name : string;
  col_type : ColType;
  col_nullable : bool;
  col_default : option Value;     (* [column.default], a Python-side scalar *)
  col_primary_key : bool;
  col_unique : bool
}.

(** The audit columns every model inherits from [GenericBaseModel]. *)
Definition generic_base_columns : list Column :=
  [ mkColumn "created_at" TDateTime false None false false;
    mkColumn "created_by" TString false None false false;
    mkColumn "updated_at" TDateTime false None false false;
    mkColumn "updated_by" TString false None false false;
    mkColumn "is_deleted" TBoolean false (Some (VBool false)) false false ].

(** The methods [GenericBaseModel] defines; they are attributes of every
    model class next to its columns. *)
Definition generic_base_methods : list string :=
  [ "get_id_field"; "model_to_dict"; "to_dict" ].

(** A model class: its [__name__], the columns its body declares and the
    names under which [getattr] finds something else on the class than a
    column or a method of [GenericBaseModel]: what the declarative base,
    the mapper and Python's [type] give it. The audit columns are
    inherited. *)
Record ModelClass : Type := mkModel {
  cls_name : string;
  own_columns : list Column;
  class_attributes : list string
}.

(** Attributes of this kind on the two classes of the service. They come
    from SQLAlchemy and Python, not from the repository: [metadata] and
    [registry] of the declarative base, the registry and the class
    manager the mapping stores on the class, and [mro] of [type]. The
    names with a double underscore are left out: no filter name has one
    in its first segment. *)
Definition declarative_attributes : list string :=
  [ "metadata"; "registry"; "_sa_registry"; "_sa_class_manager"; "mro" ].

(** [cls.__table__.columns]: the columns of the class body, then the
    inherited audit columns. *)
Definition columns (m : ModelClass) : list Column :=
  own_columns m ++ generic_base_columns.

Definition find_column (m : ModelClass) (name : string) : option Column :=
  find (fun c => String.eqb (col_name c) name) (columns m).

Definition is_column (m : ModelClass) (name : string) : bool :=
  match find_column m name with Some _ => true | None => false end.

(** What [getattr(model_class, name, None)] finds: a mapped column, or a
    plain object: one of the methods of the base class or another
    attribute of the class. All of them are truthy. *)
Inductive Attr : Type :=
  | AColumn (c : Column)
  | AMethod (name : string).

Definition getattr_model (m : ModelClass) (name : string) : option Attr :=
  match find_column m name with
  | Some c => Some (AColumn c)
  | None =>
      if existsb (String.eqb name) (generic_base_methods ++ class_attributes m)
      then Some (AMethod name) else None
  end.

(** [hasattr(model_class, name)] *)
Definition hasattr_model (m : ModelClass) (name : string) : bool :=
  match getattr_model m name with Some _ => true | None => false end.

(** [re.sub(r"(?<!^)(?=[A-Z])", "_", name)]: an underscore before every
    capital letter that is not the first character. *)
Fixpoint underscore_capitals (s : string) : string :=
  match s with
  | EmptyString => EmptyString
  | String c rest =>
      if is_upper c then String "_" (String c (underscore_capitals rest))
      else String c (underscore_capitals rest)
  end.

Definition camel_to_snake (name : string) : string :=
  lower (match name with
         | EmptyString => EmptyString
         | String c rest => String c (underscore_capitals rest)
         end).

Definition id_field_name (m : ModelClass) : string :=
  camel_to_snake (cls_name m) +:+ "_id".

(** ** Exceptions *)

Inductive Exn : Type :=
  (* _exceptions.py *)
  | InvalidFilterField (field : string)
  | InvalidFilterMethod (field method : string)
  | DataError (field : string)
  | NotFound (id : Value)
  | NotNullable (field : string)
  (* Python built-ins *)
  | ValueError (msg : string)
  | TypeError
  | AttributeError
  | UnboundLocalError
  (* sqlalchemy.exc *)
  | SqlArgumentError
  | IntegrityError
  | MultipleResultsFound.

Definition Res (A : Type) : Type := Exn + A.

Definition ret {A} (a : A) : Res A := inr a.
Definition raise {A} (e : Exn) : Res A := inl e.
Definition bind {A B} (r : Res A) (k : A -> Res B) : Res B :=
  match r with inl e => inl e | inr a => k a end.

Declare Scope res_scope.
Delimit Scope res_scope with res.
Notation "'do' x <- r ; k" := (bind r (fun x => k))
  (at level 10, x pattern, r at level 100, k at level 200) : res_scope.
Notation "'do_' r ; k" := (bind r (fun _ => k))
  (at level 10, r at level 100, k at level 200) : res_scope.
Local Open Scope res_scope.

(** [get_id_field]: [getattr(cls, <snake name>_id)], which raises when the
    class has no such attribute. *)
Definition get_id_field (m : ModelClass) : Res Attr :=
  match getattr_model m (id_field_name m) with
  | Some a => ret a
  | None => raise AttributeError
  end.

(** ** Rows and tables *)

Abbreviation Row := (list (string * Value)).
Abbreviation Table := (list (list (string * Value))).

(** The value a row holds in a column; a missing cell is NULL. *)
Definition cell (r : Row) (c : string) : Value :=
  match dict_get r c with Some v => v | None => VNone end.

(** ** Query criteria and the backing store *)

Inductive CompareOp : Type :=
  | OpContains      (* column.contains(value) *)
  | OpILike         (* column.ilike(f"%{value}%") *)
  | OpGt | OpGe | OpLt | OpLe.

Inductive Criterion : Type :=
  | CEq (col : string) (v : Value)              (* column == value *)
  | CIn (col : string) (vs : list Value)        (* column.in_(values) *)
  | CCompare (op : CompareOp) (col : string) (v : Value)
  | CFalse.                                     (* filter(False) *)

(** An ordering expression: [column.asc()] or [column.desc()]. *)
Record Ordering : Type := mkOrdering {
  ord_column : string;
  ord_desc : bool
}.

(** The SQL engine behind the session is an external collaborator. How it
    evaluates pattern matches and ordering comparisons, whether it rejects
    a query with a data error, and in which order it returns rows whose
    order keys are equal, are left to it. [sql_tie_rank t qs o limit offset]
    ranks the rows for the query with criteria [qs], ordering [o] and the
    given limit and offset on the table [t]: of two rows with equal order
    keys the one of lower rank comes first. *)
Class SqlEngine : Type := {
  sql_compare : CompareOp -> Value -> Value -> bool;
  raises_data_error : Table -> list Criterion -> bool;
  sql_tie_rank : Table -> list Criterion -> Ordering -> Z -> Z -> Row -> Z
}.

(** A reference engine for concrete runs: pattern matches are substring
    tests, comparisons follow [value_leb], no query is rejected, rows with
    equal order keys come in table order. *)
Fixpoint is_prefix (p s : string) : bool :=
  match p, s with
  | EmptyString, _ => true
  | String a p', String b s' => (Ascii.eqb a b && is_prefix p' s')%bool
  | String _ _, EmptyString => false
  end.

Fixpoint is_substring (p s : string) : bool :=
  (is_prefix p s ||
   match s with
   | EmptyString => false
   | String _ s' => is_substring p s'
   end)%bool.

Definition reference_compare (op : CompareOp) (c v : Value) : bool :=
  match op, c, v with
  | OpContains, VStr s, VStr p => is_substring p s
  | OpILike, VStr s, VStr p => is_substring (lower p) (lower s)
  | OpContains, _, _ | OpILike, _, _ => false
  | OpGt, _, _ => (negb (is_none c) && negb (value_leb c v))%bool
  | OpGe, _, _ => (negb (is_none c) && value_leb v c)%bool
  | OpLt, _, _ => (negb (is_none c) && negb (value_leb v c))%bool
  | OpLe, _, _ => (negb (is_none c) && value_leb c v)%bool
  end.

Definition reference_engine : SqlEngine :=
  {| sql_compare := reference_compare;
     raises_data_error := fun _ _ => false;
     sql_tie_rank := fun _ _ _ _ _ _ => 0 |}.

Section DataAccess.

Context {engine : SqlEngine}.

(** *** Querysets *)

(** A queryset is the conjunction of the criteria it was filtered by. *)
Definition Queryset : Type := list Criterion.

Definition qs_filter (qs : Queryset) (c : Criterion) : Queryset :=
  (qs ++ [c])%list.

Definition criterion_holds (r : Row) (c : Criterion) : bool :=
  match c with
  | CEq col v => value_eqb (cell r col) v
  | CIn col vs =>
      (negb (is_none (cell r col)) && existsb (value_eqb (cell r col)) vs)%bool
  | CCompare op col v => sql_compare op (cell r col) v
  | CFalse => false
  end.

Definition row_selected (qs : Queryset) (r : Row) : bool :=
  forallb (criterion_holds r) qs.

(** The rows a queryset selects, in table order. *)
Definition qs_rows (qs : Queryset) (t : Table) : Table :=
  List.filter (row_selected qs) t.

(** *** Expressions over a class attribute

    A mapped column builds a criterion. A plain object, a method or
    another attribute of the class, compares unequal to every value, has
    no [in_], [contains] or [ilike], and does not support ordering
    comparisons. *)

Definition attr_name (a : Attr) : string :=
  match a with AColumn c => col_name c | AMethod n => n end.

Definition expr_eq (a : Attr) (v : Value) : Res Criterion :=
  match a with
  | AColumn c => ret (CEq (col_name c) v)
  | AMethod _ => ret CFalse
  end.

Definition expr_in (a : Attr) (v : Value) : Res Criterion :=
  match a with
  | AColumn c =>
      match v with
      | VList vs => ret (CIn (col_name c) vs)
      | _ => raise SqlArgumentError
      end
  | AMethod _ => raise AttributeError
  end.

Definition expr_like (op : CompareOp) (a : Attr) (v : Value) : Res Criterion :=
  match a with
  | AColumn c => ret (CCompare op (col_name c) v)
  | AMethod _ => raise AttributeError
  end.

Definition expr_order (op : CompareOp) (a : Attr) (v : Value) : Res Criterion :=
  match a with
  | AColumn c => ret (CCompare op (col_name c) v)
  | AMethod _ => raise TypeError
  end.

(** *** [db/query_parser.py] *)

Record QueryParser : Type := mkQueryParser {
  qp_queryset : Queryset;
  qp_is_method_lookup : bool;
  qp_field : Attr;
  qp_value : Value;
  qp_method : option string
}.

(** [QueryParser.__init__] *)
Definition QueryParser_init (model : ModelClass) (queryset : Queryset)
    (field : string) (value : Value) : Res QueryParser :=
  let args := split_dunder field in
  let is_method_lookup := Nat.ltb 1 (length args) in
  match getattr_model model (nth 0 args "") with
  | None => raise (InvalidFilterField (nth 0 args ""))
  | Some attr =>
      ret {| qp_queryset := queryset;
             qp_is_method_lookup := is_method_lookup;
             qp_field := attr;
             qp_value := value;
             qp_method := if is_method_lookup then Some (nth 1 args "")
                          else None |}
  end.

Definition method_is (method : option string) (s : string) : bool :=
  match method with Some m => String.eqb m s | None => false end.

(** [QueryParser.construct_queryset] *)
Definition construct_queryset (qp : QueryParser) : Res Queryset :=
  let field := qp_field qp in
  let value := qp_value qp in
  let method := qp_method qp in
  let queryset := qp_queryset qp in
  if negb (qp_is_method_lookup qp) then
    do c <- expr_eq field value; ret (qs_filter queryset c)
  else if method_is method "in" then
    do c <- expr_in field value; ret (qs_filter queryset c)
  else if method_is method "contains" then
    do c <- expr_like OpContains field value; ret (qs_filter queryset c)
  else if method_is method "icontains" then
    do c <- expr_like OpILike field value; ret (qs_filter queryset c)
  else if method_is method "gt" then
    do c <- expr_order OpGt field value; ret (qs_filter queryset c)
  else if method_is method "gte" then
    do c <- expr_order OpGe field value; ret (qs_filter queryset c)
  else if method_is method "lt" then
    do c <- expr_order OpLt field value; ret (qs_filter queryset c)
  else if method_is method "lte" then
    do c <- expr_order OpLe field value; ret (qs_filter queryset c)
  else
    raise (InvalidFilterMethod (attr_name field)
             (match method with Some m => m | None => "" end)).

(** *** Orderings ([OrganizationsOrdering], [UsersOrdering]) *)

(** An ordering class: its named orderings. *)
Definition OrderingClass : Type := list (string * Ordering).

Fixpoint getattr_ordering (oc : OrderingClass) (name : string)
    : option Ordering :=
  match oc with
  | [] => None
  | (n, o) :: rest => if String.eqb n name then Some o
                      else getattr_ordering rest name
  end.

(** The order key of [a] is not after that of [b] under the ordering. *)
Definition key_leb (o : Ordering) (a b : Row) : bool :=
  if ord_desc o
  then value_leb (cell b (ord_column o)) (cell a (ord_column o))
  else value_leb (cell a (ord_column o)) (cell b (ord_column o)).

(** [a] may come before [b]: by its order key, and by its rank when the
    keys are equal. *)
Definition ordered_before (o : Ordering) (rank : Row -> Z) (a b : Row) : bool :=
  (key_leb o a b && (negb (key_leb o b a) || (rank a <=? rank b)))%bool.

Fixpoint insert_ordered (o : Ordering) (rank : Row -> Z) (r : Row)
    (sorted : Table) : Table :=
  match sorted with
  | [] => [r]
  | x :: rest =>
      if ordered_before o rank r x then r :: sorted
      else x :: insert_ordered o rank r rest
  end.

(** ORDER BY: the rows by their order keys; rows with equal keys by the
    rank the engine gives them, and in table order when it ranks them
    equal. *)
Definition qs_order_by (o : Ordering) (rank : Row -> Z) (rows : Table) : Table :=
  fold_right (insert_ordered o rank) [] rows.

(** [.limit(size).offset(offset)] *)
Definition qs_limit_offset (size offset : Z) (rows : Table) : Table :=
  firstn (Z.to_nat size) (skipn (Z.to_nat offset) rows).

(** *** [dao/base_dao.py] *)

Record BaseDaoListResponse : Type := mkListResponse {
  items : Table;
  count : Z
}.

Record BaseDao : Type := mkDao {
  _model_class : ModelClass;
  _model_ordering_class : OrderingClass
}.

(** [column.default] is a wrapper object or None; the wrapper is truthy
    whatever scalar it holds. *)
Definition has_default (column : Column) : bool :=
  match col_default column with Some _ => true | None => false end.

(** The set computed by [__init__]: the names of the columns that are not
    nullable and have no default. *)
Definition _non_nullable_columns (self : BaseDao) : list string :=
  map col_name
    (List.filter (fun column => (negb (col_nullable column)
                                 && negb (has_default column))%bool)
       (columns (_model_class self))).

Definition str_in (s : string) (l : list string) : bool :=
  existsb (String.eqb s) l.

Fixpoint verify_null_loop (nn : list string) (kwargs : Kwargs)
    (fields : list string) : Res unit :=
  match fields with
  | [] => ret tt
  | field :: rest =>
      if (str_in field nn && is_none (dict_get_or_none kwargs field))%bool
      then raise (NotNullable field)
      else verify_null_loop nn kwargs rest
  end.

Definition _verify_null_kwargs (self : BaseDao) (kwargs : Kwargs) : Res unit :=
  verify_null_loop (_non_nullable_columns self) kwargs (dict_keys kwargs).

Fixpoint verify_defined_loop (kwargs : Kwargs) (fields : list string)
    : Res unit :=
  match fields with
  | [] => ret tt
  | field :: rest =>
      if negb (dict_mem kwargs field) then raise (NotNullable field)
      else verify_defined_loop kwargs rest
  end.

(** The set is visited in column order here; Python leaves the order of a
    set unspecified, so only the kind of the exception is meaningful when
    several fields are missing. *)
Definition _verify_all_non_nullable_fields_defined (self : BaseDao)
    (kwargs : Kwargs) : Res unit :=
  verify_defined_loop kwargs (_non_nullable_columns self).

Definition enumerate (t : Table) : list (nat * Row) :=
  combine (seq 0 (length t)) t.

(** [_get]: the row whose identifier equals [id] and its position;
    [one_or_none] refuses several matches. *)
Definition _get (self : BaseDao) (id : Value) (t : Table)
    : Res (option (nat * Row)) :=
  do id_field <- get_id_field (_model_class self);
  do c <- expr_eq id_field id;
  match List.filter (fun ir => criterion_holds (snd ir) c) (enumerate t) with
  | [] => ret None
  | [ir] => ret (Some ir)
  | _ => raise MultipleResultsFound
  end.

Definition get (self : BaseDao) (id : Value) (t : Table) : Res (option Row) :=
  do found <- _get self id t;
  ret (option_map snd found).

(** The declarative constructor of the model class, called with the keyword
    arguments: for every key [k], in order, [k] must be an attribute of the
    class and the instance gets [kwargs[k]]; the keys that are columns are
    the cells of the row. *)
Fixpoint model_init_loop (m : ModelClass) (kwargs : Kwargs)
    (keys : list string) (instance : Row) : Res Row :=
  match keys with
  | [] => ret instance
  | k :: rest =>
      if hasattr_model m k
      then model_init_loop m kwargs rest
             (if is_column m k
              then dict_set instance k (dict_get_or_none kwargs k)
              else instance)
      else raise TypeError
  end.

Definition model_init (m : ModelClass) (kwargs : Kwargs) : Res Row :=
  model_init_loop m kwargs (dict_keys kwargs) [].

(** The value an INSERT writes in a column: a cell left at None takes the
    default of the column. *)
Definition stored_value (instance : Row) (c : Column) : Value :=
  match cell instance (col_name c), col_default c with
  | VNone, Some d => d
  | v, _ => v
  end.

Definition inserted_row (m : ModelClass) (instance : Row) : Row :=
  map (fun c => (col_name c, stored_value instance c)) (columns m).

(** The constraints the table declares: NOT NULL, and no second row with
    the same non-null value in a primary-key or unique column. *)
Definition violates_constraints (m : ModelClass) (others : Table) (r : Row)
    : bool :=
  existsb
    (fun c =>
       let v := cell r (col_name c) in
       (negb (col_nullable c) && is_none v)
       || ((col_primary_key c || col_unique c) && negb (is_none v)
           && existsb (fun r' => value_eqb (cell r' (col_name c)) v) others))%bool
    (columns m).

(** [session.commit()] for a new instance. *)
Definition commit_insert (m : ModelClass) (t : Table) (instance : Row)
    : Res Table :=
  let r := inserted_row m instance in
  if violates_constraints m t r then raise IntegrityError
  else ret (t ++ [r])%list.

(** [session.commit()] for a changed instance at position [i]. *)
Definition commit_update (m : ModelClass) (t : Table) (i : nat) (r : Row)
    : Res Table :=
  if violates_constraints m (firstn i t ++ skipn (S i) t)%list r
  then raise IntegrityError
  else ret (<[i := r]> t).

(** An operation that commits leaves the new table; one that raises
    leaves the table as it found it. *)
Definition run_write (t : Table) (r : Res Table) : Res unit * Table :=
  match r with
  | inl e => (inl e, t)
  | inr t' => (inr tt, t')
  end.

Definition create (self : BaseDao) (kwargs : Kwargs) (t : Table)
    : Res unit * Table :=
  let kwargs := dict_set kwargs "updated_by"
                  (dict_get_or_none kwargs "created_by") in
  let kwargs := dict_set kwargs "updated_at"
                  (dict_get_or_none kwargs "created_at") in
  run_write t
    (do_ _verify_null_kwargs self kwargs;
     do_ _verify_all_non_nullable_fields_defined self kwargs;
     do instance <- model_init (_model_class self) kwargs;
     commit_insert (_model_class self) t instance).

(** [setattr(instance, field, kwargs[field])]: only a column is
    persisted. *)
Definition setattr_row (m : ModelClass) (kwargs : Kwargs) (instance : Row)
    (field : string) : Row :=
  if is_column m field
  then dict_set instance field (dict_get_or_none kwargs field)
  else instance.

(** [now] is the value of [datetime.now(timezone.utc)]. *)
Definition update (self : BaseDao) (now : Z) (id : Value) (kwargs : Kwargs)
    (t : Table) : Res unit * Table :=
  match kwargs with
  | [] => (inr tt, t)
  | _ =>
      run_write t
        (do found <- _get self id t;
         match found with
         | None => raise (NotFound id)
         | Some (i, instance) =>
             do_ _verify_null_kwargs self kwargs;
             let instance :=
               fold_left (setattr_row (_model_class self) kwargs)
                 (dict_keys kwargs) instance in
             let instance := dict_set instance "updated_at" (VTime now) in
             commit_update (_model_class self) t i instance
         end)
  end.

Definition soft_delete (self : BaseDao) (id updated_by updated_at : Value)
    (t : Table) : Res unit * Table :=
  if negb (truthy id) then (inl (ValueError "id is undefined"), t)
  else if negb (truthy updated_by)
  then (inl (ValueError "updated_by is undefined"), t)
  else if negb (truthy updated_at)
  then (inl (ValueError "updated_at is undefined"), t)
  else
    run_write t
      (do found <- _get self id t;
       match found with
       | None => raise (NotFound id)
       | Some (i, instance) =>
           let instance := dict_set instance "updated_by" updated_by in
           let instance := dict_set instance "updated_at" updated_at in
           let instance := dict_set instance "is_deleted" (VBool true) in
           commit_update (_model_class self) t i instance
       end).

(** The loop over [filter_fields.items()]. [last] is the loop variable
    [field] as the exception handler would find it. *)
Fixpoint apply_filter_fields (m : ModelClass) (queryset : Queryset)
    (last : option string) (filter_fields : Kwargs)
    : Res (Queryset * option string) :=
  match filter_fields with
  | [] => ret (queryset, last)
  | (field, value) :: rest =>
      if is_none value then apply_filter_fields m queryset (Some field) rest
      else
        do qp <- QueryParser_init m queryset field value;
        do queryset <- construct_queryset qp;
        apply_filter_fields m queryset (Some field) rest
  end.

Definition list_ (self : BaseDao) (page size : Z) (order_by : string)
    (pk_ids : list Value) (include_deleted : bool) (filter_fields : Kwargs)
    (t : Table) : Res BaseDaoListResponse :=
  if page <? 0 then raise (ValueError "page must be >= 0")
  else if ((size <? 1) || (100 <? size))%bool
  then raise (ValueError "size must be between 1 and 100")
  else
    let m := _model_class self in
    let queryset : Queryset := [] in
    do queryset <-
      (if negb include_deleted then
         match getattr_model m "is_deleted" with
         | Some a => do c <- expr_eq a (VBool false);
                     ret (qs_filter queryset c)
         | None => raise AttributeError
         end
       else ret queryset);
    do queryset <-
      (match pk_ids with
       | [] => ret queryset
       | _ => do id_field <- get_id_field m;
              do c <- expr_in id_field (VList pk_ids);
              ret (qs_filter queryset c)
       end);
    do filtered <- apply_filter_fields m queryset None filter_fields;
    let (queryset, last) := filtered in
    if raises_data_error t queryset then
      match last with
      | Some field => raise (DataError field)
      | None => raise UnboundLocalError
      end
    else
      let count := Z.of_nat (length (qs_rows queryset t)) in
      match getattr_ordering (_model_ordering_class self) order_by with
      | None => raise AttributeError
      | Some o =>
          let results :=
            qs_limit_offset size (page * size)
              (qs_order_by o (sql_tie_rank t queryset o size (page * size))
                 (qs_rows queryset t)) in
          ret (mkListResponse results count)
      end.

(** [list] as Python runs it on whatever the call binds to [size],
    [pk_ids] and [include_deleted]: the annotations are not enforced.
    Comparing [size] with a number raises TypeError unless it is an
    integer or a boolean, [pk_ids] and [include_deleted] are read for
    their truth value, and [in_] takes the value of [pk_ids] as it is. *)
Definition as_int (v : Value) : option Z :=
  match v with
  | VInt n => Some n
  | VBool b => Some (if b then 1 else 0)
  | _ => None
  end.

Definition list_untyped (self : BaseDao) (page : Z) (size : Value)
    (order_by : string) (pk_ids include_deleted : Value)
    (filter_fields : Kwargs) (t : Table) : Res BaseDaoListResponse :=
  if page <? 0 then raise (ValueError "page must be >= 0")
  else
    match as_int size with
    | None => raise TypeError
    | Some size =>
        if ((size <? 1) || (100 <? size))%bool
        then raise (ValueError "size must be between 1 and 100")
        else
          let m := _model_class self in
          let queryset : Queryset := [] in
          do queryset <-
            (if negb (truthy include_deleted) then
               match getattr_model m "is_deleted" with
               | Some a => do c <- expr_eq a (VBool false);
                           ret (qs_filter queryset c)
               | None => raise AttributeError
               end
             else ret queryset);
          do queryset <-
            (if truthy pk_ids then
               do id_field <- get_id_field m;
               do c <- expr_in id_field pk_ids;
               ret (qs_filter queryset c)
             else ret queryset);
          do filtered <- apply_filter_fields m queryset None filter_fields;
          let (queryset, last) := filtered in
          if raises_data_error t queryset then
            match last with
            | Some field => raise (DataError field)
            | None => raise UnboundLocalError
            end
          else
            let count := Z.of_nat (length (qs_rows queryset t)) in
            match getattr_ordering (_model_ordering_class self) order_by with
            | None => raise AttributeError
            | Some o =>
                let results :=
                  qs_limit_offset size (page * size)
                    (qs_order_by o
                       (sql_tie_rank t queryset o size (page * size))
                       (qs_rows queryset t)) in
                ret (mkListResponse results count)
            end
    end.

End DataAccess.

(** ** [utils/utils.py] *)

(** The [list] method of the dao the helper is handed, applied to the
    keyword arguments the helper passes: [page], [order_by] and the filter
    fields. Taking it as a parameter lets the store change between two
    calls. *)
Definition DaoList : Type :=
  Z -> string -> Kwargs -> Res BaseDaoListResponse.

(** The [while max_pages > 0] loop; [max_pages] counts down to zero. *)
Fixpoint fetch_loop (dao_list : DaoList) (column_name : string)
    (column_type_filter_value : Value) (order_by : string)
    (records_list : Table) (max_pages : nat) (page_offset : Z) : Res Table :=
  match max_pages with
  | O => ret records_list
  | S max_pages' =>
      do users_response <-
        dao_list page_offset order_by [(column_name, column_type_filter_value)];
      if count users_response >? 0
      then ret (records_list ++ items users_response)%list
      else fetch_loop dao_list column_name column_type_filter_value order_by
             records_list max_pages' (page_offset + 1)
  end.

Definition fetch_row_based_on_column (dao_list : DaoList)
    (column_name : string) (column_type_filter_value : Value)
    (page_offset max_pages : Z) (order_by : string) : Res Table :=
  let records_list : Table := [] in
  let max_pages := 10 in
  let page_offset := 0 in
  let order_by := "CREATED_AT_ASC" in
  fetch_loop dao_list column_name column_type_filter_value order_by
    records_list (Z.to_nat max_pages) page_offset.

(** The names of the parameters of [list]. *)
Definition list_parameters : list string :=
  [ "self"; "page"; "size"; "order_by"; "pk_ids"; "include_deleted" ].

(** [dao.list(page=..., order_by=..., **kwargs)] on a [BaseDao] over a
    table, as Python binds the keywords: a key [page] or [order_by] is
    given twice and a key [self] clashes with the instance, which raises
    TypeError; a key [size], [pk_ids] or [include_deleted] is bound to that
    parameter of [list], which otherwise keeps its default; every other
    key is a filter field. *)
Definition dao_list_of {engine : SqlEngine} (dao : BaseDao) (t : Table)
    : DaoList :=
  fun page order_by kwargs =>
    if (dict_mem kwargs "self" || dict_mem kwargs "page"
        || dict_mem kwargs "order_by")%bool
    then raise TypeError
    else
      let size :=
        match dict_get kwargs "size" with Some v => v | None => VInt 100 end in
      let pk_ids :=
        match dict_get kwargs "pk_ids" with Some v => v | None => VList [] end in
      let include_deleted :=
        match dict_get kwargs "include_deleted" with
        | Some v => v
        | None => VBool false
        end in
      let filter_fields :=
        List.filter
          (fun kv => negb (str_in (fst kv) list_parameters)) kwargs in
      list_untyped dao page size order_by pk_ids include_deleted filter_fields t.

(** ** The two entities of the service ([models/oms_models.py],
    [dao/oms_dao.py]) *)

Definition Organizations : ModelClass :=
  mkModel "Organizations"
    [ mkColumn "organizations_id" TString false None true false;
      mkColumn "organization_name" TString false None false true;
      mkColumn "created_by_password" TString false None false true ]
    declarative_attributes.

Definition OrganizationsOrdering : OrderingClass :=
  [ ("CREATED_AT_ASC", mkOrdering "created_at" false);
    ("CREATED_AT_DESC", mkOrdering "created_at" true) ].

Definition Users : ModelClass :=
  mkModel "Users"
    [ mkColumn "users_id" TString false None true false;
      mkColumn "user_email" TString false None false true;
      mkColumn "user_password" TString false None false false;
      mkColumn "user_type" TString false None false false ]
    declarative_attributes.

Definition UsersOrdering : OrderingClass :=
  [ ("CREATED_AT_ASC", mkOrdering "created_at" false);
    ("CREATED_AT_DESC", mkOrdering "created_at" true) ].

Definition OrganizationsDAO : BaseDao := mkDao Organizations OrganizationsOrdering.
Definition UsersDAO : BaseDao := mkDao Users UsersOrdering.


(** ** [services/oms_service.py] *)

(** The two tables the service works on. *)
Record ServiceStore : Type := mkStore {
  organizations : Table;
  users : Table
}.

(** The exceptions the service raises itself: [Exception(message)]. *)
Inductive ServiceExn : Type :=
  | ServiceException (message : string).

(** The two handlers of [create_organization]: an integrity error of the
    store, then any other exception. *)
Definition create_organization_handler (e : Exn) : ServiceExn :=
  match e with
  | IntegrityError =>
      ServiceException "Organization or Admin with this email already exists"
  | _ => ServiceException "Failed to create organization"
  end.

Section OmsService.

Context {engine : SqlEngine}.

(** Password hashing and token signing are left to bcrypt and jwt: the
    check of a password against a hash and the token issued for an email
    are taken as given. *)
Variable _verify_password : string -> string -> bool.
Variable _generate_jwt_token : string -> string.

(** [create_organization]. [hashed_password] is the hash bcrypt returned,
    [organization_id] and [admin_id] the two serialized uuids, [now_org]
    and [now_user] the two readings of the clock. *)
Definition create_organization
    (hashed_password organization_id admin_id : string) (now_org now_user : Z)
    (org_name admin_email : string) (s : ServiceStore)
    : (ServiceExn + Kwargs) * ServiceStore :=
  let org_data : Kwargs :=
    [ ("created_at", VTime now_org);
      ("created_by", VStr admin_email);
      ("created_by_password", VStr hashed_password);
      ("organizations_id", VStr organization_id);
      ("organization_name", VStr org_name) ] in
  match create OrganizationsDAO org_data (organizations s) with
  | (inl e, _) => (inl (create_organization_handler e), s)
  | (inr _, organizations') =>
      let s := mkStore organizations' (users s) in
      let user_data : Kwargs :=
        [ ("created_at", VTime now_user);
          ("created_by", VStr admin_email);
          ("users_id", VStr admin_id);
          ("user_email", VStr admin_email);
          ("user_password", VStr hashed_password);
          ("user_type", VStr "ADMIN") ] in
      match create UsersDAO user_data (users s) with
      | (inl e, _) => (inl (create_organization_handler e), s)
      | (inr _, users') =>
          (inr [ ("message", VStr "Organization created successfully");
                 ("organization_id", VStr organization_id) ],
           mkStore (organizations s) users')
      end
  end.

(** [get_organization_by_name] *)
Definition get_organization_by_name (org_name : string) (s : ServiceStore)
    : Res (option Kwargs) :=
  do records_list <-
    fetch_row_based_on_column (dao_list_of OrganizationsDAO (organizations s))
      "organization_name" (VStr org_name) 0 10 "CREATED_AT_ASC";
  match records_list with
  | [] => ret None
  | record :: _ =>
      ret (Some [ ("org_id", cell record "organizations_id");
                  ("org_name", cell record "organization_name");
                  ("created_by", cell record "created_by") ])
  end.

(** [authenticate_admin]. A stored password that is no string cannot be
    encoded. *)
Definition authenticate_admin (email password : string) (s : ServiceStore)
    : Res (option string) :=
  do records_list <-
    fetch_row_based_on_column (dao_list_of UsersDAO (users s))
      "user_email" (VStr email) 0 10 "CREATED_AT_ASC";
  match records_list with
  | [] => ret None
  | record :: _ =>
      match cell record "user_password" with
      | VStr hashed_password =>
          if negb (_verify_password password hashed_password) then ret None
          else ret (Some (_generate_jwt_token email))
      | _ => raise AttributeError
      end
  end.

End OmsService.

(** ** [api/v1/endpoints/oms.py] *)

(** What an endpoint answers: a JSON object, or the [ErrorResponse] model
    with its [status] and the two fields of its [ErrorData]. *)
Inductive ResponseBody : Type :=
  | JsonObject (d : Kwargs)
  | ErrorResponse (status : Z) (failure_code failure_message : string).

(** The status code of the FastAPI response, 200 unless the endpoint sets
    it, and the value the endpoint returns. *)
Record HttpResponse : Type := mkResponse {
  status_code : Z;
  content : ResponseBody
}.

Definition HTTP_200_OK : Z := 200.
Definition HTTP_401_UNAUTHORIZED : Z := 401.
Definition HTTP_404_NOT_FOUND : Z := 404.

Section OmsEndpoints.

Context {engine : SqlEngine}.

Variable _verify_password : string -> string -> bool.
Variable _generate_jwt_token : string -> string.

(** [create_org]: every exception of the service is answered with 404;
    [str(e)] is the message of the exception. *)
Definition create_org (hashed_password organization_id admin_id : string)
    (now_org now_user : Z) (org_name admin_email : string) (s : ServiceStore)
    : HttpResponse * ServiceStore :=
  match create_organization hashed_password organization_id admin_id now_org
          now_user org_name admin_email s with
  | (inr d, s') => (mkResponse HTTP_200_OK (JsonObject d), s')
  | (inl (ServiceException message), s') =>
      (mkResponse HTTP_404_NOT_FOUND
         (ErrorResponse HTTP_404_NOT_FOUND "Failed to create Organization"
            message),
       s')
  end.

(** [get_org]: an exception of the service is not handled here. [not org]
    holds of None and of an empty dictionary. *)
Definition get_org (org_name : string) (s : ServiceStore) : Res HttpResponse :=
  do org <- get_organization_by_name org_name s;
  match org with
  | None | Some [] =>
      ret (mkResponse HTTP_404_NOT_FOUND
             (ErrorResponse HTTP_404_NOT_FOUND "Organization not found"
                "Organization not found"))
  | Some d => ret (mkResponse HTTP_200_OK (JsonObject d))
  end.

(** [admin_login]: [not token] holds of None and of the empty string. *)
Definition admin_login (user_email user_password : string) (s : ServiceStore)
    : Res HttpResponse :=
  do token <-
    authenticate_admin _verify_password _generate_jwt_token user_email
      user_password s;
  match token with
  | None | Some EmptyString =>
      ret (mkResponse HTTP_401_UNAUTHORIZED
             (ErrorResponse HTTP_401_UNAUTHORIZED "Invalid credentials"
                "Invalid credentials"))
  | Some token =>
      ret (mkResponse HTTP_200_OK (JsonObject [("access_token", VStr token)]))
  end.

End OmsEndpoints.

(** ** [utils/serialization.py] *)

(** The objects [serialize] tells apart, each given by the first of its
    tests the object passes, with what the branch of that test reads from
    it: a pydantic model by the dictionary its [dict()] returns, a
    callable and an object of no known type by their [repr], an enum
    member by its [value], a float by its digits, a datetime or date by
    its [isoformat()], a timedelta by its [total_seconds()], a uuid by its
    [str]. A dict and a list are told from the other mappings and
    iterables, which are given by their items in iteration order. *)
#[local] Unset Elimination Schemes.
Inductive PyObject : Type :=
  | PNone
  | PBaseModel (dict : list (PyObject * PyObject))
  | PCallable (repr : string)
  | PEnum (value : PyObject)
  | PBool (b : bool)
  | PInt (n : Z)
  | PFloat (digits : string)
  | PStr (s : string)
  | PDateTime (isoformat : string)
  | PTimedelta (total_seconds : string)
  | PUUID (str : string)
  | PBytes (b : list Byte.byte)
  | PDict (items : list (PyObject * PyObject))
  | PMapping (items : list (PyObject * PyObject))
  | PList (elements : list PyObject)
  | PIterable (elements : list PyObject)
  | PObject (repr : string).
#[local] Set Elimination Schemes.

(** [{k: f(v) for k, v in items}] and [[f(v) for v in elements]], where
    [f] may raise: the first exception ends the comprehension. *)
Definition comprehension_values {K A B : Type} (f : A -> Res B)
    : list (K * A) -> Res (list (K * B)) :=
  fix go (items : list (K * A)) : Res (list (K * B)) :=
    match items with
    | [] => ret []
    | (k, v) :: rest =>
        do v' <- f v;
        do rest' <- go rest;
        ret ((k, v') :: rest')
    end.

Definition comprehension {A B : Type} (f : A -> Res B)
    : list A -> Res (list B) :=
  fix go (elements : list A) : Res (list B) :=
    match elements with
    | [] => ret []
    | v :: rest =>
        do v' <- f v;
        do rest' <- go rest;
        ret (v' :: rest')
    end.

Section Serialization.

(** [bytes.decode(decoder)] is left to the codec: it returns the string or
    raises. *)
Variable decode : list Byte.byte -> string -> Res string.

(** [serialize]. The calls on the values of a mapping, on the elements of
    an iterable and on the dictionary of a model pass no decoder, so they
    run with the default "utf8". The dictionary of a model is a dict and
    takes the branch of the mappings. *)
Fixpoint serialize (obj : PyObject) (decoder : string) {struct obj}
    : Res PyObject :=
  match obj with
  | PNone => ret PNone
  | PBaseModel dict =>
      do items <- comprehension_values (fun v => serialize v "utf8") dict;
      ret (PDict items)
  | PCallable repr => ret (PStr repr)
  | PEnum value => ret value
  | PBool _ | PInt _ | PFloat _ | PStr _ => ret obj
  | PDateTime isoformat => ret (PStr isoformat)
  | PTimedelta total_seconds => ret (PFloat total_seconds)
  | PUUID str => ret (PStr str)
  | PBytes b => do s <- decode b decoder; ret (PStr s)
  | PDict items | PMapping items =>
      do items' <- comprehension_values (fun v => serialize v "utf8") items;
      ret (PDict items')
  | PList elements | PIterable elements =>
      do elements' <- comprehension (fun v => serialize v "utf8") elements;
      ret (PList elements')
  | PObject repr => ret (PStr repr)
  end.

End Serialization.

(** ** Notions the specification speaks in *)

(** Structural induction on values, through the elements of a list. *)
Fixpoint Value_induction (P : Value -> Prop)
    (fNone : P VNone) (fBool : forall b, P (VBool b))
    (fInt : forall n, P (VInt n)) (fStr : forall s, P (VStr s))
    (fTime : forall t, P (VTime t))
    (fList : forall l, Forall P l -> P (VList l)) (v : Value) : P v :=
  match v with
  | VNone => fNone
  | VBool b => fBool b
  | VInt n => fInt n
  | VStr s => fStr s
  | VTime t => fTime t
  | VList l =>
      fList l
        ((fix go (l : list Value) : Forall P l :=
            match l with
            | [] => @List.Forall_nil _ P
            | x :: xs =>
                @List.Forall_cons _ P x xs
                  (Value_induction P fNone fBool fInt fStr fTime fList x) (go xs)
            end) l)
  end.

(** A column is required on create when it is not nullable and has no
    default. *)
Definition required_on_create (self : BaseDao) (f : string) : Prop :=
  exists c, In c (columns (_model_class self)) /\ col_name c = f /\
            col_nullable c = false /\ col_default c = None.

(** A mapping leaves a field out, or supplies it as None. *)
Definition absent_or_null (kwargs : Kwargs) (f : string) : Prop :=
  dict_get kwargs f = None \/ dict_get kwargs f = Some VNone.

(** The mapping [create] validates: the caller's, with the two update
    columns overwritten. *)
Definition with_update_columns (kwargs : Kwargs) : Kwargs :=
  let kwargs := dict_set kwargs "updated_by"
                  (dict_get_or_none kwargs "created_by") in
  dict_set kwargs "updated_at" (dict_get_or_none kwargs "created_at").

(** The mapping [OmsService.create_organization] hands to [create]. *)
Definition org_data : Kwargs :=
  [ ("created_at", VTime 1732838400);
    ("created_by", VStr "a@x.com");
    ("created_by_password", VStr "hash");
    ("organizations_id", VStr "o1");
    ("organization_name", VStr "Acme") ].

(** Every column of [Organizations] supplied, the name as None. *)
Definition org_data_null_name : Kwargs :=
  [ ("created_at", VTime 1732838400);
    ("created_by", VStr "a@x.com");
    ("updated_at", VTime 1732838400);
    ("updated_by", VStr "a@x.com");
    ("created_by_password", VStr "hash");
    ("organizations_id", VStr "o1");
    ("organization_name", VNone) ].

(** The service's mapping, with the updater explicitly None. *)
Definition org_data_null_updater : Kwargs :=
  (org_data ++ [ ("updated_by", VNone) ])%list.

(** Two of the required fields, in both orders. *)
Definition audit_only : Kwargs :=
  [ ("created_at", VTime 1732838400); ("created_by", VStr "a@x.com") ].

Definition audit_only_swapped : Kwargs :=
  [ ("created_by", VStr "a@x.com"); ("created_at", VTime 1732838400) ].

(** The service's mapping, with another updater and update time. *)
Definition org_data_other_updater : Kwargs :=
  (org_data ++ [ ("updated_by", VStr "b@y.org"); ("updated_at", VTime 5) ])%list.

(** *** Filter expressions (section 4.2 of the specification) *)

(** The field of a raw filter name: its segment before any [__]. *)
Definition first_segment (name : string) : string :=
  nth 0 (split_dunder name) "".

(** The operator of a raw filter name: its second segment, if any. *)
Definition operator_suffix (name : string) : option string :=
  if Nat.ltb 1 (length (split_dunder name))
  then Some (nth 1 (split_dunder name) "") else None.

(** The fixed operator set. *)
Definition lookup_methods : list string :=
  [ "in"; "contains"; "icontains"; "gt"; "gte"; "lt"; "lte" ].

(** The criterion one filter field adds, or the exception it raises. *)
Definition filter_criterion (m : ModelClass) (name : string) (value : Value)
    : Res Criterion :=
  match getattr_model m (first_segment name) with
  | None => raise (InvalidFilterField (first_segment name))
  | Some a =>
      match operator_suffix name with
      | None => expr_eq a value
      | Some op =>
          if String.eqb op "in" then expr_in a value
          else if String.eqb op "contains" then expr_like OpContains a value
          else if String.eqb op "icontains" then expr_like OpILike a value
          else if String.eqb op "gt" then expr_order OpGt a value
          else if String.eqb op "gte" then expr_order OpGe a value
          else if String.eqb op "lt" then expr_order OpLt a value
          else if String.eqb op "lte" then expr_order OpLe a value
          else raise (InvalidFilterMethod (attr_name a) op)
      end
  end.

(** The criteria a mapping of filter fields adds, in order; a field whose
    value is None adds none. *)
Fixpoint filter_criteria (m : ModelClass) (filter_fields : Kwargs)
    : Res (list Criterion) :=
  match filter_fields with
  | [] => ret []
  | (name, value) :: rest =>
      if is_none value then filter_criteria m rest
      else do c <- filter_criterion m name value;
           do cs <- filter_criteria m rest;
           ret (c :: cs)
  end.

(** A filter field the parser lets through. *)
Definition filter_accepted (m : ModelClass) (kv : string * Value) : bool :=
  (is_none (snd kv)
   || match filter_criterion m (fst kv) (snd kv) with
      | inr _ => true
      | inl _ => false
      end)%bool.

(** The last key of a mapping, after [last]. *)
Definition last_key (last : option string) (filter_fields : Kwargs)
    : option string :=
  fold_left (fun _ kv => Some (fst kv)) filter_fields last.

(** The queryset before the filter fields are looked at. *)
Definition base_queryset (m : ModelClass) (include_deleted : bool)
    (pk_ids : list Value) : Res Queryset :=
  do queryset <-
    (if negb include_deleted then ret [CEq "is_deleted" (VBool false)]
     else ret []);
  match pk_ids with
  | [] => ret queryset
  | _ => do id_field <- get_id_field m;
         do c <- expr_in id_field (VList pk_ids);
         ret (qs_filter queryset c)
  end.

(** The model has its identifier column. *)
Definition has_id_column (m : ModelClass) : Prop :=
  is_column m (id_field_name m) = true.

(** No row of the table carries the identifier. *)
Definition no_record (m : ModelClass) (id : Value) (t : Table) : Prop :=
  forall r, In r t -> cell r (id_field_name m) <> id.

Section Matching.

Context {engine : SqlEngine}.

(** Whether a row satisfies the filter expression [name = value], read as
    the specification does: the field compared for equality when there is
    no operator, and by the operator otherwise. *)
Definition filter_expression_holds (m : ModelClass) (r : Row) (name : string)
    (value : Value) : bool :=
  let field := first_segment name in
  if is_column m field then
    match operator_suffix name with
    | None => value_eqb (cell r field) value
    | Some op =>
        if String.eqb op "in" then
          match value with
          | VList vs => (negb (is_none (cell r field))
                         && existsb (value_eqb (cell r field)) vs)%bool
          | _ => false
          end
        else if String.eqb op "contains"
        then sql_compare OpContains (cell r field) value
        else if String.eqb op "icontains"
        then sql_compare OpILike (cell r field) value
        else if String.eqb op "gt" then sql_compare OpGt (cell r field) value
        else if String.eqb op "gte" then sql_compare OpGe (cell r field) value
        else if String.eqb op "lt" then sql_compare OpLt (cell r field) value
        else if String.eqb op "lte" then sql_compare OpLe (cell r field) value
        else false
    end
  else false.

(** The records matching a call of [list]: not soft-deleted unless
    included, among the identifiers when some are given, and satisfying
    every filter field whose value is not None. *)
Definition record_matches (self : BaseDao) (pk_ids : list Value)
    (include_deleted : bool) (filter_fields : Kwargs) (r : Row) : bool :=
  let m := _model_class self in
  ((include_deleted || value_eqb (cell r "is_deleted") (VBool false))
   && match pk_ids with
      | [] => true
      | _ => negb (is_none (cell r (id_field_name m)))
             && existsb (value_eqb (cell r (id_field_name m))) pk_ids
      end
   && forallb
        (fun kv => is_none (snd kv)
                   || filter_expression_holds m r (fst kv) (snd kv))
        filter_fields)%bool.

End Matching.

(** *** Concrete stores, run on the reference engine *)

(** The table after the service created the organization "Acme". *)
Definition acme_table : Table :=
  snd (create OrganizationsDAO org_data []).

(** The same table after "o1" was soft-deleted. *)
Definition acme_deleted : Table :=
  snd (soft_delete (engine := reference_engine) OrganizationsDAO
         (VStr "o1") (VStr "a@x.com") (VTime 1732838500) acme_table).

(** The mapping of the [n]-th of many organizations, created at time [n]. *)
Definition nth_org_data (n : nat) : Kwargs :=
  [ ("created_at", VTime (Z.of_nat n));
    ("created_by", VStr "a@x.com");
    ("created_by_password", VStr ("hash" +:+ pretty n));
    ("organizations_id", VStr ("o" +:+ pretty n));
    ("organization_name", VStr ("Org" +:+ pretty n)) ].

(** 101 organizations "o0" ... "o100", created one after the other. *)
Definition many_orgs : Table :=
  fold_left (fun t n => snd (create OrganizationsDAO (nth_org_data n) t))
    (seq 0 101) [].

(** The same, after the oldest one was soft-deleted. *)
Definition many_orgs_deleted : Table :=
  snd (soft_delete (engine := reference_engine) OrganizationsDAO
         (VStr "o0") (VStr "a@x.com") (VTime 1000) many_orgs).

(** A dao whose [list] finds nothing on pages 0 to 2 and one record on
    page 3, as when the record is stored between two calls. *)
Definition late_dao_list : DaoList :=
  fun page _ _ =>
    if page =? 3 then inr (mkListResponse [ [("k", VStr "late")] ] 1)
    else inr (mkListResponse [] 0).

(** A dao whose [list] never finds anything. *)
Definition empty_dao_list : DaoList :=
  fun _ _ _ => inr (mkListResponse [] 0).

(** The first page of all organizations, soft-deleted ones included,
    with the default arguments of [list]. *)
Definition many_orgs_first_page : BaseDaoListResponse :=
  match list_ (engine := reference_engine) OrganizationsDAO 0 100
          "CREATED_AT_DESC" [] true [] many_orgs_deleted with
  | inr resp => resp
  | inl _ => mkListResponse [] 0
  end.

(** The service's mapping, with the soft-delete flag explicitly None. *)
Definition org_data_null_flag : Kwargs :=
  (org_data ++ [ ("is_deleted", VNone) ])%list.

(** A mapping for [update]: a new name, an update time of the caller's
    and a key that is no column. *)
Definition rename_data : Kwargs :=
  [ ("organization_name", VStr "Acme Ltd");
    ("updated_at", VTime 1);
    ("nickname", VStr "acme") ].

(** The table after "o1" was renamed at time 1732838600. *)
Definition acme_renamed : Table :=
  snd (update (engine := reference_engine) OrganizationsDAO 1732838600
         (VStr "o1") rename_data acme_table).

(** An engine that rejects, with a data error, a query that compares the
    creation time with a string. *)
Definition datetime_engine : SqlEngine :=
  {| sql_compare := reference_compare;
     raises_data_error :=
       fun _ qs =>
         existsb
           (fun c => match c with
                     | CEq col (VStr _) => String.eqb col "created_at"
                     | _ => false
                     end) qs;
     sql_tie_rank := fun _ _ _ _ _ _ => 0 |}.

(** Three organizations "o0", "o1", "o2", created in this order. *)
Definition few_orgs : Table :=
  fold_left (fun t n => snd (create OrganizationsDAO (nth_org_data n) t))
    (seq 0 3) [].

(** No two different rows have equal order keys. *)
Definition order_keys_distinct (o : Ordering) (rows : Table) : Prop :=
  forall a b, In a rows -> In b rows ->
    key_leb o a b = true -> key_leb o b a = true -> a = b.

(** *** Filter names, as strings *)

(** ["__".join(segments)] *)
Fixpoint join_dunder (segments : list string) : string :=
  match segments with
  | [] => ""
  | s :: rest =>
      match rest with
      | [] => s
      | _ => s +:+ "__" +:+ join_dunder rest
      end
  end.

(** The string holds two underscores in a row. *)
Fixpoint has_dunder (s : string) : bool :=
  match s with
  | String a rest =>
      match rest with
      | String b _ => (Ascii.eqb a "_" && Ascii.eqb b "_") || has_dunder rest
      | EmptyString => false
      end
  | EmptyString => false
  end%bool.

(** The last character of the string is an underscore. *)
Fixpoint ends_with_underscore (s : string) : bool :=
  match s with
  | String a rest =>
      match rest with
      | EmptyString => Ascii.eqb a "_"
      | _ => ends_with_underscore rest
      end
  | EmptyString => false
  end.

(** What [QueryParser] makes of a raw filter name and a value. *)
Definition parse_filter (m : ModelClass) (qs : Queryset) (name : string)
    (value : Value) : Res Queryset :=
  do qp <- QueryParser_init m qs name value; construct_queryset qp.

(** The rows [create_organization] stores. *)
Definition org_row (hashed_password organization_id : string) (now : Z)
    (org_name admin_email : string) : Row :=
  [ ("organizations_id", VStr organization_id);
    ("organization_name", VStr org_name);
    ("created_by_password", VStr hashed_password);
    ("created_at", VTime now);
    ("created_by", VStr admin_email);
    ("updated_at", VTime now);
    ("updated_by", VStr admin_email);
    ("is_deleted", VBool false) ].

Definition admin_row (hashed_password admin_id : string) (now : Z)
    (admin_email : string) : Row :=
  [ ("users_id", VStr admin_id);
    ("user_email", VStr admin_email);
    ("user_password", VStr hashed_password);
    ("user_type", VStr "ADMIN");
    ("created_at", VTime now);
    ("created_by", VStr admin_email);
    ("updated_at", VTime now);
    ("updated_by", VStr admin_email);
    ("is_deleted", VBool false) ].

(** A password check and a token issuer for concrete runs. *)
Definition plain_verify (password hashed : string) : bool :=
  String.eqb ("hash:" +:+ password) hashed.

Definition plain_token (email : string) : string := "token:" +:+ email.

(** The store after the service created "Acme" with its admin. *)
Definition acme_store : ServiceStore :=
  snd (create_organization "hash:secret" "o1" "u1" 1732838400 1732838401
         "Acme" "a@x.com" (mkStore [] [])).

(** Structural induction on objects, through the values of a mapping and
    the elements of an iterable. *)
Fixpoint PyObject_induction (P : PyObject -> Prop)
    (fNone : P PNone)
    (fBaseModel : forall d, Forall (fun kv => P (snd kv)) d -> P (PBaseModel d))
    (fCallable : forall r, P (PCallable r))
    (fEnum : forall v, P v -> P (PEnum v))
    (fBool : forall b, P (PBool b)) (fInt : forall n, P (PInt n))
    (fFloat : forall x, P (PFloat x)) (fStr : forall x, P (PStr x))
    (fDateTime : forall x, P (PDateTime x))
    (fTimedelta : forall x, P (PTimedelta x))
    (fUUID : forall x, P (PUUID x)) (fBytes : forall b, P (PBytes b))
    (fDict : forall d, Forall (fun kv => P (snd kv)) d -> P (PDict d))
    (fMapping : forall d, Forall (fun kv => P (snd kv)) d -> P (PMapping d))
    (fList : forall l, Forall P l -> P (PList l))
    (fIterable : forall l, Forall P l -> P (PIterable l))
    (fObject : forall r, P (PObject r))
    (obj : PyObject) {struct obj} : P obj :=
  let rec := PyObject_induction P fNone fBaseModel fCallable fEnum fBool fInt
               fFloat fStr fDateTime fTimedelta fUUID fBytes fDict fMapping
               fList fIterable fObject in
  let values :=
    fix go (d : list (PyObject * PyObject)) : Forall (fun kv => P (snd kv)) d :=
      match d with
      | [] => @List.Forall_nil _ _
      | kv :: rest => @List.Forall_cons _ _ kv rest (rec (snd kv)) (go rest)
      end in
  let elements :=
    fix go (l : list PyObject) : Forall P l :=
      match l with
      | [] => @List.Forall_nil _ _
      | x :: rest => @List.Forall_cons _ _ x rest (rec x) (go rest)
      end in
  match obj with
  | PNone => fNone
  | PBaseModel d => fBaseModel d (values d)
  | PCallable r => fCallable r
  | PEnum v => fEnum v (rec v)
  | PBool b => fBool b
  | PInt n => fInt n
  | PFloat x => fFloat x
  | PStr x => fStr x
  | PDateTime x => fDateTime x
  | PTimedelta x => fTimedelta x
  | PUUID x => fUUID x
  | PBytes b => fBytes b
  | PDict d => fDict d (values d)
  | PMapping d => fMapping d (values d)
  | PList l => fList l (elements l)
  | PIterable l => fIterable l (elements l)
  | PObject r => fObject r
  end.

(** What JSON can hold: None, a number, a string, a boolean, a dict of
    such values under any keys, a list of such values. *)
Fixpoint plain (obj : PyObject) : bool :=
  match obj with
  | PNone | PBool _ | PInt _ | PFloat _ | PStr _ => true
  | PDict items => forallb (fun kv => plain (snd kv)) items
  | PList elements => forallb plain elements
  | _ => false
  end.

(** Every enum member among the object, the values of its mappings and
    the elements of its iterables has a plain value. *)
Fixpoint enums_plain (obj : PyObject) : bool :=
  match obj with
  | PEnum value => plain value
  | PBaseModel items | PDict items | PMapping items =>
      forallb (fun kv => enums_plain (snd kv)) items
  | PList elements | PIterable elements => forallb enums_plain elements
  | _ => true
  end.

(** A codec for concrete runs: every byte is a character. *)
Definition latin1_decode (b : list Byte.byte) (decoder : string) : Res string :=
  ret (string_of_list_byte b).

(** A login event as the method logger receives it. *)
Definition login_event : PyObject :=
  PMapping
    [ (PStr "user", PUUID "6f1c");
      (PStr "type", PEnum (PStr "ADMIN"));
      (PStr "at", PIterable [PDateTime "2024-11-29T00:00:00+00:00"; PNone]);
      (PStr "raw", PBytes [Byte.x61; Byte.x62]) ].

(** * Properties *)

(** ** Values *)

Lemma value_eqb_eq (a b : Value) : value_eqb a b = true <-> a = b.
Proof.
  revert b. induction a as [| x | x | x | x | xs IH] using Value_induction; intros [| y | y | y | y | ys];
    simpl; try (split; [discriminate | congruence]); try tauto.
  - rewrite Bool.eqb_true_iff. split; congruence.
  - rewrite Z.eqb_eq. split; congruence.
  - rewrite String.eqb_eq. split; congruence.
  - rewrite Z.eqb_eq. split; congruence.
  - revert ys. induction IH as [| x xs Hx _ IHxs]; intros [| y ys].
    + tauto.
    + split; [discriminate | congruence].
    + split; [discriminate | congruence].
    + rewrite andb_true_iff, Hx, IHxs. split.
      * intros [-> E]. congruence.
      * intros E. injection E as -> ->. tauto.
Qed.

Lemma value_eqb_refl (a : Value) : value_eqb a a = true.
Proof. now apply value_eqb_eq. Qed.

Lemma value_eqb_neq (a b : Value) : a <> b -> value_eqb a b = false.
Proof.
  intros Hne. destruct (value_eqb a b) eqn:E; [|reflexivity].
  apply value_eqb_eq in E. contradiction.
Qed.

Lemma is_none_true (v : Value) : is_none v = true <-> v = VNone.
Proof. destruct v; simpl; split; congruence. Qed.

Lemma truthy_not_none (v : Value) : truthy v = true -> v <> VNone.
Proof. intros H ->. discriminate. Qed.

(** ** Dictionaries *)

Lemma dict_get_set_same (kw : Kwargs) (k : string) (v : Value) :
  dict_get (dict_set kw k v) k = Some v.
Proof.
  induction kw as [| [k' v'] rest IH]; simpl.
  - now rewrite String.eqb_refl.
  - destruct (String.eqb k' k) eqn:E; simpl; rewrite E; auto.
Qed.

Lemma dict_get_set_other (kw : Kwargs) (k k' : string) (v : Value) :
  k <> k' -> dict_get (dict_set kw k v) k' = dict_get kw k'.
Proof.
  intros Hne. induction kw as [| [k0 v0] rest IH]; simpl.
  - destruct (String.eqb k k') eqn:E; [|reflexivity].
    apply String.eqb_eq in E. contradiction.
  - destruct (String.eqb k0 k) eqn:E; simpl.
    + apply String.eqb_eq in E. subst k0.
      destruct (String.eqb k k') eqn:E'; [|reflexivity].
      apply String.eqb_eq in E'. contradiction.
    + now rewrite IH.
Qed.

Lemma dict_get_in_keys (kw : Kwargs) (k : string) (v : Value) :
  dict_get kw k = Some v -> In k (dict_keys kw).
Proof.
  induction kw as [| [k' v'] rest IH]; simpl; [discriminate|].
  destruct (String.eqb k' k) eqn:E.
  - apply String.eqb_eq in E. auto.
  - auto.
Qed.

Lemma dict_keys_get (kw : Kwargs) (k : string) :
  In k (dict_keys kw) -> exists v, dict_get kw k = Some v.
Proof.
  induction kw as [| [k' v'] rest IH]; simpl; [tauto|].
  intros [-> | Hin].
  - rewrite String.eqb_refl. eauto.
  - destruct (String.eqb k' k); eauto.
Qed.

(** Looking a key up does not depend on the order of the items of a
    dictionary. *)
Lemma dict_get_permutation (kw kw' : Kwargs) (k : string) :
  Permutation kw kw' -> List.NoDup (dict_keys kw) ->
  dict_get kw k = dict_get kw' k.
Proof.
  induction 1 as [| [k0 v0] l l' Hp IH | [k0 v0] [k1 v1] l | l l' l'' H1 IH1 H2 IH2];
    intros Hnd; simpl in *.
  - reflexivity.
  - inversion Hnd; subst. now rewrite IH.
  - inversion Hnd as [| ? ? Hnotin Hnd']; subst.
    destruct (String.eqb k1 k) eqn:E1, (String.eqb k0 k) eqn:E0; try reflexivity.
    apply String.eqb_eq in E1, E0. subst. exfalso. apply Hnotin. now left.
  - rewrite IH1 by assumption. apply IH2.
    unfold dict_keys in *.
    eapply Permutation_NoDup; [|exact Hnd]. now apply Permutation_map.
Qed.

Lemma str_in_In (s : string) (l : list string) : str_in s l = true <-> In s l.
Proof.
  unfold str_in. rewrite existsb_exists. split.
  - intros (x & Hin & E). apply String.eqb_eq in E. now subst.
  - intros Hin. exists s. split; [assumption | apply String.eqb_refl].
Qed.

(** ** Schemas *)

Lemma find_column_name (m : ModelClass) (name : string) (c : Column) :
  find_column m name = Some c -> col_name c = name /\ In c (columns m).
Proof.
  unfold find_column. intros H. apply find_some in H as [Hin E].
  apply String.eqb_eq in E. auto.
Qed.

Lemma non_nullable_columns_spec (self : BaseDao) (f : string) :
  In f (_non_nullable_columns self) <-> required_on_create self f.
Proof.
  unfold _non_nullable_columns, required_on_create, has_default.
  rewrite in_map_iff. split.
  - intros (c & Hn & Hin). apply filter_In in Hin as [Hin Hp].
    exists c. apply andb_true_iff in Hp as [Hnull Hdef].
    destruct (col_nullable c); [discriminate|].
    destruct (col_default c); [discriminate|]. auto.
  - intros (c & Hin & Hn & Hnull & Hdef). exists c. split; [assumption|].
    apply filter_In. split; [assumption|]. now rewrite Hnull, Hdef.
Qed.

Lemma created_by_required (self : BaseDao) :
  In "created_by" (_non_nullable_columns self).
Proof.
  apply non_nullable_columns_spec.
  exists (mkColumn "created_by" TString false None false false).
  unfold columns. rewrite in_app_iff. cbn. tauto.
Qed.

Lemma created_at_required (self : BaseDao) :
  In "created_at" (_non_nullable_columns self).
Proof.
  apply non_nullable_columns_spec.
  exists (mkColumn "created_at" TDateTime false None false false).
  unfold columns. rewrite in_app_iff. cbn. tauto.
Qed.

(** ** Validation of keyword arguments *)

Lemma verify_null_loop_spec (nn : list string) (kwargs : Kwargs)
    (fields : list string) :
  match verify_null_loop nn kwargs fields with
  | inl e => exists f, e = NotNullable f /\ In f fields /\ In f nn /\
                       dict_get_or_none kwargs f = VNone
  | inr _ => forall f, In f fields -> In f nn ->
                       dict_get_or_none kwargs f <> VNone
  end.
Proof.
  induction fields as [| field rest IH]; simpl.
  - tauto.
  - destruct (str_in field nn && is_none (dict_get_or_none kwargs field))%bool
      eqn:E.
    + apply andb_true_iff in E as [Hin Hnone].
      apply str_in_In in Hin. apply is_none_true in Hnone.
      exists field. auto.
    + destruct (verify_null_loop nn kwargs rest) as [e | u].
      * destruct IH as (f & -> & Hin & Hnn & Hv). exists f. auto.
      * intros f [<- | Hin] Hnn.
        -- intros Hv. apply andb_false_iff in E as [E | E].
           ++ apply str_in_In in Hnn. congruence.
           ++ apply is_none_true in Hv. congruence.
        -- now apply IH.
Qed.

Lemma verify_defined_loop_spec (kwargs : Kwargs) (fields : list string) :
  match verify_defined_loop kwargs fields with
  | inl e => exists f, e = NotNullable f /\ In f fields /\
                       dict_get kwargs f = None
  | inr _ => forall f, In f fields -> dict_get kwargs f <> None
  end.
Proof.
  induction fields as [| field rest IH]; simpl.
  - tauto.
  - unfold dict_mem. destruct (dict_get kwargs field) as [v |] eqn:E; simpl.
    + destruct (verify_defined_loop kwargs rest) as [e | u].
      * destruct IH as (f & -> & Hin & Hv). exists f. auto.
      * intros f [<- | Hin]; [congruence | now apply IH].
    + exists field. auto.
Qed.

(** The null check raises exactly when a supplied key that is in the set
    holds None. *)
Lemma verify_null_kwargs_spec (self : BaseDao) (kwargs : Kwargs) :
  match _verify_null_kwargs self kwargs with
  | inl e => exists f, e = NotNullable f /\ In f (_non_nullable_columns self) /\
                       dict_get kwargs f = Some VNone
  | inr _ => forall f, In f (_non_nullable_columns self) ->
                       dict_get kwargs f <> Some VNone
  end.
Proof.
  unfold _verify_null_kwargs.
  pose proof (verify_null_loop_spec (_non_nullable_columns self) kwargs
                (dict_keys kwargs)) as H.
  destruct (verify_null_loop _ _ _) as [e | u].
  - destruct H as (f & -> & Hin & Hnn & Hv). exists f.
    repeat split; try assumption.
    apply dict_keys_get in Hin as [v Hv']. unfold dict_get_or_none in Hv.
    rewrite Hv' in Hv. congruence.
  - intros f Hnn Hv. apply (H f); try assumption.
    + eapply dict_get_in_keys; eassumption.
    + unfold dict_get_or_none. now rewrite Hv.
Qed.

Lemma model_init_loop_error (m : ModelClass) (kwargs : Kwargs)
    (keys : list string) (instance : Row) (e : Exn) :
  model_init_loop m kwargs keys instance = inl e -> e = TypeError.
Proof.
  revert instance. induction keys as [| k rest IH]; simpl; intros instance.
  - discriminate.
  - destruct (hasattr_model m k); [apply IH|]. unfold raise. congruence.
Qed.

Lemma commit_insert_error (m : ModelClass) (t : Table) (instance : Row)
    (e : Exn) :
  commit_insert m t instance = inl e -> e = IntegrityError.
Proof.
  unfold commit_insert. destruct (violates_constraints _ _ _); unfold raise, ret; congruence.
Qed.

Lemma create_unfold (self : BaseDao) (kwargs : Kwargs) (t : Table) :
  create self kwargs t =
  run_write t
    (do_ _verify_null_kwargs self (with_update_columns kwargs);
     do_ _verify_all_non_nullable_fields_defined self
           (with_update_columns kwargs);
     do instance <- model_init (_model_class self) (with_update_columns kwargs);
     commit_insert (_model_class self) t instance).
Proof. reflexivity. Qed.

(** [create] raises NotNullable exactly when the mapping it validates
    lacks a column of the set or holds None for it. *)
Lemma create_not_nullable_validated (self : BaseDao) (kwargs : Kwargs)
    (t : Table) :
  (exists f, create self kwargs t = (inl (NotNullable f), t)) <->
  (exists f, In f (_non_nullable_columns self) /\
             absent_or_null (with_update_columns kwargs) f).
Proof.
  rewrite create_unfold. set (kw := with_update_columns kwargs).
  pose proof (verify_null_kwargs_spec self kw) as Hnull.
  pose proof (verify_defined_loop_spec kw (_non_nullable_columns self)) as Hdef.
  unfold _verify_all_non_nullable_fields_defined.
  destruct (_verify_null_kwargs self kw) as [e | u]; cbn [bind run_write].
  - destruct Hnull as (f & -> & Hin & Hv). split; [|eauto].
    intros _. exists f. split; [assumption | now right].
  - destruct (verify_defined_loop kw (_non_nullable_columns self)) as [e | u'];
      cbn [bind run_write].
    + destruct Hdef as (f & -> & Hin & Hv). split; [|eauto].
      intros _. exists f. split; [assumption | now left].
    + split.
      * intros [f Hf]. exfalso.
        destruct (model_init (_model_class self) kw) as [e | inst] eqn:Ei;
          cbn [bind run_write] in Hf.
        -- apply model_init_loop_error in Ei. congruence.
        -- destruct (commit_insert (_model_class self) t inst) as [e | t'] eqn:Ec;
             cbn [bind run_write] in Hf; [|discriminate].
           apply commit_insert_error in Ec. congruence.
      * intros (f & Hin & [Hv | Hv]); exfalso.
        -- now apply (Hdef f).
        -- now apply (Hnull f).
Qed.

Lemma with_update_columns_other (kwargs : Kwargs) (f : string) :
  f <> "updated_by" -> f <> "updated_at" ->
  dict_get (with_update_columns kwargs) f = dict_get kwargs f.
Proof.
  intros H1 H2. unfold with_update_columns. cbv zeta.
  rewrite dict_get_set_other by congruence.
  now rewrite dict_get_set_other by congruence.
Qed.

Lemma with_update_columns_updated_by (kwargs : Kwargs) :
  dict_get (with_update_columns kwargs) "updated_by"
  = Some (dict_get_or_none kwargs "created_by").
Proof.
  unfold with_update_columns. cbv zeta.
  rewrite dict_get_set_other by discriminate. apply dict_get_set_same.
Qed.

Lemma with_update_columns_updated_at (kwargs : Kwargs) :
  dict_get (with_update_columns kwargs) "updated_at"
  = Some (dict_get_or_none kwargs "created_at").
Proof.
  unfold with_update_columns. cbv zeta. rewrite dict_get_set_same.
  unfold dict_get_or_none. now rewrite dict_get_set_other by discriminate.
Qed.

Lemma absent_or_null_get_or_none (kwargs : Kwargs) (f : string) :
  absent_or_null kwargs f <-> dict_get_or_none kwargs f = VNone.
Proof.
  unfold absent_or_null, dict_get_or_none.
  destruct (dict_get kwargs f) as [v |]; split; try tauto; try congruence.
  - intros [H | H]; congruence.
  - intros ->. now right.
Qed.

(** In terms of the mapping the caller supplies. *)
Lemma create_not_nullable_supplied (self : BaseDao) (kwargs : Kwargs)
    (t : Table) :
  (exists f, create self kwargs t = (inl (NotNullable f), t)) <->
  (exists f, In f (_non_nullable_columns self) /\
             f <> "updated_by" /\ f <> "updated_at" /\
             absent_or_null kwargs f).
Proof.
  rewrite create_not_nullable_validated. split.
  - intros (f & Hin & Hv).
    destruct (string_dec f "updated_by") as [-> | Hub].
    { exists "created_by". split; [apply created_by_required|].
      repeat split; try discriminate.
      apply absent_or_null_get_or_none.
      destruct Hv as [Hv | Hv]; rewrite with_update_columns_updated_by in Hv;
        congruence. }
    destruct (string_dec f "updated_at") as [-> | Hua].
    { exists "created_at". split; [apply created_at_required|].
      repeat split; try discriminate.
      apply absent_or_null_get_or_none.
      destruct Hv as [Hv | Hv]; rewrite with_update_columns_updated_at in Hv;
        congruence. }
    exists f. repeat split; try assumption.
    unfold absent_or_null in *.
    now rewrite with_update_columns_other in Hv.
  - intros (f & Hin & Hub & Hua & Hv). exists f. split; [assumption|].
    unfold absent_or_null in *. now rewrite with_update_columns_other.
Qed.

Lemma absent_or_null_permutation (kw kw' : Kwargs) (f : string) :
  Permutation kw kw' -> List.NoDup (dict_keys kw) ->
  absent_or_null kw f <-> absent_or_null kw' f.
Proof.
  intros Hp Hnd. unfold absent_or_null.
  now rewrite (dict_get_permutation kw kw' f Hp Hnd).
Qed.

(** C1 (amended). The set [create] checks holds exactly the columns that
    are not nullable and have no default. [create] fails with NotNullable
    if and only if one of these columns, other than [updated_by] and
    [updated_at] (which [create] fills in itself), is absent from the
    supplied mapping or supplied as None; and whether it fails so does not
    depend on the order of the supplied fields. *)
Theorem create_required_field_enforcement (self : BaseDao) (kwargs : Kwargs)
    (t : Table) :
  (forall f, In f (_non_nullable_columns self) <-> required_on_create self f) /\
  ((exists f, create self kwargs t = (inl (NotNullable f), t)) <->
   (exists f, required_on_create self f /\
              f <> "updated_by" /\ f <> "updated_at" /\
              absent_or_null kwargs f)) /\
  (forall kwargs',
     Permutation kwargs kwargs' -> List.NoDup (dict_keys kwargs) ->
     ((exists f, create self kwargs t = (inl (NotNullable f), t)) <->
      (exists f, create self kwargs' t = (inl (NotNullable f), t)))).
Proof.
  split; [apply non_nullable_columns_spec|]. split.
  - rewrite create_not_nullable_supplied.
    split; intros (f & Hf & H); exists f; split; try assumption;
      now apply non_nullable_columns_spec.
  - intros kwargs' Hp Hnd. rewrite !create_not_nullable_supplied.
    split; intros (f & Hin & Hub & Hua & Hv); exists f;
      repeat split; try assumption;
      now apply (absent_or_null_permutation kwargs kwargs' f Hp Hnd).
Qed.

Lemma create_required_field_enforcement_witness :
  Permutation audit_only audit_only_swapped /\
  List.NoDup (dict_keys audit_only) /\
  ((exists f, create OrganizationsDAO audit_only [] = (inl (NotNullable f), []))
   <->
   (exists f, create OrganizationsDAO audit_only_swapped []
              = (inl (NotNullable f), []))).
Proof.
  assert (Hp : Permutation audit_only audit_only_swapped) by apply perm_swap.
  assert (Hnd : List.NoDup (dict_keys audit_only)).
  { repeat constructor; simpl; intuition discriminate. }
  split; [exact Hp|]. split; [exact Hnd|].
  exact (proj2 (proj2 (create_required_field_enforcement
                         OrganizationsDAO audit_only []))
           audit_only_swapped Hp Hnd).
Defined.

(** C1 as stated fails in both directions: a mapping that supplies every
    required-on-create field is rejected because one of them is None, and
    the mapping of the service, which leaves [updated_by] out, is
    accepted. *)
Lemma create_required_field_enforcement_counterexample :
  ((forall f, required_on_create OrganizationsDAO f ->
              dict_mem org_data_null_name f = true) /\
   create OrganizationsDAO org_data_null_name []
   = (inl (NotNullable "organization_name"), [])) /\
  (required_on_create OrganizationsDAO "updated_by" /\
   dict_mem org_data "updated_by" = false /\
   fst (create OrganizationsDAO org_data []) = inr tt).
Proof.
  split; [split|split; [|split]].
  - intros f Hf. apply non_nullable_columns_spec in Hf.
    vm_compute in Hf.
    repeat (destruct Hf as [<- | Hf]; [reflexivity|]). contradiction.
  - vm_compute. reflexivity.
  - apply non_nullable_columns_spec. vm_compute. tauto.
  - reflexivity.
  - vm_compute. reflexivity.
Qed.

(** ** What [create] persists *)

Lemma model_init_loop_lookup (m : ModelClass) (kwargs : Kwargs)
    (keys : list string) (instance instance' : Row) (c : string) :
  model_init_loop m kwargs keys instance = inr instance' ->
  is_column m c = true ->
  dict_get instance' c
  = if str_in c keys then Some (dict_get_or_none kwargs c)
    else dict_get instance c.
Proof.
  revert instance. induction keys as [| k rest IH]; intros instance Hrun Hc.
  - simpl in Hrun. injection Hrun as <-. reflexivity.
  - simpl in Hrun. destruct (hasattr_model m k); [|discriminate].
    rewrite (IH _ Hrun Hc). unfold str_in. simpl. fold (str_in c rest).
    destruct (String.eqb_spec c k) as [-> | Hne]; simpl.
    + destruct (str_in k rest); [reflexivity|].
      rewrite Hc. apply dict_get_set_same.
    + destruct (str_in c rest); [reflexivity|].
      destruct (is_column m k); [|reflexivity].
      apply dict_get_set_other. congruence.
Qed.

Lemma inserted_row_lookup (m : ModelClass) (instance : Row) (n : string) :
  dict_get (inserted_row m instance) n
  = option_map (stored_value instance) (find_column m n).
Proof.
  unfold inserted_row, find_column.
  induction (columns m) as [| c cs IH]; simpl.
  - reflexivity.
  - destruct (String.eqb (col_name c) n); [reflexivity | apply IH].
Qed.

Lemma commit_insert_appends (m : ModelClass) (t t' : Table) (instance : Row) :
  commit_insert m t instance = inr t' ->
  t' = (t ++ [inserted_row m instance])%list.
Proof.
  unfold commit_insert. destruct (violates_constraints _ _ _); [discriminate|].
  unfold ret. congruence.
Qed.

(** What a successful [create] went through. *)
Lemma create_success_inv (self : BaseDao) (kwargs : Kwargs) (t t' : Table) :
  create self kwargs t = (inr tt, t') ->
  (forall f, In f (_non_nullable_columns self) ->
             exists v, dict_get (with_update_columns kwargs) f = Some v /\
                       v <> VNone) /\
  exists instance,
    model_init (_model_class self) (with_update_columns kwargs) = inr instance /\
    t' = (t ++ [inserted_row (_model_class self) instance])%list.
Proof.
  rewrite create_unfold. set (kw := with_update_columns kwargs).
  pose proof (verify_null_kwargs_spec self kw) as Hnull.
  pose proof (verify_defined_loop_spec kw (_non_nullable_columns self)) as Hdef.
  unfold _verify_all_non_nullable_fields_defined.
  destruct (_verify_null_kwargs self kw) as [e | u]; cbn [bind run_write];
    [discriminate|].
  destruct (verify_defined_loop kw (_non_nullable_columns self)) as [e | u'];
    cbn [bind run_write]; [discriminate|].
  destruct (model_init (_model_class self) kw) as [e | inst] eqn:Ei;
    cbn [bind run_write]; [discriminate|].
  destruct (commit_insert (_model_class self) t inst) as [e | t''] eqn:Ec;
    cbn [bind run_write]; [discriminate|].
  intros E. injection E as <-. split.
  - intros f Hin. specialize (Hnull f Hin). specialize (Hdef f Hin).
    destruct (dict_get kw f) as [v |]; [|congruence].
    exists v. split; [reflexivity | congruence].
  - exists inst. split; [reflexivity|]. now apply commit_insert_appends.
Qed.

(** The cell a created row holds in an audit column without default. *)
Lemma created_cell (m : ModelClass) (kw : Kwargs) (instance : Row)
    (n : string) (c : Column) (v : Value) :
  model_init m kw = inr instance ->
  find_column m n = Some c -> col_default c = None ->
  dict_get kw n = Some v ->
  dict_get (inserted_row m instance) n = Some v.
Proof.
  intros Hinit Hfind Hdef Hget.
  rewrite inserted_row_lookup, Hfind. simpl. f_equal.
  unfold stored_value. rewrite Hdef.
  destruct (find_column_name _ _ _ Hfind) as [-> _].
  unfold cell.
  rewrite (model_init_loop_lookup _ _ _ _ _ n Hinit)
    by (unfold is_column; now rewrite Hfind).
  assert (Hk : str_in n (dict_keys kw) = true).
  { apply str_in_In. eapply dict_get_in_keys; eassumption. }
  rewrite Hk. unfold dict_get_or_none. rewrite Hget. now destruct v.
Qed.

Lemma audit_column_found (m : ModelClass) (n : string) :
  In n (map col_name generic_base_columns) ->
  exists c, find_column m n = Some c.
Proof.
  intros Hin. unfold find_column.
  destruct (find (fun c => String.eqb (col_name c) n) (columns m)) as [c |] eqn:E;
    [eauto|].
  exfalso. apply in_map_iff in Hin as (c & Hn & Hc).
  assert (Hcol : In c (columns m)) by (unfold columns; apply in_app_iff; tauto).
  pose proof (find_none _ _ E c Hcol) as Hf. cbn in Hf.
  rewrite Hn, String.eqb_refl in Hf. discriminate Hf.
Qed.

Lemma created_cell_supplied (m : ModelClass) (kw : Kwargs) (instance : Row)
    (n : string) (c : Column) (v : Value) :
  model_init m kw = inr instance ->
  find_column m n = Some c -> v <> VNone ->
  dict_get kw n = Some v ->
  dict_get (inserted_row m instance) n = Some v.
Proof.
  intros Hinit Hfind Hv Hget.
  rewrite inserted_row_lookup, Hfind. simpl. f_equal.
  unfold stored_value.
  destruct (find_column_name _ _ _ Hfind) as [-> _].
  unfold cell.
  rewrite (model_init_loop_lookup _ _ _ _ _ n Hinit)
    by (unfold is_column; now rewrite Hfind).
  assert (Hk : str_in n (dict_keys kw) = true).
  { apply str_in_In. eapply dict_get_in_keys; eassumption. }
  rewrite Hk. unfold dict_get_or_none. rewrite Hget.
  destruct v; try reflexivity. contradiction.
Qed.

(** C9. After a successful [create] the new row, the last of the table,
    holds in [updated_by] the supplied [created_by] and in [updated_at] the
    supplied [created_at], whatever the caller supplied for the two update
    columns. *)
Theorem create_overwrites_update_columns (self : BaseDao) (kwargs : Kwargs)
    (t t' : Table) :
  create self kwargs t = (inr tt, t') ->
  exists (r : Row) (who when : Value),
    t' = (t ++ [r])%list /\
    dict_get kwargs "created_by" = Some who /\
    dict_get kwargs "created_at" = Some when /\
    dict_get r "created_by" = Some who /\
    dict_get r "updated_by" = Some who /\
    dict_get r "created_at" = Some when /\
    dict_get r "updated_at" = Some when.
Proof.
  intros Hc. apply create_success_inv in Hc as (Hreq & inst & Hinit & ->).
  destruct (Hreq "created_by" (created_by_required self)) as (who & Hwho & Hwn).
  destruct (Hreq "created_at" (created_at_required self))
    as (when & Hwhen & Hwhn).
  assert (Hwho' : dict_get kwargs "created_by" = Some who)
    by now rewrite with_update_columns_other in Hwho.
  assert (Hwhen' : dict_get kwargs "created_at" = Some when)
    by now rewrite with_update_columns_other in Hwhen.
  destruct (audit_column_found (_model_class self) "created_by") as [c1 Hc1];
    [cbn; tauto|].
  destruct (audit_column_found (_model_class self) "updated_by") as [c2 Hc2];
    [cbn; tauto|].
  destruct (audit_column_found (_model_class self) "created_at") as [c3 Hc3];
    [cbn; tauto|].
  destruct (audit_column_found (_model_class self) "updated_at") as [c4 Hc4];
    [cbn; tauto|].
  exists (inserted_row (_model_class self) inst), who, when.
  split; [reflexivity|]. split; [assumption|]. split; [assumption|].
  repeat split.
  - eapply created_cell_supplied; eassumption.
  - eapply created_cell_supplied; try eassumption.
    rewrite with_update_columns_updated_by. unfold dict_get_or_none.
    now rewrite Hwho'.
  - eapply created_cell_supplied; eassumption.
  - eapply created_cell_supplied; try eassumption.
    rewrite with_update_columns_updated_at. unfold dict_get_or_none.
    now rewrite Hwhen'.
Qed.

Lemma create_overwrites_update_columns_witness :
  exists (r : Row) (who when : Value),
    snd (create OrganizationsDAO org_data_other_updater [])
    = ([] ++ [r])%list /\
    dict_get org_data_other_updater "created_by" = Some who /\
    dict_get org_data_other_updater "created_at" = Some when /\
    dict_get r "created_by" = Some who /\
    dict_get r "updated_by" = Some who /\
    dict_get r "created_at" = Some when /\
    dict_get r "updated_at" = Some when.
Proof.
  apply (create_overwrites_update_columns OrganizationsDAO
           org_data_other_updater []).
  vm_compute. reflexivity.
Defined.

(** ** The query [list] builds *)

Section Listing.

Context {engine : SqlEngine}.

Lemma query_parser_spec (m : ModelClass) (qs : Queryset) (name : string)
    (value : Value) :
  (do qp <- QueryParser_init m qs name value; construct_queryset qp)
  = (do c <- filter_criterion m name value; ret (qs_filter qs c)).
Proof.
  unfold QueryParser_init, filter_criterion, first_segment, operator_suffix.
  destruct (getattr_model m (nth 0 (split_dunder name) "")) as [a |];
    [|reflexivity].
  cbn [bind ret]. unfold construct_queryset. cbn [qp_is_method_lookup
    qp_field qp_value qp_method qp_queryset].
  destruct (Nat.ltb 1 (length (split_dunder name))); [|reflexivity].
  cbn [negb method_is].
  repeat (match goal with
          | |- context [String.eqb ?a ?b] => destruct (String.eqb a b)
          end; [reflexivity|]).
  reflexivity.
Qed.

Lemma apply_filter_fields_spec (m : ModelClass) (filter_fields : Kwargs)
    (qs : Queryset) (last : option string) :
  apply_filter_fields m qs last filter_fields
  = (do cs <- filter_criteria m filter_fields;
     ret ((qs ++ cs)%list, last_key last filter_fields)).
Proof.
  revert qs last.
  induction filter_fields as [| [name value] rest IH]; intros qs last.
  - simpl. now rewrite app_nil_r.
  - cbn [apply_filter_fields filter_criteria].
    destruct (is_none value); [apply IH|].
    pose proof (query_parser_spec m qs name value) as H.
    destruct (QueryParser_init m qs name value) as [e | qp];
      destruct (filter_criterion m name value) as [e' | c];
      cbn [bind ret raise] in *; unfold ret in H.
    + injection H as ->. reflexivity.
    + discriminate H.
    + rewrite H. reflexivity.
    + rewrite H. cbn [bind ret]. rewrite IH.
      destruct (filter_criteria m rest) as [e' | cs]; [reflexivity|].
      cbn [bind ret]. unfold qs_filter. now rewrite <- app_assoc.
Qed.

Lemma getattr_audit_column (m : ModelClass) (n : string) :
  In n (map col_name generic_base_columns) ->
  exists c, getattr_model m n = Some (AColumn c) /\ col_name c = n.
Proof.
  intros Hin. destruct (audit_column_found m n Hin) as [c Hc].
  exists c. unfold getattr_model. rewrite Hc. split; [reflexivity|].
  now apply find_column_name in Hc.
Qed.

Lemma getattr_is_deleted (m : ModelClass) :
  exists c, getattr_model m "is_deleted" = Some (AColumn c) /\
            col_name c = "is_deleted".
Proof. apply getattr_audit_column. cbn. tauto. Qed.

(** [list], with the query it builds spelled out. *)
Lemma list_unfold (self : BaseDao) (page size : Z) (order_by : string)
    (pk_ids : list Value) (include_deleted : bool) (filter_fields : Kwargs)
    (t : Table) :
  list_ self page size order_by pk_ids include_deleted filter_fields t =
  if page <? 0 then raise (ValueError "page must be >= 0")
  else if ((size <? 1) || (100 <? size))%bool
  then raise (ValueError "size must be between 1 and 100")
  else
    do qs0 <- base_queryset (_model_class self) include_deleted pk_ids;
    do cs <- filter_criteria (_model_class self) filter_fields;
    if raises_data_error t (qs0 ++ cs)%list then
      match last_key None filter_fields with
      | Some field => raise (DataError field)
      | None => raise UnboundLocalError
      end
    else
      match getattr_ordering (_model_ordering_class self) order_by with
      | None => raise AttributeError
      | Some o =>
          ret (mkListResponse
                 (qs_limit_offset size (page * size)
                    (qs_order_by o
                       (sql_tie_rank t (qs0 ++ cs)%list o size (page * size))
                       (qs_rows (qs0 ++ cs)%list t)))
                 (Z.of_nat (length (qs_rows (qs0 ++ cs)%list t))))
      end.
Proof.
  unfold list_. destruct (page <? 0); [reflexivity|].
  destruct ((size <? 1) || (100 <? size))%bool; [reflexivity|].
  cbv zeta.
  destruct (getattr_is_deleted (_model_class self)) as (cd & -> & Hcd).
  unfold base_queryset.
  destruct include_deleted; cbn [negb bind ret expr_eq qs_filter app];
    rewrite ?Hcd.
  - destruct pk_ids as [| pk pks]; cbn [bind ret].
    + rewrite apply_filter_fields_spec.
      destruct (filter_criteria _ _); reflexivity.
    + destruct (get_id_field (_model_class self)) as [e | a]; [reflexivity|].
      cbn [bind]. destruct (expr_in a (VList (pk :: pks))); [reflexivity|].
      cbn [bind ret]. rewrite apply_filter_fields_spec.
      destruct (filter_criteria _ _); reflexivity.
  - destruct pk_ids as [| pk pks]; cbn [bind ret].
    + rewrite apply_filter_fields_spec.
      destruct (filter_criteria _ _); reflexivity.
    + destruct (get_id_field (_model_class self)) as [e | a]; [reflexivity|].
      cbn [bind]. destruct (expr_in a (VList (pk :: pks))); [reflexivity|].
      cbn [bind ret]. rewrite apply_filter_fields_spec.
      destruct (filter_criteria _ _); reflexivity.
Qed.

Lemma filter_criteria_skip_none (m : ModelClass) (before after : Kwargs)
    (f : string) :
  filter_criteria m (before ++ (f, VNone) :: after)%list
  = filter_criteria m (before ++ after)%list.
Proof.
  induction before as [| [name value] rest IH]; [reflexivity|].
  simpl. now rewrite IH.
Qed.

(** C8. A filter field passed as None changes nothing in what [list]
    returns: the call returns a response exactly when the call without
    the field does, and the response, items and total count, is the
    same. *)
Theorem list_null_filter_is_no_filter (self : BaseDao) (page size : Z)
    (order_by : string) (pk_ids : list Value) (include_deleted : bool)
    (before after : Kwargs) (f : string) (t : Table)
    (resp : BaseDaoListResponse) :
  list_ self page size order_by pk_ids include_deleted
    (before ++ (f, VNone) :: after)%list t = inr resp
  <->
  list_ self page size order_by pk_ids include_deleted
    (before ++ after)%list t = inr resp.
Proof.
  rewrite !list_unfold, filter_criteria_skip_none.
  destruct (page <? 0); [tauto|].
  destruct ((size <? 1) || (100 <? size))%bool; [tauto|].
  destruct (base_queryset _ _ _) as [e | qs0]; [tauto|]. cbn [bind].
  destruct (filter_criteria _ _) as [e | cs]; [tauto|]. cbn [bind].
  destruct (raises_data_error t (qs0 ++ cs)%list); [|tauto].
  split; intros H;
    repeat match goal with
           | H : match ?x with _ => _ end = _ |- _ => destruct x
           end; discriminate.
Qed.

(** *** Rejected filter fields *)

Lemma base_queryset_returns (m : ModelClass) (include_deleted : bool)
    (pk_ids : list Value) :
  pk_ids = [] \/ has_id_column m ->
  exists qs0, base_queryset m include_deleted pk_ids = inr qs0.
Proof.
  unfold base_queryset, has_id_column, is_column, get_id_field, getattr_model.
  intros [-> | Hid].
  - destruct include_deleted; cbn; eauto.
  - destruct (find_column m (id_field_name m)); [|discriminate].
    destruct include_deleted, pk_ids; cbn; eauto.
Qed.

Lemma filter_criteria_first_error (m : ModelClass) (before after : Kwargs)
    (name : string) (value : Value) (e : Exn) :
  forallb (filter_accepted m) before = true ->
  value <> VNone ->
  filter_criterion m name value = inl e ->
  filter_criteria m (before ++ (name, value) :: after)%list = inl e.
Proof.
  intros Hacc Hv He.
  induction before as [| [n v] rest IH]; simpl in *.
  - destruct value; try contradiction; simpl; now rewrite He.
  - apply andb_true_iff in Hacc as [Hnv Hrest].
    unfold filter_accepted in Hnv. simpl in Hnv.
    destruct (is_none v); [now apply IH|]. simpl in Hnv.
    destruct (filter_criterion m n v); [discriminate|].
    cbn [bind]. now rewrite (IH Hrest).
Qed.

Lemma not_lookup_method (op : string) :
  ~ In op lookup_methods ->
  String.eqb op "in" = false /\ String.eqb op "contains" = false /\
  String.eqb op "icontains" = false /\ String.eqb op "gt" = false /\
  String.eqb op "gte" = false /\ String.eqb op "lt" = false /\
  String.eqb op "lte" = false.
Proof.
  intros Hnot. unfold lookup_methods in Hnot. simpl in Hnot.
  repeat split; apply String.eqb_neq; intros ->; apply Hnot; tauto.
Qed.

Lemma getattr_model_name (m : ModelClass) (name : string) (a : Attr) :
  getattr_model m name = Some a -> attr_name a = name.
Proof.
  unfold getattr_model. destruct (find_column m name) as [c |] eqn:E.
  - intros [= <-]. now apply find_column_name in E.
  - destruct (existsb _ _); [|discriminate]. now intros [= <-].
Qed.

Lemma filter_criterion_unknown_field (m : ModelClass) (name : string)
    (value : Value) :
  hasattr_model m (first_segment name) = false ->
  filter_criterion m name value = inl (InvalidFilterField (first_segment name)).
Proof.
  unfold hasattr_model, filter_criterion.
  destruct (getattr_model m (first_segment name)); [discriminate | reflexivity].
Qed.

Lemma filter_criterion_unknown_method (m : ModelClass) (name op : string)
    (value : Value) :
  hasattr_model m (first_segment name) = true ->
  operator_suffix name = Some op -> ~ In op lookup_methods ->
  filter_criterion m name value
  = inl (InvalidFilterMethod (first_segment name) op).
Proof.
  unfold hasattr_model, filter_criterion. intros Ha Hop Hnot.
  destruct (getattr_model m (first_segment name)) as [a |] eqn:E;
    [|discriminate].
  rewrite Hop. apply not_lookup_method in Hnot
    as (-> & -> & -> & -> & -> & -> & ->).
  now rewrite (getattr_model_name _ _ _ E).
Qed.

Lemma list_filter_error (self : BaseDao) (page size : Z) (order_by : string)
    (pk_ids : list Value) (include_deleted : bool)
    (before after : Kwargs) (name : string) (value : Value) (t : Table)
    (e : Exn) :
  0 <= page -> 1 <= size <= 100 ->
  pk_ids = [] \/ has_id_column (_model_class self) ->
  forallb (filter_accepted (_model_class self)) before = true ->
  value <> VNone ->
  filter_criterion (_model_class self) name value = inl e ->
  list_ self page size order_by pk_ids include_deleted
    (before ++ (name, value) :: after)%list t = inl e.
Proof.
  intros Hpage Hsize Hpk Hacc Hv He. rewrite list_unfold.
  destruct (Z.ltb_spec page 0); [lia|].
  destruct (Z.ltb_spec size 1); [lia|].
  destruct (Z.ltb_spec 100 size); [lia|]. cbn [orb].
  destruct (base_queryset_returns (_model_class self) include_deleted pk_ids Hpk)
    as [qs0 ->].
  cbn [bind]. now rewrite (filter_criteria_first_error _ _ _ _ _ _ Hacc Hv He).
Qed.

(** The two checks of the parser, as [list] runs them. With a valid page
    and size, and every filter field before it let through: a filter
    field with a value other than None whose first segment is not an
    attribute of the model class makes [list] fail with
    InvalidFilterField; one whose first segment is an attribute of the
    class and whose second segment is outside the operator set makes
    [list] fail with InvalidFilterMethod. *)
Lemma list_filter_checks (self : BaseDao) (page size : Z)
    (order_by : string) (pk_ids : list Value) (include_deleted : bool)
    (before after : Kwargs) (name : string) (value : Value) (t : Table) :
  0 <= page -> 1 <= size <= 100 ->
  pk_ids = [] \/ has_id_column (_model_class self) ->
  forallb (filter_accepted (_model_class self)) before = true ->
  value <> VNone ->
  (hasattr_model (_model_class self) (first_segment name) = false ->
   list_ self page size order_by pk_ids include_deleted
     (before ++ (name, value) :: after)%list t
   = inl (InvalidFilterField (first_segment name))) /\
  (forall op,
     hasattr_model (_model_class self) (first_segment name) = true ->
     operator_suffix name = Some op -> ~ In op lookup_methods ->
     list_ self page size order_by pk_ids include_deleted
       (before ++ (name, value) :: after)%list t
     = inl (InvalidFilterMethod (first_segment name) op)).
Proof.
  intros Hpage Hsize Hpk Hacc Hv. split.
  - intros Ha. apply list_filter_error; try assumption.
    now apply filter_criterion_unknown_field.
  - intros op Ha Hop Hnot. apply list_filter_error; try assumption.
    now apply filter_criterion_unknown_method.
Qed.

(** *** What the query selects *)

Lemma row_selected_app (qs qs' : Queryset) (r : Row) :
  row_selected (qs ++ qs')%list r = (row_selected qs r && row_selected qs' r)%bool.
Proof. unfold row_selected. apply forallb_app. Qed.

Lemma get_id_field_column (m : ModelClass) (a : Attr) (pk_ids : list Value)
    (c : Criterion) :
  get_id_field m = inr a -> expr_in a (VList pk_ids) = inr c ->
  c = CIn (id_field_name m) pk_ids.
Proof.
  unfold get_id_field. intros Hg Hin.
  destruct (getattr_model m (id_field_name m)) as [a' |] eqn:E; [|discriminate].
  injection Hg as ->. apply getattr_model_name in E.
  destruct a as [col | n]; [|discriminate].
  cbn [attr_name] in E. cbn [expr_in ret] in Hin.
  injection Hin as <-. now rewrite E.
Qed.

Lemma base_queryset_selects (m : ModelClass) (include_deleted : bool)
    (pk_ids : list Value) (qs0 : Queryset) (r : Row) :
  base_queryset m include_deleted pk_ids = inr qs0 ->
  row_selected qs0 r
  = ((include_deleted || value_eqb (cell r "is_deleted") (VBool false))
     && match pk_ids with
        | [] => true
        | _ => negb (is_none (cell r (id_field_name m)))
               && existsb (value_eqb (cell r (id_field_name m))) pk_ids
        end)%bool.
Proof.
  unfold base_queryset.
  destruct pk_ids as [| pk pks].
  - destruct include_deleted; cbn [negb bind]; unfold ret; intros [= <-];
      simpl; now rewrite ?andb_true_r.
  - destruct include_deleted; cbn [negb bind ret];
      (destruct (get_id_field m) as [e | a] eqn:Eg;
       [intros HH; discriminate HH|]); cbn [bind];
      (destruct (expr_in a (VList (pk :: pks))) as [e | c] eqn:Ec;
       [intros HH; discriminate HH|]);
      rewrite (get_id_field_column _ _ _ _ Eg Ec);
      cbn [bind]; unfold ret, qs_filter; intros [= <-];
      cbn [app row_selected forallb criterion_holds orb andb];
      now rewrite ?andb_true_r.
Qed.

Lemma filter_criterion_holds (m : ModelClass) (name : string) (value : Value)
    (c : Criterion) (r : Row) :
  filter_criterion m name value = inr c ->
  criterion_holds r c = filter_expression_holds m r name value.
Proof.
  unfold filter_criterion, filter_expression_holds, getattr_model, is_column.
  destruct (find_column m (first_segment name)) as [col |] eqn:E.
  - apply find_column_name in E as [Hn _].
    destruct (operator_suffix name) as [op |].
    + repeat (match goal with
              | |- context [String.eqb ?a ?b] => destruct (String.eqb a b)
              end;
              [ simpl; try (destruct value; try discriminate);
                intros [= <-]; simpl; now rewrite Hn |]).
      intros HH; discriminate HH.
    + intros [= <-]. simpl. now rewrite Hn.
  - destruct (existsb _ _); [|discriminate].
    destruct (operator_suffix name) as [op |].
    + repeat (match goal with
              | |- context [String.eqb ?a ?b] => destruct (String.eqb a b)
              end; [intros HH; discriminate HH |]).
      intros HH; discriminate HH.
    + now intros [= <-].
Qed.

Lemma filter_criteria_select (m : ModelClass) (filter_fields : Kwargs)
    (cs : list Criterion) (r : Row) :
  filter_criteria m filter_fields = inr cs ->
  row_selected cs r
  = forallb (fun kv => is_none (snd kv)
                       || filter_expression_holds m r (fst kv) (snd kv))%bool
      filter_fields.
Proof.
  revert cs. induction filter_fields as [| [name value] rest IH]; intros cs.
  - now intros [= <-].
  - cbn [filter_criteria forallb fst snd].
    destruct (is_none value); [apply IH|].
    destruct (filter_criterion m name value) as [e | c] eqn:Ec; [(intros HH; discriminate HH)|].
    destruct (filter_criteria m rest) as [e | cs'] eqn:Ecs; [(intros HH; discriminate HH)|].
    cbn [bind orb]. unfold ret. intros [= <-]. cbn [row_selected forallb].
    rewrite (filter_criterion_holds _ _ _ _ r Ec). f_equal. now apply IH.
Qed.

(** What a response of [list] is made of. *)
Lemma list_returns_inv (self : BaseDao) (page size : Z) (order_by : string)
    (pk_ids : list Value) (include_deleted : bool) (filter_fields : Kwargs)
    (t : Table) (resp : BaseDaoListResponse) :
  list_ self page size order_by pk_ids include_deleted filter_fields t
  = inr resp ->
  0 <= page /\ 1 <= size <= 100 /\
  exists o rank,
    getattr_ordering (_model_ordering_class self) order_by = Some o /\
    resp = mkListResponse
             (qs_limit_offset size (page * size)
                (qs_order_by o rank
                   (List.filter
                      (record_matches self pk_ids include_deleted filter_fields)
                      t)))
             (Z.of_nat
                (length
                   (List.filter
                      (record_matches self pk_ids include_deleted filter_fields)
                      t))).
Proof.
  rewrite list_unfold.
  destruct (Z.ltb_spec page 0); [(intros HH; discriminate HH)|].
  destruct (Z.ltb_spec size 1); [(intros HH; discriminate HH)|].
  destruct (Z.ltb_spec 100 size); [(intros HH; discriminate HH)|]. cbn [orb].
  destruct (base_queryset _ _ _) as [e | qs0] eqn:Eb; [(intros HH; discriminate HH)|].
  cbn [bind].
  destruct (filter_criteria _ _) as [e | cs] eqn:Ec; [(intros HH; discriminate HH)|].
  cbn [bind].
  destruct (raises_data_error t (qs0 ++ cs)%list);
    [destruct (last_key None filter_fields); (intros HH; discriminate HH)|].
  destruct (getattr_ordering _ _) as [o |]; [|discriminate].
  unfold ret. intros [= <-]. repeat split; try lia.
  exists o, (sql_tie_rank t (qs0 ++ cs)%list o size (page * size)).
  split; [reflexivity|].
  assert (Hsel : qs_rows (qs0 ++ cs)%list t
                 = List.filter
                     (record_matches self pk_ids include_deleted filter_fields)
                     t).
  { unfold qs_rows. apply filter_ext. intros r.
    rewrite row_selected_app, (base_queryset_selects _ _ _ _ r Eb),
      (filter_criteria_select _ _ _ r Ec).
    reflexivity. }
  now rewrite Hsel.
Qed.

Lemma qs_limit_offset_length (size offset : Z) (rows : Table) :
  0 <= size -> Z.of_nat (length (qs_limit_offset size offset rows)) <= size.
Proof.
  intros Hs. unfold qs_limit_offset.
  pose proof (firstn_le_length (Z.to_nat size)
                (skipn (Z.to_nat offset) rows)) as H.
  lia.
Qed.

(** C5. When [list] returns, its total count is the number of records of
    the table matching the call (soft-delete flag, identifiers and filter
    fields) and it returns at most [size] items; the count is the same
    for every other page and size on which [list] returns. *)
Theorem list_count_before_pagination (self : BaseDao) (page size : Z)
    (order_by : string) (pk_ids : list Value) (include_deleted : bool)
    (filter_fields : Kwargs) (t : Table) (resp : BaseDaoListResponse) :
  list_ self page size order_by pk_ids include_deleted filter_fields t
  = inr resp ->
  count resp
  = Z.of_nat
      (length (List.filter
                 (record_matches self pk_ids include_deleted filter_fields) t))
  /\ Z.of_nat (length (items resp)) <= size
  /\ (forall page' size' resp',
        list_ self page' size' order_by pk_ids include_deleted filter_fields t
        = inr resp' ->
        count resp' = count resp).
Proof.
  intros H. apply list_returns_inv in H as (Hp & Hs & o & rank & Ho & ->).
  cbn [count items]. split; [reflexivity|]. split.
  - apply qs_limit_offset_length. lia.
  - intros page' size' resp' H'.
    apply list_returns_inv in H' as (_ & _ & o' & rank' & _ & ->). reflexivity.
Qed.

(** [list] does return on valid arguments the engine accepts. *)
Lemma list_returns (self : BaseDao) (page size : Z) (order_by : string)
    (pk_ids : list Value) (include_deleted : bool) (filter_fields : Kwargs)
    (t : Table) (o : Ordering) :
  0 <= page -> 1 <= size <= 100 ->
  pk_ids = [] \/ has_id_column (_model_class self) ->
  forallb (filter_accepted (_model_class self)) filter_fields = true ->
  (forall qs, raises_data_error t qs = false) ->
  getattr_ordering (_model_ordering_class self) order_by = Some o ->
  exists resp,
    list_ self page size order_by pk_ids include_deleted filter_fields t
    = inr resp.
Proof.
  intros Hpage Hsize Hpk Hacc Heng Ho. rewrite list_unfold.
  destruct (Z.ltb_spec page 0); [lia|].
  destruct (Z.ltb_spec size 1); [lia|].
  destruct (Z.ltb_spec 100 size); [lia|]. cbn [orb].
  destruct (base_queryset_returns (_model_class self) include_deleted pk_ids Hpk)
    as [qs0 ->].
  cbn [bind].
  assert (Hcs : exists cs, filter_criteria (_model_class self) filter_fields
                           = inr cs).
  { clear -Hacc. induction filter_fields as [| [n v] rest IH]; simpl in *.
    - eauto.
    - apply andb_true_iff in Hacc as [Hnv Hrest].
      destruct (IH Hrest) as [cs Hcs].
      unfold filter_accepted in Hnv. simpl in Hnv.
      destruct (is_none v); [eauto|]. simpl in Hnv.
      destruct (filter_criterion _ n v); [discriminate|].
      rewrite Hcs. cbn. eauto. }
  destruct Hcs as [cs ->]. cbn [bind]. rewrite Heng, Ho. eauto.
Qed.

(** ** Looking a record up by identifier *)

Lemma in_combine_seq (t : Table) (s i : nat) (r : Row) :
  In (i, r) (combine (seq s (length t)) t)
  <-> (s <= i)%nat /\ t !! (i - s)%nat = Some r.
Proof.
  revert s. induction t as [| a t IH]; intros s; simpl.
  - split; [tauto | intros [_ H]; discriminate].
  - rewrite IH. split.
    + intros [[= <- <-] | [Hle Hl]].
      * split; [lia|]. now replace (s - s)%nat with 0%nat by lia.
      * split; [lia|]. now replace (i - s)%nat with (S (i - S s)) by lia.
    + intros [Hle Hl]. destruct (Nat.eq_dec i s) as [-> | Hne].
      * left. replace (s - s)%nat with 0%nat in Hl by lia.
        simpl in Hl. congruence.
      * right. split; [lia|].
        now replace (i - s)%nat with (S (i - S s)) in Hl by lia.
Qed.

Lemma enumerate_lookup (t : Table) (i : nat) (r : Row) :
  In (i, r) (enumerate t) <-> t !! i = Some r.
Proof.
  unfold enumerate. rewrite in_combine_seq.
  replace (i - 0)%nat with i by lia. split; [tauto|]. split; [lia | assumption].
Qed.

Lemma filter_singleton {A : Type} (p : A -> bool) (l : list A) (x : A) :
  List.filter p l = [x] ->
  p x = true /\ In x l /\ forall y, In y l -> p y = true -> y = x.
Proof.
  intros H.
  assert (Hin : forall y, In y [x] <-> In y l /\ p y = true).
  { intros y. rewrite <- H. apply filter_In. }
  destruct (proj1 (Hin x)) as [Hl Hp]; [now left|].
  repeat split; try assumption.
  intros y Hy Hpy. destruct (proj2 (Hin y)) as [-> | []]; auto.
Qed.

Lemma filter_none {A : Type} (p : A -> bool) (l : list A) :
  (forall y, In y l -> p y = false) -> List.filter p l = [].
Proof.
  induction l as [| a l IH]; intros H; simpl; [reflexivity|].
  rewrite (H a) by now left. apply IH. intros y Hy. apply H. now right.
Qed.

(** The record [_get] finds carries the identifier, and no row at another
    position does. *)
Lemma _get_found (self : BaseDao) (id : Value) (t : Table) (i : nat) (r : Row) :
  _get self id t = inr (Some (i, r)) ->
  has_id_column (_model_class self) /\
  t !! i = Some r /\
  cell r (id_field_name (_model_class self)) = id /\
  forall j x, t !! j = Some x ->
              cell x (id_field_name (_model_class self)) = id -> j = i.
Proof.
  unfold _get, get_id_field, getattr_model, has_id_column, is_column.
  destruct (find_column _ _) as [col |] eqn:E.
  - apply find_column_name in E as [Hn _]. cbn [bind expr_eq ret].
    rewrite Hn.
    destruct (List.filter _ _) as [| ir [| ir' rest]] eqn:F;
      intros HH; try discriminate HH. injection HH as ->.
    apply filter_singleton in F as (Hp & Hin & Huniq). simpl in Hp.
    apply value_eqb_eq in Hp. apply enumerate_lookup in Hin.
    repeat split; try assumption.
    intros j x Hj Hx.
    assert (Hjx : (j, x) = (i, r)).
    { apply Huniq; [now apply enumerate_lookup|]. simpl.
      now apply value_eqb_eq. }
    congruence.
  - destruct (existsb _ _); [|intros HH; discriminate HH].
    cbn [bind expr_eq ret].
    destruct (List.filter _ _) as [| ir [| ir' rest]] eqn:F;
      intros HH; try discriminate HH.
    apply filter_singleton in F as (Hp & _). discriminate Hp.
Qed.

Lemma _get_absent (self : BaseDao) (id : Value) (t : Table) :
  has_id_column (_model_class self) ->
  no_record (_model_class self) id t ->
  _get self id t = inr None.
Proof.
  unfold _get, get_id_field, getattr_model, has_id_column, is_column, no_record.
  intros Hid Hno.
  destruct (find_column _ _) as [col |] eqn:E; [|discriminate].
  apply find_column_name in E as [Hn _]. cbn [bind expr_eq ret]. rewrite Hn.
  rewrite filter_none; [reflexivity|].
  intros [j x] Hin. simpl. apply value_eqb_neq. apply Hno.
  unfold enumerate in Hin. now apply in_combine_r in Hin.
Qed.

Lemma no_record_check (m : ModelClass) (id : Value) (t : Table) :
  forallb (fun r => negb (value_eqb (cell r (id_field_name m)) id)) t = true ->
  no_record m id t.
Proof.
  intros H r Hin Hr. rewrite forallb_forall in H. specialize (H r Hin).
  rewrite Hr, value_eqb_refl in H. discriminate H.
Qed.

Lemma get_found_inv (self : BaseDao) (id : Value) (t : Table) (r : Row) :
  get self id t = inr (Some r) ->
  exists i, _get self id t = inr (Some (i, r)).
Proof.
  unfold get. destruct (_get self id t) as [e | [[i r'] |]];
    cbn [bind ret option_map snd]; intros HH; try discriminate HH.
  injection HH as ->. eauto.
Qed.

(** C6. [update] with an empty mapping returns without error and leaves
    the table as it is, whatever the identifier. When no record carries
    the identifier, [update] with a non-empty mapping and [soft_delete]
    with its three arguments set fail with NotFound and leave the table
    as it is. *)
Theorem mutate_missing_record (self : BaseDao) (now : Z) (id : Value)
    (t : Table) :
  update self now id [] t = (inr tt, t) /\
  (has_id_column (_model_class self) ->
   no_record (_model_class self) id t ->
   (forall kwargs, kwargs <> [] ->
      update self now id kwargs t = (inl (NotFound id), t)) /\
   (forall updated_by updated_at,
      truthy id = true -> truthy updated_by = true ->
      truthy updated_at = true ->
      soft_delete self id updated_by updated_at t = (inl (NotFound id), t))).
Proof.
  split; [reflexivity|]. intros Hid Hno.
  pose proof (_get_absent self id t Hid Hno) as Hget. split.
  - intros [| kv rest] Hne; [contradiction|].
    unfold update. now rewrite Hget.
  - intros ub ua Hi Hb Ha. unfold soft_delete.
    rewrite Hi, Hb, Ha. cbn [negb]. now rewrite Hget.
Qed.

(** C2 (amended). For every field that is not nullable and has no
    default, supplied as None: [create] fails with NotNullable when the
    field is not one of the two update columns it overwrites, and
    [update] fails with NotNullable when the identifier has a record. *)
Theorem null_rejection (self : BaseDao) (f : string) (kwargs : Kwargs)
    (t : Table) :
  required_on_create self f ->
  dict_get kwargs f = Some VNone ->
  (f <> "updated_by" -> f <> "updated_at" ->
   exists g, create self kwargs t = (inl (NotNullable g), t)) /\
  (forall now id r,
     get self id t = inr (Some r) ->
     exists g, update self now id kwargs t = (inl (NotNullable g), t)).
Proof.
  intros Hreq Hnull. split.
  - intros Hub Hua. apply create_not_nullable_supplied.
    exists f. repeat split; try assumption.
    + now apply non_nullable_columns_spec.
    + now right.
  - intros now id r Hget. apply get_found_inv in Hget as [i Hget].
    unfold update. destruct kwargs as [| kv rest]; [discriminate|].
    rewrite Hget. cbn [bind].
    pose proof (verify_null_kwargs_spec self (kv :: rest)) as Hv.
    destruct (_verify_null_kwargs self (kv :: rest)) as [e | u].
    + destruct Hv as (g & -> & _). cbn [bind run_write]. eauto.
    + exfalso. apply (Hv f); [|assumption].
      now apply non_nullable_columns_spec.
Qed.

(** ** Soft deletion *)

Lemma id_field_name_not_audit (m : ModelClass) :
  id_field_name m <> "updated_by" /\ id_field_name m <> "updated_at" /\
  id_field_name m <> "is_deleted".
Proof.
  unfold id_field_name. generalize (camel_to_snake (cls_name m)) as s.
  intros s. repeat split; intros H;
    repeat (destruct s as [| ? s]; simpl in H;
            [discriminate H | injection H as _ H]);
    destruct s; discriminate H.
Qed.

Lemma soft_delete_returns_inv (self : BaseDao) (id updated_by updated_at : Value)
    (t t' : Table) :
  soft_delete self id updated_by updated_at t = (inr tt, t') ->
  truthy id = true /\
  exists i r,
    _get self id t = inr (Some (i, r)) /\
    t' = <[i := dict_set
                   (dict_set (dict_set r "updated_by" updated_by)
                      "updated_at" updated_at)
                   "is_deleted" (VBool true)]> t.
Proof.
  unfold soft_delete.
  destruct (truthy id); cbn [negb]; [|intros HH; discriminate HH].
  destruct (truthy updated_by); cbn [negb]; [|intros HH; discriminate HH].
  destruct (truthy updated_at); cbn [negb]; [|intros HH; discriminate HH].
  destruct (_get self id t) as [e | [[i r] |]]; cbn [bind run_write raise];
    try (intros HH; discriminate HH).
  unfold commit_update. destruct (violates_constraints _ _ _);
    cbn [run_write raise ret]; intros HH; [discriminate HH|].
  injection HH as <-. split; [reflexivity|]. eauto.
Qed.

Lemma in_firstn {A : Type} (n : nat) (l : list A) (x : A) :
  In x (firstn n l) -> In x l.
Proof.
  intros H. rewrite <- (firstn_skipn n l). apply in_or_app. now left.
Qed.

Lemma in_skipn {A : Type} (n : nat) (l : list A) (x : A) :
  In x (skipn n l) -> In x l.
Proof.
  intros H. rewrite <- (firstn_skipn n l). apply in_or_app. now right.
Qed.

Lemma insert_ordered_in (o : Ordering) (rank : Row -> Z) (r x : Row)
    (sorted : Table) :
  In x (insert_ordered o rank r sorted) <-> x = r \/ In x sorted.
Proof.
  induction sorted as [| y rest IH]; simpl.
  - intuition.
  - destruct (ordered_before o rank r y); simpl; [intuition|].
    rewrite IH. intuition.
Qed.

Lemma qs_order_by_in (o : Ordering) (rank : Row -> Z) (rows : Table)
    (x : Row) :
  In x (qs_order_by o rank rows) <-> In x rows.
Proof.
  unfold qs_order_by. induction rows as [| r rest IH]; simpl; [tauto|].
  rewrite insert_ordered_in, IH. intuition.
Qed.

Lemma qs_order_by_length (o : Ordering) (rank : Row -> Z) (rows : Table) :
  length (qs_order_by o rank rows) = length rows.
Proof.
  unfold qs_order_by. induction rows as [| r rest IH]; simpl; [reflexivity|].
  rewrite <- IH. generalize (fold_right (insert_ordered o rank) [] rest) as s.
  induction s as [| y s IHs]; simpl; [reflexivity|].
  destruct (ordered_before o rank r y); simpl; [reflexivity|]. now rewrite IHs.
Qed.

(** Every item [list] returns is a row of the table that matches the
    call. *)
Lemma list_items_match (self : BaseDao) (page size : Z) (order_by : string)
    (pk_ids : list Value) (include_deleted : bool) (filter_fields : Kwargs)
    (t : Table) (resp : BaseDaoListResponse) (x : Row) :
  list_ self page size order_by pk_ids include_deleted filter_fields t
  = inr resp ->
  In x (items resp) ->
  In x t /\
  record_matches self pk_ids include_deleted filter_fields x = true.
Proof.
  intros H Hx. apply list_returns_inv in H as (_ & _ & o & rank & _ & ->).
  cbn [items] in Hx. unfold qs_limit_offset in Hx.
  apply in_firstn, in_skipn, qs_order_by_in, filter_In in Hx. exact Hx.
Qed.

Lemma filter_unique (p : Row -> bool) (l : Table) (i : nat) (x : Row) :
  l !! i = Some x -> p x = true ->
  (forall j y, l !! j = Some y -> p y = true -> j = i) ->
  List.filter p l = [x].
Proof.
  revert i. induction l as [| a l IH]; intros i Hi Hp Huniq.
  - discriminate Hi.
  - destruct i as [| i]; simpl in *.
    + injection Hi as ->. rewrite Hp. f_equal.
      apply filter_none. intros y Hy.
      destruct (p y) eqn:Epy; [|reflexivity].
      apply list_elem_of_In, list_elem_of_lookup in Hy as [j Hj].
      specialize (Huniq (S j) y Hj Epy). discriminate Huniq.
    + destruct (p a) eqn:Epa.
      * specialize (Huniq 0%nat a eq_refl Epa). discriminate Huniq.
      * apply (IH i); try assumption.
        intros j y Hj Hy. specialize (Huniq (S j) y Hj Hy). lia.
Qed.

(** C4 (amended). After a successful [soft_delete] the table holds a
    record with the identifier whose [updated_by] and [updated_at] are
    the supplied values and whose [is_deleted] is true. No [list] with
    [include_deleted] false returns a row with that identifier. A [list]
    with [include_deleted] true that asks for the identifier alone, on
    page 0 and without filter fields, returns exactly that record with a
    total count of 1. *)
Theorem soft_delete_visibility (self : BaseDao)
    (id updated_by updated_at : Value) (t t' : Table) :
  soft_delete self id updated_by updated_at t = (inr tt, t') ->
  exists r',
    (In r' t' /\
     cell r' (id_field_name (_model_class self)) = id /\
     dict_get r' "updated_by" = Some updated_by /\
     dict_get r' "updated_at" = Some updated_at /\
     dict_get r' "is_deleted" = Some (VBool true)) /\
    (forall page size order_by pk_ids filter_fields resp x,
       list_ self page size order_by pk_ids false filter_fields t' = inr resp ->
       In x (items resp) ->
       cell x (id_field_name (_model_class self)) <> id) /\
    (forall size order_by o,
       1 <= size <= 100 ->
       getattr_ordering (_model_ordering_class self) order_by = Some o ->
       raises_data_error t' [CIn (id_field_name (_model_class self)) [id]]
       = false ->
       list_ self 0 size order_by [id] true [] t'
       = inr (mkListResponse [r'] 1)).
Proof.
  intros H. apply soft_delete_returns_inv in H as (Hid & i & r & Hget & ->).
  apply _get_found in Hget as (Hcol & Hi & Hr & Huniq).
  set (idc := id_field_name (_model_class self)) in *.
  destruct (id_field_name_not_audit (_model_class self)) as (Nub & Nua & Ndel).
  fold idc in Nub, Nua, Ndel.
  set (r' := dict_set
               (dict_set (dict_set r "updated_by" updated_by)
                  "updated_at" updated_at)
               "is_deleted" (VBool true)).
  set (t' := <[i := r']> t).
  assert (Hi' : t' !! i = Some r').
  { apply list_lookup_insert_eq. now apply lookup_lt_Some in Hi. }
  assert (Hr' : cell r' idc = id).
  { unfold cell, r'. rewrite !dict_get_set_other by congruence. exact Hr. }
  assert (Huniq' : forall j x, t' !! j = Some x -> cell x idc = id -> j = i).
  { intros j x Hj Hx. destruct (Nat.eq_dec j i) as [-> | Hne]; [reflexivity|].
    unfold t' in Hj. rewrite list_lookup_insert_ne in Hj by congruence.
    now apply (Huniq j x). }
  assert (Hdel : cell r' "is_deleted" = VBool true).
  { unfold cell, r'. now rewrite dict_get_set_same. }
  exists r'. split; [|split].
  - repeat split.
    + apply list_elem_of_In, list_elem_of_lookup. eauto.
    + exact Hr'.
    + unfold r'. rewrite !dict_get_set_other by discriminate.
      apply dict_get_set_same.
    + unfold r'. rewrite dict_get_set_other by discriminate.
      apply dict_get_set_same.
    + apply dict_get_set_same.
  - intros page size order_by pk_ids filter_fields resp x Hl Hx Hxid.
    destruct (list_items_match _ _ _ _ _ _ _ _ _ x Hl Hx) as [Hin Hm].
    apply list_elem_of_In, list_elem_of_lookup in Hin as [j Hj].
    assert (j = i) by now apply (Huniq' j x). subst j.
    assert (x = r') by congruence. subst x.
    unfold record_matches in Hm. cbn [orb] in Hm. rewrite Hdel in Hm.
    discriminate Hm.
  - intros size order_by o Hsize Ho Heng. rewrite list_unfold.
    destruct (Z.ltb_spec 0 0); [lia|].
    destruct (Z.ltb_spec size 1); [lia|].
    destruct (Z.ltb_spec 100 size); [lia|]. cbn [orb].
    assert (Hb : base_queryset (_model_class self) true [id]
                 = inr [CIn idc [id]]).
    { unfold base_queryset, get_id_field, getattr_model.
      unfold has_id_column, is_column in Hcol. fold idc in Hcol |- *.
      destruct (find_column (_model_class self) idc) as [col |] eqn:E;
        [|discriminate].
      apply find_column_name in E as [Hn _].
      cbn [negb bind ret expr_in qs_filter app]. now rewrite Hn. }
    rewrite Hb. cbn [bind filter_criteria ret app].
    rewrite Heng, Ho.
    assert (Hrows : qs_rows [CIn idc [id]] t' = [r']).
    { unfold qs_rows. apply (filter_unique _ _ i).
      - exact Hi'.
      - simpl. rewrite Hr', value_eqb_refl.
        destruct id; try reflexivity. discriminate Hid.
      - intros j y Hj Hy. apply (Huniq' j y Hj). simpl in Hy.
        rewrite orb_false_r, andb_true_r in Hy.
        apply andb_true_iff in Hy as [_ Hy]. now apply value_eqb_eq. }
    rewrite Hrows. unfold ret, qs_limit_offset, qs_order_by.
    replace (0 * size) with 0 by lia.
    destruct (Z.to_nat size) eqn:En; [lia | simpl; now rewrite firstn_nil].
Qed.

End Listing.

(** ** The paged lookup helper *)

Lemma fetch_loop_found (dao_list : DaoList) (column_name : string)
    (value : Value) (order_by : string) (records_list : Table)
    (resp : BaseDaoListResponse) :
  forall (max_pages k : nat) (page_offset : Z),
    (k < max_pages)%nat ->
    (forall q, (q < k)%nat ->
       exists r, dao_list (page_offset + Z.of_nat q) order_by
                   [(column_name, value)] = inr r /\ count r <= 0) ->
    dao_list (page_offset + Z.of_nat k) order_by [(column_name, value)]
    = inr resp ->
    count resp > 0 ->
    fetch_loop dao_list column_name value order_by records_list max_pages
      page_offset
    = inr (records_list ++ items resp)%list.
Proof.
  induction max_pages as [| n IH]; intros k p Hk Hbefore Hat Hpos; [lia|].
  cbn [fetch_loop]. destruct k as [| k].
  - replace (p + Z.of_nat 0) with p in Hat by lia. rewrite Hat. cbn [bind].
    destruct (Z.gtb_spec (count resp) 0); [reflexivity | lia].
  - destruct (Hbefore 0%nat) as (r & Hr & Hz); [lia|].
    replace (p + Z.of_nat 0) with p in Hr by lia. rewrite Hr. cbn [bind].
    destruct (Z.gtb_spec (count r) 0); [lia|].
    apply (IH k); [lia | | | assumption].
    + intros q Hq. destruct (Hbefore (S q)) as (r' & Hr' & Hz'); [lia|].
      exists r'. split; [|assumption].
      now replace (p + 1 + Z.of_nat q) with (p + Z.of_nat (S q)) by lia.
    + now replace (p + 1 + Z.of_nat k) with (p + Z.of_nat (S k)) by lia.
Qed.

Lemma fetch_loop_exhausted (dao_list : DaoList) (column_name : string)
    (value : Value) (order_by : string) (records_list : Table) :
  forall (max_pages : nat) (page_offset : Z),
    (forall q, (q < max_pages)%nat ->
       exists r, dao_list (page_offset + Z.of_nat q) order_by
                   [(column_name, value)] = inr r /\ count r <= 0) ->
    fetch_loop dao_list column_name value order_by records_list max_pages
      page_offset
    = inr records_list.
Proof.
  induction max_pages as [| n IH]; intros p Hall; [reflexivity|].
  cbn [fetch_loop].
  destruct (Hall 0%nat) as (r & Hr & Hz); [lia|].
  replace (p + Z.of_nat 0) with p in Hr by lia. rewrite Hr. cbn [bind].
  destruct (Z.gtb_spec (count r) 0); [lia|].
  apply IH. intros q Hq. destruct (Hall (S q)) as (r' & Hr' & Hz'); [lia|].
  exists r'. split; [|assumption].
  now replace (p + 1 + Z.of_nat q) with (p + Z.of_nat (S q)) by lia.
Qed.

(** The first call that raises ends the lookup with its exception. *)
Lemma fetch_loop_raises (dao_list : DaoList) (column_name : string)
    (value : Value) (order_by : string) (records_list : Table) (e : Exn) :
  forall (max_pages k : nat) (page_offset : Z),
    (k < max_pages)%nat ->
    (forall q, (q < k)%nat ->
       exists r, dao_list (page_offset + Z.of_nat q) order_by
                   [(column_name, value)] = inr r /\ count r <= 0) ->
    dao_list (page_offset + Z.of_nat k) order_by [(column_name, value)]
    = inl e ->
    fetch_loop dao_list column_name value order_by records_list max_pages
      page_offset
    = inl e.
Proof.
  induction max_pages as [| n IH]; intros k p Hk Hbefore Hat; [lia|].
  cbn [fetch_loop]. destruct k as [| k].
  - replace (p + Z.of_nat 0) with p in Hat by lia. now rewrite Hat.
  - destruct (Hbefore 0%nat) as (r & Hr & Hz); [lia|].
    replace (p + Z.of_nat 0) with p in Hr by lia. rewrite Hr. cbn [bind].
    destruct (Z.gtb_spec (count r) 0); [lia|].
    apply (IH k); [lia | |].
    + intros q Hq. destruct (Hbefore (S q)) as (r' & Hr' & Hz'); [lia|].
      exists r'. split; [|assumption].
      now replace (p + 1 + Z.of_nat q) with (p + Z.of_nat (S q)) by lia.
    + now replace (p + 1 + Z.of_nat k) with (p + Z.of_nat (S k)) by lia.
Qed.

(** C7. The helper calls [list] with the single filter and ascending
    creation-time order on pages 0, 1, ...: at the first page whose count
    is positive, the pages before it having returned a count of zero, it
    returns the items of that page; when the ten pages 0 to 9 all return
    a count of zero it returns the empty list, not an error. *)
Theorem paged_lookup (dao_list : DaoList) (column_name : string)
    (value : Value) (page_offset max_pages : Z) (order_by : string) :
  (forall p resp,
     0 <= p < 10 ->
     (forall q, 0 <= q < p ->
        exists r, dao_list q "CREATED_AT_ASC" [(column_name, value)] = inr r /\
                  count r <= 0) ->
     dao_list p "CREATED_AT_ASC" [(column_name, value)] = inr resp ->
     count resp > 0 ->
     fetch_row_based_on_column dao_list column_name value page_offset
       max_pages order_by
     = inr (items resp)) /\
  ((forall q, 0 <= q < 10 ->
      exists r, dao_list q "CREATED_AT_ASC" [(column_name, value)] = inr r /\
                count r <= 0) ->
   fetch_row_based_on_column dao_list column_name value page_offset
     max_pages order_by
   = inr []).
Proof.
  unfold fetch_row_based_on_column. cbv zeta. split.
  - intros p resp Hp Hbefore Hat Hpos.
    rewrite (fetch_loop_found dao_list column_name value "CREATED_AT_ASC" []
               resp (Z.to_nat 10) (Z.to_nat p) 0).
    + reflexivity.
    + lia.
    + intros q Hq. apply Hbefore. lia.
    + now replace (0 + Z.of_nat (Z.to_nat p)) with p by lia.
    + assumption.
  - intros Hall. apply fetch_loop_exhausted.
    intros q Hq. apply Hall. lia.
Qed.

Lemma paged_lookup_witness :
  fetch_row_based_on_column late_dao_list "k" (VStr "late") 0 10
    "CREATED_AT_ASC"
  = inr [ [("k", VStr "late")] ] /\
  fetch_row_based_on_column empty_dao_list "k" (VStr "late") 0 10
    "CREATED_AT_ASC"
  = inr [].
Proof.
  split.
  - apply (proj1 (paged_lookup late_dao_list "k" (VStr "late") 0 10
                    "CREATED_AT_ASC") 3
             (mkListResponse [ [("k", VStr "late")] ] 1)).
    + lia.
    + intros q Hq. exists (mkListResponse [] 0). split; [|simpl; lia].
      unfold late_dao_list. destruct (Z.eqb_spec q 3); [lia | reflexivity].
    + reflexivity.
    + reflexivity.
  - apply (proj2 (paged_lookup empty_dao_list "k" (VStr "late") 0 10
                    "CREATED_AT_ASC")).
    intros q Hq. exists (mkListResponse [] 0). split; [reflexivity|].
    simpl. lia.
Defined.

(** C10. Two calls of the helper that differ only in [page_offset],
    [max_pages] and [order_by] return the same result. *)
Theorem paged_lookup_ignores_paging_arguments (dao_list : DaoList)
    (column_name : string) (value : Value)
    (page_offset page_offset' max_pages max_pages' : Z)
    (order_by order_by' : string) :
  fetch_row_based_on_column dao_list column_name value page_offset max_pages
    order_by
  = fetch_row_based_on_column dao_list column_name value page_offset'
      max_pages' order_by'.
Proof. reflexivity. Qed.

(** ** The claims on the two entities of the service *)

Lemma null_rejection_witness :
  (exists g, create OrganizationsDAO [("organization_name", VNone)] acme_table
             = (inl (NotNullable g), acme_table)) /\
  (exists g, update (engine := reference_engine) OrganizationsDAO 1732838600
               (VStr "o1") [("organization_name", VNone)] acme_table
             = (inl (NotNullable g), acme_table)).
Proof.
  assert (Hreq : required_on_create OrganizationsDAO "organization_name").
  { apply non_nullable_columns_spec. vm_compute. tauto. }
  pose proof (null_rejection (engine := reference_engine) OrganizationsDAO
                "organization_name" [("organization_name", VNone)]
                acme_table Hreq eq_refl) as [Hc Hu].
  split.
  - apply Hc; discriminate.
  - apply (Hu 1732838600 (VStr "o1") (hd [] acme_table)).
    vm_compute. reflexivity.
Defined.

(** C2 as stated fails: [updated_by] is declared non-nullable, the
    mapping supplies it as None, and [create] succeeds, because it
    overwrites the key with [created_by] before it checks for None. *)
Lemma null_rejection_counterexample :
  (exists c, In c (columns Organizations) /\ col_name c = "updated_by" /\
             col_nullable c = false) /\
  dict_get org_data_null_updater "updated_by" = Some VNone /\
  fst (create OrganizationsDAO org_data_null_updater []) = inr tt.
Proof.
  split; [|split].
  - exists (mkColumn "updated_by" TString false None false false).
    simpl. tauto.
  - reflexivity.
  - vm_compute. reflexivity.
Qed.

(** The null check passes over a column that has a default: None for
    [is_deleted] is not refused with NotNullable. [create] stores the
    default; [update] runs into the NOT NULL constraint of the table. *)
Lemma null_check_skips_defaulted_column :
  (exists r, create OrganizationsDAO org_data_null_flag [] = (inr tt, [r]) /\
             dict_get r "is_deleted" = Some (VBool false)) /\
  update (engine := reference_engine) OrganizationsDAO 1732838600 (VStr "o1")
    [("is_deleted", VNone)] acme_table
  = (inl IntegrityError, acme_table).
Proof.
  split.
  - exists (hd [] (snd (create OrganizationsDAO org_data_null_flag []))).
    split; vm_compute; reflexivity.
  - vm_compute. reflexivity.
Qed.

Lemma list_filter_checks_run :
  list_ (engine := reference_engine) OrganizationsDAO 0 100 "CREATED_AT_DESC"
    [] false
    [("organization_name", VStr "Acme"); ("ghost", VStr "x")] acme_table
  = inl (InvalidFilterField "ghost") /\
  list_ (engine := reference_engine) OrganizationsDAO 0 100 "CREATED_AT_DESC"
    [] false
    [("organization_name", VStr "Acme"); ("organization_name__regex", VStr "x")]
    acme_table
  = inl (InvalidFilterMethod "organization_name" "regex").
Proof.
  assert (Hsize : 1 <= 100 <= 100) by lia.
  assert (Hpage : 0 <= 0) by lia.
  assert (Hv : VStr "x" <> VNone) by discriminate.
  split.
  - apply (proj1 (list_filter_checks (engine := reference_engine)
                    OrganizationsDAO 0 100 "CREATED_AT_DESC" [] false
                    [("organization_name", VStr "Acme")] [] "ghost" (VStr "x")
                    acme_table Hpage Hsize (or_introl eq_refl) eq_refl Hv)).
    reflexivity.
  - apply (proj2 (list_filter_checks (engine := reference_engine)
                    OrganizationsDAO 0 100 "CREATED_AT_DESC" [] false
                    [("organization_name", VStr "Acme")] []
                    "organization_name__regex" (VStr "x")
                    acme_table Hpage Hsize (or_introl eq_refl) eq_refl Hv)
             "regex").
    + reflexivity.
    + reflexivity.
    + simpl. intuition discriminate.
Defined.

Lemma soft_delete_visibility_witness :
  exists r',
    In r' acme_deleted /\
    dict_get r' "updated_at" = Some (VTime 1732838500) /\
    dict_get r' "is_deleted" = Some (VBool true) /\
    list_ (engine := reference_engine) OrganizationsDAO 0 100
      "CREATED_AT_DESC" [VStr "o1"] true [] acme_deleted
    = inr (mkListResponse [r'] 1).
Proof.
  assert (H : soft_delete (engine := reference_engine) OrganizationsDAO
                (VStr "o1") (VStr "a@x.com") (VTime 1732838500) acme_table
              = (inr tt, acme_deleted)) by (vm_compute; reflexivity).
  destruct (soft_delete_visibility (engine := reference_engine)
              OrganizationsDAO (VStr "o1") (VStr "a@x.com")
              (VTime 1732838500) acme_table acme_deleted H)
    as (r' & (Hin & _ & _ & Hat & Hdel) & _ & Hlist).
  exists r'. split; [exact Hin|]. split; [exact Hat|]. split; [exact Hdel|].
  apply (Hlist 100 "CREATED_AT_DESC" (mkOrdering "created_at" true)).
  - lia.
  - reflexivity.
  - reflexivity.
Defined.

(** C4 as stated fails: of 101 organizations the oldest is soft-deleted;
    [list] with [include_deleted] true and every other argument at its
    default counts 101 records and returns the 100 newest, without the
    soft-deleted one. *)
Lemma soft_delete_visibility_counterexample :
  fst (soft_delete (engine := reference_engine) OrganizationsDAO
         (VStr "o0") (VStr "a@x.com") (VTime 1000) many_orgs) = inr tt /\
  list_ (engine := reference_engine) OrganizationsDAO 0 100 "CREATED_AT_DESC"
    [] true [] many_orgs_deleted
  = inr many_orgs_first_page /\
  count many_orgs_first_page = 101 /\
  length (items many_orgs_first_page) = 100%nat /\
  existsb (fun x => value_eqb (cell x "organizations_id") (VStr "o0"))
    (items many_orgs_first_page) = false.
Proof.
  split; [vm_compute; reflexivity|].
  split; [vm_compute; reflexivity|].
  split; [vm_compute; reflexivity|].
  split; vm_compute; reflexivity.
Qed.

Lemma list_count_before_pagination_witness :
  count (mkListResponse acme_table 1)
  = Z.of_nat
      (length (List.filter
                 (record_matches (engine := reference_engine) OrganizationsDAO
                    [] false [("organization_name__icontains", VStr "acm")])
                 acme_table))
  /\ Z.of_nat (length (items (mkListResponse acme_table 1))) <= 100
  /\ (forall page' size' resp',
        list_ (engine := reference_engine) OrganizationsDAO page' size'
          "CREATED_AT_DESC" [] false
          [("organization_name__icontains", VStr "acm")] acme_table
        = inr resp' ->
        count resp' = count (mkListResponse acme_table 1)).
Proof.
  apply (list_count_before_pagination (engine := reference_engine)
           OrganizationsDAO 0 100 "CREATED_AT_DESC" [] false
           [("organization_name__icontains", VStr "acm")] acme_table
           (mkListResponse acme_table 1)).
  vm_compute. reflexivity.
Defined.

Lemma mutate_missing_record_witness :
  update (engine := reference_engine) OrganizationsDAO 1732838600 (VStr "zz")
    [("organization_name", VStr "Other")] acme_table
  = (inl (NotFound (VStr "zz")), acme_table) /\
  soft_delete (engine := reference_engine) OrganizationsDAO (VStr "zz")
    (VStr "a@x.com") (VTime 1732838500) acme_table
  = (inl (NotFound (VStr "zz")), acme_table).
Proof.
  assert (Hid : has_id_column (_model_class OrganizationsDAO)) by reflexivity.
  assert (Hno : no_record (_model_class OrganizationsDAO) (VStr "zz")
                  acme_table).
  { apply no_record_check. vm_compute. reflexivity. }
  destruct (proj2 (mutate_missing_record (engine := reference_engine)
                     OrganizationsDAO 1732838600 (VStr "zz") acme_table)
              Hid Hno) as [Hupdate Hdelete].
  split.
  - apply Hupdate. discriminate.
  - apply Hdelete; reflexivity.
Defined.

Lemma list_null_filter_is_no_filter_witness :
  list_ (engine := reference_engine) OrganizationsDAO 0 100 "CREATED_AT_DESC"
    [] false
    [("organization_name", VStr "Acme"); ("created_by", VNone)] acme_table
  = inr (mkListResponse acme_table 1).
Proof.
  apply (proj2 (list_null_filter_is_no_filter (engine := reference_engine)
                  OrganizationsDAO 0 100 "CREATED_AT_DESC" [] false
                  [("organization_name", VStr "Acme")] [] "created_by"
                  acme_table (mkListResponse acme_table 1))).
  vm_compute. reflexivity.
Defined.

(** * Further properties of the data-access layer *)

Section Records.

Context {engine : SqlEngine}.

(** ** [get] *)

Lemma filter_enumerate_unique (p : Row -> bool) (t : Table) :
  forall (s i : nat) (x : Row),
    t !! i = Some x -> p x = true ->
    (forall j y, t !! j = Some y -> p y = true -> j = i) ->
    List.filter (fun ir => p (snd ir)) (combine (seq s (length t)) t)
    = [((s + i)%nat, x)].
Proof.
  induction t as [| a l IH]; intros s i x Hi Hp Huniq.
  - discriminate Hi.
  - destruct i as [| i]; simpl in *.
    + injection Hi as ->. rewrite Hp. rewrite Nat.add_0_r. f_equal.
      apply filter_none. intros [j y] Hin. simpl.
      destruct (p y) eqn:Epy; [|reflexivity].
      apply in_combine_r, list_elem_of_In, list_elem_of_lookup in Hin
        as [j' Hj'].
      specialize (Huniq (S j') y Hj' Epy). discriminate Huniq.
    + destruct (p a) eqn:Epa.
      * specialize (Huniq 0%nat a eq_refl Epa). discriminate Huniq.
      * rewrite (IH (S s) i x Hi Hp).
        -- now rewrite Nat.add_succ_r.
        -- intros j y Hj Hy. specialize (Huniq (S j) y Hj Hy). lia.
Qed.

(** The converse of [_get_found]: a row that alone carries the identifier
    is the one [_get] returns. *)
Lemma _get_finds (self : BaseDao) (id : Value) (t : Table) (i : nat) (r : Row) :
  has_id_column (_model_class self) ->
  t !! i = Some r ->
  cell r (id_field_name (_model_class self)) = id ->
  (forall j x, t !! j = Some x ->
               cell x (id_field_name (_model_class self)) = id -> j = i) ->
  _get self id t = inr (Some (i, r)).
Proof.
  unfold _get, get_id_field, getattr_model, has_id_column, is_column.
  intros Hid Hi Hr Huniq.
  destruct (find_column _ _) as [col |] eqn:E; [|discriminate].
  apply find_column_name in E as [Hn _]. cbn [bind expr_eq ret]. rewrite Hn.
  unfold enumerate.
  rewrite (filter_enumerate_unique
             (fun x => criterion_holds x
                         (CEq (id_field_name (_model_class self)) id))
             t 0 i r Hi).
  - reflexivity.
  - simpl. rewrite Hr. apply value_eqb_refl.
  - intros j y Hj Hy. apply (Huniq j y Hj). simpl in Hy.
    now apply value_eqb_eq.
Qed.

(** X1. [get] returns a record only if it is a row of the table that
    carries the identifier, and returns no record, without an error, when
    no row carries it. *)
Theorem get_sound_and_absent (self : BaseDao) (id : Value) (t : Table) :
  (forall r, get self id t = inr (Some r) ->
             In r t /\ cell r (id_field_name (_model_class self)) = id) /\
  (has_id_column (_model_class self) ->
   no_record (_model_class self) id t ->
   get self id t = inr None).
Proof.
  split.
  - intros r H. apply get_found_inv in H as [i H].
    apply _get_found in H as (_ & Hi & Hr & _). split; [|exact Hr].
    apply list_elem_of_In, list_elem_of_lookup. eauto.
  - intros Hid Hno. unfold get. now rewrite (_get_absent self id t Hid Hno).
Qed.


(** ** [create] followed by [get] *)

Lemma violates_constraints_false (m : ModelClass) (others : Table) (r : Row)
    (c : Column) :
  violates_constraints m others r = false ->
  In c (columns m) ->
  (col_primary_key c || col_unique c)%bool = true ->
  cell r (col_name c) <> VNone ->
  forall r', In r' others -> cell r' (col_name c) <> cell r (col_name c).
Proof.
  unfold violates_constraints. intros Hv Hin Hkey Hnn r' Hr' Heq.
  match type of Hv with existsb ?f _ = _ => set (body := f) in * end.
  assert (Hc : body c = false).
  { destruct (body c) eqn:E; [|reflexivity].
    rewrite <- not_true_iff_false in Hv. exfalso. apply Hv.
    apply existsb_exists. eauto. }
  unfold body in Hc. apply orb_false_iff in Hc as [_ Hc]. rewrite Hkey in Hc.
  assert (Hn : is_none (cell r (col_name c)) = false).
  { destruct (is_none _) eqn:E; [|reflexivity].
    apply is_none_true in E. contradiction. }
  rewrite Hn in Hc. cbn [negb andb] in Hc.
  rewrite <- not_true_iff_false in Hc. apply Hc.
  apply existsb_exists. exists r'. split; [assumption|].
  rewrite Heq. apply value_eqb_refl.
Qed.

(** X2. A record created with an identifier that is not None, in a model
    whose identifier column is a primary key or unique, is the record
    [get] returns for that identifier. *)
Theorem create_then_get (self : BaseDao) (kwargs : Kwargs) (t t' : Table)
    (c : Column) (id : Value) :
  create self kwargs t = (inr tt, t') ->
  find_column (_model_class self) (id_field_name (_model_class self)) = Some c ->
  (col_primary_key c || col_unique c)%bool = true ->
  dict_get kwargs (id_field_name (_model_class self)) = Some id ->
  id <> VNone ->
  exists r, t' = (t ++ [r])%list /\ get self id t' = inr (Some r).
Proof.
  intros Hc Hfind Hkey Hid Hnn.
  set (m := _model_class self) in *. set (idc := id_field_name m) in *.
  destruct (id_field_name_not_audit m) as (Nub & Nua & _). fold idc in Nub, Nua.
  rewrite create_unfold in Hc. set (kw := with_update_columns kwargs) in *.
  destruct (_verify_null_kwargs self kw) as [e | u];
    cbn [bind run_write] in Hc; [discriminate Hc|].
  destruct (_verify_all_non_nullable_fields_defined self kw) as [e | u'];
    cbn [bind run_write] in Hc; [discriminate Hc|].
  fold m in Hc.
  destruct (model_init m kw) as [e | inst] eqn:Ei;
    cbn [bind run_write] in Hc; [discriminate Hc|].
  unfold commit_insert in Hc.
  destruct (violates_constraints m t (inserted_row m inst)) eqn:Ev;
    cbn [run_write raise ret] in Hc; [discriminate Hc|].
  injection Hc as <-.
  set (r := inserted_row m inst) in *.
  assert (Hkw : dict_get kw idc = Some id).
  { unfold kw. now rewrite with_update_columns_other by assumption. }
  assert (Hinst : cell inst idc = id).
  { unfold cell.
    rewrite (model_init_loop_lookup _ _ _ _ _ idc Ei)
      by (unfold is_column; now rewrite Hfind).
    assert (Hk : str_in idc (dict_keys kw) = true).
    { apply str_in_In. eapply dict_get_in_keys; eassumption. }
    rewrite Hk. unfold dict_get_or_none. now rewrite Hkw. }
  destruct (find_column_name _ _ _ Hfind) as [Hname Hin].
  assert (Hr : cell r idc = id).
  { unfold cell, r. rewrite inserted_row_lookup, Hfind. simpl.
    unfold stored_value. rewrite Hname, Hinst. now destruct id. }
  exists r. split; [reflexivity|].
  unfold get.
  rewrite (_get_finds self id (t ++ [r])%list (length t) r).
  - reflexivity.
  - unfold has_id_column, is_column. fold m idc. now rewrite Hfind.
  - rewrite lookup_app_r by lia. now rewrite Nat.sub_diag.
  - exact Hr.
  - intros j x Hj Hx.
    destruct (Nat.lt_ge_cases j (length t)) as [Hlt | Hge].
    + exfalso. rewrite lookup_app_l in Hj by assumption.
      assert (Hxin : In x t)
        by (apply list_elem_of_In, list_elem_of_lookup; eauto).
      assert (Hnn' : cell r (col_name c) <> VNone)
        by (rewrite Hname, Hr; exact Hnn).
      apply (violates_constraints_false m t r c Ev Hin Hkey Hnn' x Hxin).
      rewrite Hname, Hr. exact Hx.
    + apply lookup_lt_Some in Hj. rewrite length_app in Hj. simpl in Hj. lia.
Qed.

End Records.

Lemma get_sound_and_absent_witness :
  (In (hd [] acme_table) acme_table /\
   cell (hd [] acme_table) (id_field_name (_model_class OrganizationsDAO))
   = VStr "o1") /\
  get (engine := reference_engine) OrganizationsDAO (VStr "zz") acme_table
  = inr None.
Proof.
  destruct (get_sound_and_absent (engine := reference_engine)
              OrganizationsDAO (VStr "o1") acme_table) as [Hsound _].
  destruct (get_sound_and_absent (engine := reference_engine)
              OrganizationsDAO (VStr "zz") acme_table) as [_ Habsent].
  split.
  - apply Hsound. vm_compute. reflexivity.
  - apply Habsent; [reflexivity|].
    apply no_record_check. vm_compute. reflexivity.
Defined.

Lemma create_then_get_witness :
  exists r,
    acme_table = ([] ++ [r])%list /\
    get (engine := reference_engine) OrganizationsDAO (VStr "o1") acme_table
    = inr (Some r).
Proof.
  apply (create_then_get (engine := reference_engine) OrganizationsDAO
           org_data [] acme_table
           (mkColumn "organizations_id" TString false None true false)
           (VStr "o1")).
  - vm_compute. reflexivity.
  - reflexivity.
  - reflexivity.
  - reflexivity.
  - discriminate.
Defined.

Section Writes.

Context {engine : SqlEngine}.

(** ** [soft_delete] and [update], once they return *)

Lemma soft_delete_effect (self : BaseDao) (id updated_by updated_at : Value)
    (t t' : Table) :
  soft_delete self id updated_by updated_at t = (inr tt, t') ->
  exists i r,
    has_id_column (_model_class self) /\
    t !! i = Some r /\
    cell r (id_field_name (_model_class self)) = id /\
    (forall j x, t !! j = Some x ->
                 cell x (id_field_name (_model_class self)) = id -> j = i) /\
    t' = <[i := dict_set
                   (dict_set (dict_set r "updated_by" updated_by)
                      "updated_at" updated_at)
                   "is_deleted" (VBool true)]> t.
Proof.
  intros H. apply soft_delete_returns_inv in H as (_ & i & r & Hget & ->).
  apply _get_found in Hget as (Hcol & Hi & Hr & Huniq).
  exists i, r. repeat split; assumption.
Qed.

(** Changing cells other than the identifier keeps the record findable. *)
Lemma _get_after_change (self : BaseDao) (id : Value) (t : Table) (i : nat)
    (r r' : Row) :
  has_id_column (_model_class self) ->
  t !! i = Some r ->
  (forall j x, t !! j = Some x ->
               cell x (id_field_name (_model_class self)) = id -> j = i) ->
  cell r' (id_field_name (_model_class self)) = id ->
  _get self id (<[i := r']> t) = inr (Some (i, r')).
Proof.
  intros Hcol Hi Huniq Hr'. apply _get_finds; try assumption.
  - apply list_lookup_insert_eq. now apply lookup_lt_Some in Hi.
  - intros j x Hj Hx. destruct (Nat.eq_dec j i) as [-> | Hne]; [reflexivity|].
    rewrite list_lookup_insert_ne in Hj by congruence. now apply (Huniq j x).
Qed.

(** X3. [get] does not look at the soft-delete flag: after a successful
    [soft_delete], [get] still returns the record, now flagged as
    deleted. *)
Theorem soft_delete_then_get (self : BaseDao)
    (id updated_by updated_at : Value) (t t' : Table) :
  soft_delete self id updated_by updated_at t = (inr tt, t') ->
  exists r', get self id t' = inr (Some r') /\
             dict_get r' "is_deleted" = Some (VBool true) /\
             dict_get r' "updated_by" = Some updated_by /\
             dict_get r' "updated_at" = Some updated_at.
Proof.
  intros H.
  apply soft_delete_effect in H as (i & r & Hcol & Hi & Hr & Huniq & ->).
  destruct (id_field_name_not_audit (_model_class self)) as (Nub & Nua & Ndel).
  exists (dict_set
            (dict_set (dict_set r "updated_by" updated_by)
               "updated_at" updated_at)
            "is_deleted" (VBool true)).
  split; [|split; [|split]].
  - unfold get. rewrite (_get_after_change self id t i r); try assumption.
    + reflexivity.
    + unfold cell. rewrite !dict_get_set_other by congruence. exact Hr.
  - apply dict_get_set_same.
  - rewrite !dict_get_set_other by discriminate. apply dict_get_set_same.
  - rewrite dict_get_set_other by discriminate. apply dict_get_set_same.
Qed.

(** X4. A successful [soft_delete] replaces one row, at its position, and
    changes only its [updated_by], [updated_at] and [is_deleted] cells:
    every other cell of the row and every other row stay as they
    were. *)
Theorem soft_delete_frame (self : BaseDao) (id updated_by updated_at : Value)
    (t t' : Table) :
  soft_delete self id updated_by updated_at t = (inr tt, t') ->
  exists i r r',
    t !! i = Some r /\ t' = <[i := r']> t /\
    (forall c, c <> "updated_by" -> c <> "updated_at" -> c <> "is_deleted" ->
               dict_get r' c = dict_get r c) /\
    (forall j, j <> i -> t' !! j = t !! j) /\
    length t' = length t.
Proof.
  intros H.
  apply soft_delete_effect in H as (i & r & _ & Hi & _ & _ & ->).
  eexists i, r, _. split; [exact Hi|]. split; [reflexivity|]. split; [|split].
  - intros c Nub Nua Ndel. now rewrite !dict_get_set_other by congruence.
  - intros j Hne. apply list_lookup_insert_ne. congruence.
  - apply length_insert.
Qed.

Lemma setattr_fold_lookup (m : ModelClass) (kwargs : Kwargs)
    (keys : list string) (instance : Row) (c : string) :
  dict_get (fold_left (setattr_row m kwargs) keys instance) c
  = if (str_in c keys && is_column m c)%bool
    then Some (dict_get_or_none kwargs c)
    else dict_get instance c.
Proof.
  revert instance. induction keys as [| k rest IH]; intros instance.
  - reflexivity.
  - cbn [fold_left]. rewrite IH. unfold str_in. simpl. fold (str_in c rest).
    unfold setattr_row.
    destruct (String.eqb_spec c k) as [-> | Hne]; simpl.
    + destruct (is_column m k) eqn:Ek.
      * rewrite andb_true_r. destruct (str_in k rest); [reflexivity|].
        apply dict_get_set_same.
      * now rewrite andb_false_r.
    + destruct (str_in c rest && is_column m c)%bool; [reflexivity|].
      destruct (is_column m k); [|reflexivity].
      apply dict_get_set_other. congruence.
Qed.

Lemma update_returns_inv (self : BaseDao) (now : Z) (id : Value)
    (kwargs : Kwargs) (t t' : Table) :
  update self now id kwargs t = (inr tt, t') ->
  kwargs <> [] ->
  exists i r,
    _get self id t = inr (Some (i, r)) /\
    t' = <[i := dict_set
                   (fold_left (setattr_row (_model_class self) kwargs)
                      (dict_keys kwargs) r)
                   "updated_at" (VTime now)]> t.
Proof.
  unfold update. destruct kwargs as [| kv rest]; [contradiction|].
  intros H _.
  destruct (_get self id t) as [e | [[i r] |]]; cbn [bind run_write raise] in H;
    try discriminate H.
  destruct (_verify_null_kwargs self (kv :: rest)) as [e | u];
    cbn [bind run_write] in H; [discriminate H|].
  unfold commit_update in H. destruct (violates_constraints _ _ _);
    cbn [run_write raise ret] in H; [discriminate H|].
  injection H as <-. eauto.
Qed.

(** X5. A successful [update] with a non-empty mapping replaces the row
    that carries the identifier: its [updated_at] becomes the current
    time (whatever the mapping says), every other column the mapping
    names takes the mapped value, keys that are not columns are dropped,
    and all other cells and rows stay as they were. *)
Theorem update_effect (self : BaseDao) (now : Z) (id : Value)
    (kwargs : Kwargs) (t t' : Table) :
  update self now id kwargs t = (inr tt, t') ->
  kwargs <> [] ->
  exists i r r',
    t !! i = Some r /\
    cell r (id_field_name (_model_class self)) = id /\
    t' = <[i := r']> t /\
    dict_get r' "updated_at" = Some (VTime now) /\
    (forall c, c <> "updated_at" ->
       dict_get r' c
       = if (dict_mem kwargs c && is_column (_model_class self) c)%bool
         then Some (dict_get_or_none kwargs c)
         else dict_get r c).
Proof.
  intros H Hne. apply update_returns_inv in H as (i & r & Hget & ->);
    [|assumption].
  apply _get_found in Hget as (_ & Hi & Hr & _).
  eexists i, r, _. split; [exact Hi|]. split; [exact Hr|].
  split; [reflexivity|]. split.
  - apply dict_get_set_same.
  - intros c Hc. rewrite dict_get_set_other by congruence.
    rewrite setattr_fold_lookup.
    assert (Hmem : str_in c (dict_keys kwargs) = dict_mem kwargs c).
    { unfold dict_mem. destruct (dict_get kwargs c) as [v |] eqn:E.
      - apply str_in_In. eapply dict_get_in_keys; eassumption.
      - destruct (str_in c (dict_keys kwargs)) eqn:Es; [|reflexivity].
        apply str_in_In, dict_keys_get in Es as [v Hv]. congruence. }
    now rewrite Hmem.
Qed.

End Writes.

Lemma soft_delete_then_get_witness :
  exists r',
    get (engine := reference_engine) OrganizationsDAO (VStr "o1") acme_deleted
    = inr (Some r') /\
    dict_get r' "is_deleted" = Some (VBool true) /\
    dict_get r' "updated_by" = Some (VStr "a@x.com") /\
    dict_get r' "updated_at" = Some (VTime 1732838500).
Proof.
  apply (soft_delete_then_get (engine := reference_engine) OrganizationsDAO
           (VStr "o1") (VStr "a@x.com") (VTime 1732838500) acme_table
           acme_deleted).
  vm_compute. reflexivity.
Defined.

Lemma soft_delete_frame_witness :
  exists i r r',
    acme_table !! i = Some r /\ acme_deleted = <[i := r']> acme_table /\
    (forall c, c <> "updated_by" -> c <> "updated_at" -> c <> "is_deleted" ->
               dict_get r' c = dict_get r c) /\
    (forall j, j <> i -> acme_deleted !! j = acme_table !! j) /\
    length acme_deleted = length acme_table.
Proof.
  apply (soft_delete_frame (engine := reference_engine) OrganizationsDAO
           (VStr "o1") (VStr "a@x.com") (VTime 1732838500)).
  vm_compute. reflexivity.
Defined.

Lemma update_effect_witness :
  exists i r r',
    acme_table !! i = Some r /\
    cell r (id_field_name (_model_class OrganizationsDAO)) = VStr "o1" /\
    acme_renamed = <[i := r']> acme_table /\
    dict_get r' "updated_at" = Some (VTime 1732838600) /\
    (forall c, c <> "updated_at" ->
       dict_get r' c
       = if (dict_mem rename_data c
             && is_column (_model_class OrganizationsDAO) c)%bool
         then Some (dict_get_or_none rename_data c)
         else dict_get r c).
Proof.
  apply (update_effect (engine := reference_engine) OrganizationsDAO
           1732838600 (VStr "o1") rename_data acme_table acme_renamed).
  - vm_compute. reflexivity.
  - discriminate.
Defined.

Section Pages.

Context {engine : SqlEngine}.

(** ** What [list] hands back *)

(** X7. Every item [list] returns is a row of the table; it is not
    soft-deleted unless deleted rows were asked for; its identifier is
    among [pk_ids] when some are given; and it satisfies every filter
    field whose value is not None. *)
Theorem list_items_satisfy_call (self : BaseDao) (page size : Z)
    (order_by : string) (pk_ids : list Value) (include_deleted : bool)
    (filter_fields : Kwargs) (t : Table) (resp : BaseDaoListResponse)
    (x : Row) :
  list_ self page size order_by pk_ids include_deleted filter_fields t
  = inr resp ->
  In x (items resp) ->
  In x t /\
  (include_deleted = false -> cell x "is_deleted" = VBool false) /\
  (pk_ids <> [] ->
   In (cell x (id_field_name (_model_class self))) pk_ids) /\
  (forall name value,
     In (name, value) filter_fields -> value <> VNone ->
     filter_expression_holds (_model_class self) x name value = true).
Proof.
  intros H Hx. destruct (list_items_match _ _ _ _ _ _ _ _ _ x H Hx) as [Hin Hm].
  unfold record_matches in Hm.
  apply andb_true_iff in Hm as [Hm Hf]. apply andb_true_iff in Hm as [Hd Hpk].
  split; [exact Hin|]. split; [|split].
  - intros ->. cbn [orb] in Hd. now apply value_eqb_eq.
  - intros Hne. destruct pk_ids as [| pk pks]; [contradiction|].
    apply andb_true_iff in Hpk as [_ Hpk].
    apply existsb_exists in Hpk as (v & Hv & E).
    apply value_eqb_eq in E. now rewrite E.
  - intros name value Hnv Hnn. rewrite forallb_forall in Hf.
    specialize (Hf (name, value) Hnv). cbn [fst snd] in Hf.
    destruct value; try exact Hf. contradiction.
Qed.

Lemma insert_ordered_perm (o : Ordering) (rank : Row -> Z) (r : Row)
    (sorted : Table) :
  Permutation (insert_ordered o rank r sorted) (r :: sorted).
Proof.
  induction sorted as [| y rest IH]; simpl; [reflexivity|].
  destruct (ordered_before o rank r y); [reflexivity|].
  rewrite IH. apply perm_swap.
Qed.

Lemma qs_order_by_perm (o : Ordering) (rank : Row -> Z) (rows : Table) :
  Permutation (qs_order_by o rank rows) rows.
Proof.
  unfold qs_order_by. induction rows as [| r rest IH]; simpl; [reflexivity|].
  rewrite insert_ordered_perm. now apply perm_skip.
Qed.

Lemma pages_concat (size : nat) (rows : Table) (n : nat) :
  concat (map (fun p => firstn size (skipn (p * size) rows)) (seq 0 n))
  = firstn (n * size) rows.
Proof.
  induction n as [| n IH]; [reflexivity|].
  rewrite seq_S, map_app, concat_app, IH. simpl. rewrite app_nil_r.
  replace (size + n * size)%nat with (n * size + size)%nat by lia.
  apply take_take_drop.
Qed.

Lemma insert_ordered_rank (o : Ordering) (rank rank' : Row -> Z) (r : Row)
    (sorted : Table) :
  (forall x, In x sorted ->
     key_leb o r x = true -> key_leb o x r = true -> r = x) ->
  insert_ordered o rank r sorted = insert_ordered o rank' r sorted.
Proof.
  induction sorted as [| y rest IH]; intros Hd; [reflexivity|].
  cbn [insert_ordered].
  assert (E : ordered_before o rank r y = ordered_before o rank' r y).
  { unfold ordered_before.
    destruct (key_leb o r y) eqn:E1; [|reflexivity].
    destruct (key_leb o y r) eqn:E2; [|reflexivity].
    rewrite <- (Hd y (or_introl eq_refl) E1 E2). cbn.
    now rewrite !Z.leb_refl. }
  rewrite E, IH; [reflexivity|].
  intros x Hx. apply Hd. now right.
Qed.

(** Where no two different rows tie, the order does not depend on the
    ranks. *)
Lemma qs_order_by_rank (o : Ordering) (rank rank' : Row -> Z) (rows : Table) :
  order_keys_distinct o rows ->
  qs_order_by o rank rows = qs_order_by o rank' rows.
Proof.
  unfold qs_order_by. induction rows as [| r rest IH]; intros Hd;
    [reflexivity|].
  cbn [fold_right]. rewrite IH.
  - apply insert_ordered_rank. intros x Hx.
    apply (qs_order_by_in o rank' rest x) in Hx.
    apply Hd; [now left | now right].
  - intros a b Ha Hb. apply Hd; now right.
Qed.

(** X8. Paging leaves nothing out and repeats nothing where the order is
    decided by the keys: when [list] returns for page 0, [n] pages of the
    given size are enough for its total count, and no two different
    records matching the call have equal order keys, [list] returns for
    each of the pages 0 to [n - 1], and their items, put one after the
    other, are the records matching the call, each exactly as often as
    the table holds it. *)
Theorem list_pages_cover (self : BaseDao) (size : Z) (order_by : string)
    (pk_ids : list Value) (include_deleted : bool) (filter_fields : Kwargs)
    (t : Table) (resp0 : BaseDaoListResponse) (n : nat) :
  list_ self 0 size order_by pk_ids include_deleted filter_fields t
  = inr resp0 ->
  count resp0 <= Z.of_nat n * size ->
  (forall o,
     getattr_ordering (_model_ordering_class self) order_by = Some o ->
     order_keys_distinct o
       (List.filter (record_matches self pk_ids include_deleted filter_fields)
          t)) ->
  exists pages : list BaseDaoListResponse,
    length pages = n /\
    (forall p resp, pages !! p = Some resp ->
       list_ self (Z.of_nat p) size order_by pk_ids include_deleted
         filter_fields t = inr resp) /\
    Permutation (concat (map items pages))
      (List.filter (record_matches self pk_ids include_deleted filter_fields)
         t).
Proof.
  intros H0 Hn Hkeys. pose proof H0 as Hinv.
  apply list_returns_inv in Hinv as (_ & Hsize & o & rank0 & Ho & ->).
  cbn [count] in Hn. specialize (Hkeys o Ho).
  set (rows := List.filter
                 (record_matches self pk_ids include_deleted filter_fields) t)
    in *.
  set (page_of := fun p : nat =>
         mkListResponse
           (qs_limit_offset size (Z.of_nat p * size) (qs_order_by o rank0 rows))
           (Z.of_nat (length rows))).
  exists (map page_of (seq 0 n)). split; [|split].
  - now rewrite length_map, length_seq.
  - intros p resp Hp. rewrite list_lookup_fmap in Hp.
    destruct (seq 0 n !! p) as [q |] eqn:Eq; [|discriminate Hp].
    apply lookup_seq in Eq as [-> _]. simpl in Hp. injection Hp as <-.
    (* the same call, on another page *)
    rewrite list_unfold in H0 |- *.
    destruct (Z.ltb_spec (Z.of_nat p) 0); [lia|].
    destruct ((size <? 1) || (100 <? size))%bool; [discriminate H0|].
    destruct (base_queryset _ _ _) as [e | qs0] eqn:Eb; [discriminate H0|].
    cbn [bind] in H0 |- *.
    destruct (filter_criteria _ _) as [e | cs] eqn:Ec; [discriminate H0|].
    cbn [bind] in H0 |- *.
    destruct (raises_data_error t (qs0 ++ cs)%list);
      [destruct (last_key None filter_fields); discriminate H0|].
    rewrite Ho in H0 |- *. unfold ret in *. injection H0 as Hitems Hcount.
    unfold page_of. f_equal.
    assert (Hrows : qs_rows (qs0 ++ cs)%list t = rows).
    { unfold qs_rows, rows. apply filter_ext. intros r.
      rewrite row_selected_app, (base_queryset_selects _ _ _ _ r Eb),
        (filter_criteria_select _ _ _ r Ec). reflexivity. }
    rewrite Hrows. f_equal. f_equal. now apply qs_order_by_rank.
  - rewrite map_map.
    rewrite (map_ext _ (fun p : nat =>
               firstn (Z.to_nat size)
                 (skipn (p * Z.to_nat size) (qs_order_by o rank0 rows)))).
    + rewrite pages_concat. rewrite firstn_all2.
      * apply qs_order_by_perm.
      * rewrite qs_order_by_length. apply Nat2Z.inj_le.
        rewrite Nat2Z.inj_mul, Z2Nat.id by lia. exact Hn.
    + intros p. unfold page_of, qs_limit_offset. cbn [items].
      rewrite Z2Nat.inj_mul, Nat2Z.id by lia. reflexivity.
Qed.

(** X9. When the engine rejects the query [list] has built, [list]
    reports the data error on the last key of the filter fields, whatever
    its value and whichever criterion was at fault; with no filter field
    at all the handler has no field to name and fails with
    UnboundLocalError. *)
Theorem list_data_error_names_last_field (self : BaseDao) (page size : Z)
    (order_by : string) (pk_ids : list Value) (include_deleted : bool)
    (filter_fields : Kwargs) (t : Table) (qs0 cs : list Criterion) :
  0 <= page -> 1 <= size <= 100 ->
  base_queryset (_model_class self) include_deleted pk_ids = inr qs0 ->
  filter_criteria (_model_class self) filter_fields = inr cs ->
  raises_data_error t (qs0 ++ cs)%list = true ->
  (filter_fields = [] ->
   list_ self page size order_by pk_ids include_deleted filter_fields t
   = inl UnboundLocalError) /\
  (forall before name value,
     filter_fields = (before ++ [(name, value)])%list ->
     list_ self page size order_by pk_ids include_deleted filter_fields t
     = inl (DataError name)).
Proof.
  intros Hpage Hsize Hb Hc Heng.
  assert (Hgen :
    list_ self page size order_by pk_ids include_deleted filter_fields t
    = match last_key None filter_fields with
      | Some field => inl (DataError field)
      | None => inl UnboundLocalError
      end).
  { rewrite list_unfold.
    destruct (Z.ltb_spec page 0); [lia|].
    destruct (Z.ltb_spec size 1); [lia|].
    destruct (Z.ltb_spec 100 size); [lia|]. cbn [orb].
    rewrite Hb. cbn [bind]. rewrite Hc. cbn [bind]. rewrite Heng.
    destruct (last_key None filter_fields); reflexivity. }
  split.
  - intros ->. exact Hgen.
  - intros before name value ->. rewrite Hgen.
    unfold last_key. now rewrite fold_left_app.
Qed.

(** ** The paged lookup on a [BaseDao] *)

Lemma list_other_page (self : BaseDao) (page page' size : Z)
    (order_by : string) (pk_ids : list Value) (include_deleted : bool)
    (filter_fields : Kwargs) (t : Table) (resp : BaseDaoListResponse) :
  list_ self page size order_by pk_ids include_deleted filter_fields t
  = inr resp ->
  0 <= page' ->
  exists resp',
    list_ self page' size order_by pk_ids include_deleted filter_fields t
    = inr resp' /\ count resp' = count resp.
Proof.
  intros H Hp'. rewrite list_unfold in H |- *.
  destruct (page <? 0); [discriminate H|].
  destruct (Z.ltb_spec page' 0); [lia|].
  destruct ((size <? 1) || (100 <? size))%bool; [discriminate H|].
  destruct (base_queryset _ _ _) as [e | qs0]; [discriminate H|].
  cbn [bind] in H |- *.
  destruct (filter_criteria _ _) as [e | cs]; [discriminate H|].
  cbn [bind] in H |- *.
  destruct (raises_data_error t (qs0 ++ cs)%list);
    [destruct (last_key None filter_fields); discriminate H|].
  destruct (getattr_ordering _ _) as [o |]; [|discriminate H].
  unfold ret in *. injection H as <-. eexists. split; reflexivity.
Qed.

Lemma list_no_match_no_items (self : BaseDao) (page size : Z)
    (order_by : string) (pk_ids : list Value) (include_deleted : bool)
    (filter_fields : Kwargs) (t : Table) (resp : BaseDaoListResponse) :
  list_ self page size order_by pk_ids include_deleted filter_fields t
  = inr resp ->
  count resp <= 0 -> items resp = [].
Proof.
  intros H Hc. apply list_returns_inv in H as (_ & _ & o & rank & _ & ->).
  cbn [count items] in *.
  destruct (List.filter _ t) as [| r rows]; [|simpl in Hc; lia].
  unfold qs_limit_offset, qs_order_by. simpl.
  now rewrite skipn_nil, firstn_nil.
Qed.

(** On arguments of the annotated types the two readings of [list]
    agree. *)
Lemma list_untyped_typed (self : BaseDao)
    (page size : Z) (order_by : string) (pk_ids : list Value)
    (include_deleted : bool) (filter_fields : Kwargs) (t : Table) :
  list_untyped self page (VInt size) order_by (VList pk_ids)
    (VBool include_deleted) filter_fields t
  = list_ self page size order_by pk_ids include_deleted filter_fields t.
Proof. destruct pk_ids; reflexivity. Qed.

(** A key that is no parameter of [list] is a filter field. *)
Lemma dao_list_of_filter (dao : BaseDao) (t : Table)
    (page : Z) (order_by column_name : string) (value : Value) :
  str_in column_name list_parameters = false ->
  dao_list_of dao t page order_by [(column_name, value)]
  = list_ dao page 100 order_by [] false [(column_name, value)] t.
Proof.
  intros Hn. unfold dao_list_of. cbn [List.filter fst].
  rewrite Hn. cbn [negb].
  unfold str_in, list_parameters in Hn. cbn [existsb] in Hn.
  repeat (apply orb_false_elim in Hn as [? Hn]).
  unfold dict_mem. cbn [dict_get].
  repeat match goal with
         | H : String.eqb column_name _ = false |- _ => rewrite H; clear H
         end.
  cbn [orb]. apply list_untyped_typed.
Qed.

Lemma fetch_on_table (dao : BaseDao) (t : Table)
    (column_name : string) (value : Value) (page_offset max_pages : Z)
    (order_by : string) :
  str_in column_name list_parameters = false ->
  fetch_row_based_on_column (dao_list_of dao t) column_name value page_offset
    max_pages order_by
  = match list_ dao 0 100 "CREATED_AT_ASC" [] false [(column_name, value)] t
    with
    | inl e => inl e
    | inr resp => inr (items resp)
    end.
Proof.
  intros Hn. unfold fetch_row_based_on_column. cbv zeta.
  destruct (list_ dao 0 100 "CREATED_AT_ASC" [] false [(column_name, value)] t)
    as [e | resp] eqn:E0.
  - apply (fetch_loop_raises _ _ _ _ _ _ (Z.to_nat 10) 0%nat 0); try lia.
    rewrite dao_list_of_filter by exact Hn. exact E0.
  - destruct (Z.gtb_spec (count resp) 0) as [Hpos | Hzero].
    + apply (fetch_loop_found (dao_list_of dao t) column_name value
               "CREATED_AT_ASC" [] resp (Z.to_nat 10) 0%nat 0);
        try lia; rewrite ?dao_list_of_filter by exact Hn; try exact E0.
    + rewrite (list_no_match_no_items _ _ _ _ _ _ _ _ _ E0 Hzero).
      apply fetch_loop_exhausted. intros q Hq.
      rewrite dao_list_of_filter by exact Hn.
      destruct (list_other_page _ _ (0 + Z.of_nat q) _ _ _ _ _ _ _ E0)
        as (resp' & Hr' & Hc'); [lia|].
      exists resp'. split; [exact Hr' | lia].
Qed.

(** X10. On a [BaseDao] over a table that does not change, and for a
    column name that is not the name of a parameter of [list], the paged
    lookup is the call of [list] for page 0 with that one filter field:
    it raises what that call raises and returns the items that call
    returns; the pages 1 to 9 add nothing. *)
Theorem paged_lookup_is_first_page (dao : BaseDao) (t : Table)
    (column_name : string) (value : Value) (page_offset max_pages : Z)
    (order_by : string) :
  str_in column_name list_parameters = false ->
  fetch_row_based_on_column (dao_list_of dao t) column_name value page_offset
    max_pages order_by
  = match list_ dao 0 100 "CREATED_AT_ASC" [] false [(column_name, value)] t
    with
    | inl e => inl e
    | inr resp => inr (items resp)
    end.
Proof. apply fetch_on_table. Qed.

(** X11. A lookup by a column name that is not the name of a parameter of
    [list] and whose first segment is no attribute of the model class,
    with a value other than None, raises InvalidFilterField; it does not
    come back empty. *)
Theorem paged_lookup_unknown_column (dao : BaseDao) (t : Table)
    (column_name : string) (value : Value) (page_offset max_pages : Z)
    (order_by : string) :
  str_in column_name list_parameters = false ->
  hasattr_model (_model_class dao) (first_segment column_name) = false ->
  value <> VNone ->
  fetch_row_based_on_column (dao_list_of dao t) column_name value page_offset
    max_pages order_by
  = inl (InvalidFilterField (first_segment column_name)).
Proof.
  intros Hn Ha Hv. unfold fetch_row_based_on_column. cbv zeta.
  apply (fetch_loop_raises _ _ _ _ _ _ (Z.to_nat 10) 0%nat 0); try lia.
  rewrite dao_list_of_filter by exact Hn.
  apply (list_filter_error dao (0 + Z.of_nat 0) 100 "CREATED_AT_ASC" [] false
           [] [] column_name value t); try lia; auto.
  now apply filter_criterion_unknown_field.
Qed.

End Pages.

Lemma list_items_satisfy_call_witness :
  In (hd [] acme_table) acme_table /\
  (false = false -> cell (hd [] acme_table) "is_deleted" = VBool false) /\
  ([VStr "o1"] <> [] ->
   In (cell (hd [] acme_table) (id_field_name (_model_class OrganizationsDAO)))
     [VStr "o1"]) /\
  (forall name value,
     In (name, value) [("organization_name__icontains", VStr "acm")] ->
     value <> VNone ->
     filter_expression_holds (engine := reference_engine)
       (_model_class OrganizationsDAO) (hd [] acme_table) name value = true).
Proof.
  apply (list_items_satisfy_call (engine := reference_engine) OrganizationsDAO
           0 100 "CREATED_AT_DESC" [VStr "o1"] false
           [("organization_name__icontains", VStr "acm")] acme_table
           (mkListResponse acme_table 1)).
  - vm_compute. reflexivity.
  - vm_compute. left. reflexivity.
Defined.

Lemma list_pages_cover_witness :
  exists pages : list BaseDaoListResponse,
    length pages = 2%nat /\
    (forall p resp, pages !! p = Some resp ->
       list_ (engine := reference_engine) OrganizationsDAO (Z.of_nat p) 2
         "CREATED_AT_DESC" [] false [] few_orgs = inr resp) /\
    Permutation (concat (map items pages))
      (List.filter
         (record_matches (engine := reference_engine) OrganizationsDAO [] false
            [])
         few_orgs).
Proof.
  apply (list_pages_cover (engine := reference_engine) OrganizationsDAO 2
           "CREATED_AT_DESC" [] false [] few_orgs
           (mkListResponse [nth 2 few_orgs []; nth 1 few_orgs []] 3) 2).
  - vm_compute. reflexivity.
  - simpl. lia.
  - intros o Ho. vm_compute in Ho. injection Ho as <-.
    intros a b Ha Hb. vm_compute in Ha, Hb.
    destruct Ha as [<- | [<- | [<- | []]]];
      destruct Hb as [<- | [<- | [<- | []]]];
      intros H1 H2; try reflexivity;
      vm_compute in H1, H2; discriminate.
Defined.

Lemma list_data_error_names_last_field_witness :
  list_ (engine := datetime_engine) OrganizationsDAO 0 100 "CREATED_AT_DESC"
    [] false [("created_at", VStr "yesterday"); ("organization_name", VNone)]
    acme_table
  = inl (DataError "organization_name").
Proof.
  assert (Hsize : 1 <= 100 <= 100) by lia.
  assert (Hpage : 0 <= 0) by lia.
  apply (proj2 (list_data_error_names_last_field (engine := datetime_engine)
                  OrganizationsDAO 0 100 "CREATED_AT_DESC" [] false
                  [("created_at", VStr "yesterday");
                   ("organization_name", VNone)]
                  acme_table
                  [CEq "is_deleted" (VBool false)]
                  [CEq "created_at" (VStr "yesterday")]
                  Hpage Hsize eq_refl eq_refl eq_refl)
           [("created_at", VStr "yesterday")] "organization_name" VNone).
  reflexivity.
Defined.

Lemma paged_lookup_is_first_page_witness :
  fetch_row_based_on_column
    (dao_list_of (engine := reference_engine) OrganizationsDAO acme_table)
    "organization_name" (VStr "Acme") 0 10 "CREATED_AT_ASC"
  = match list_ (engine := reference_engine) OrganizationsDAO 0 100
            "CREATED_AT_ASC" [] false [("organization_name", VStr "Acme")]
            acme_table
    with
    | inl e => inl e
    | inr resp => inr (items resp)
    end.
Proof.
  apply (paged_lookup_is_first_page (engine := reference_engine)
           OrganizationsDAO acme_table "organization_name" (VStr "Acme") 0 10
           "CREATED_AT_ASC").
  reflexivity.
Defined.

Lemma paged_lookup_unknown_column_witness :
  fetch_row_based_on_column
    (dao_list_of (engine := reference_engine) OrganizationsDAO acme_table)
    "ghost" (VStr "x") 0 10 "CREATED_AT_ASC"
  = inl (InvalidFilterField "ghost").
Proof.
  apply (paged_lookup_unknown_column (engine := reference_engine)
           OrganizationsDAO acme_table "ghost" (VStr "x") 0 10
           "CREATED_AT_ASC").
  - reflexivity.
  - reflexivity.
  - discriminate.
Defined.

(** ** Filter names *)

Lemma str_append_cons (c : ascii) (s t : string) :
  String c s +:+ t = String c (s +:+ t).
Proof. reflexivity. Qed.

Lemma str_append_nil_l (t : string) : "" +:+ t = t.
Proof. reflexivity. Qed.

Lemma str_append_nil_r (s : string) : s +:+ "" = s.
Proof.
  induction s as [| c s IH]; [reflexivity|].
  now rewrite str_append_cons, IH.
Qed.

Lemma str_append_assoc (a b c : string) : (a +:+ b) +:+ c = a +:+ (b +:+ c).
Proof.
  induction a as [| x a IH]; [reflexivity|].
  now rewrite !str_append_cons, IH.
Qed.

Lemma split_dunder_from_cons2 (cur : string) (c c' : ascii) (s : string) :
  split_dunder_from cur (String c (String c' s))
  = if (Ascii.eqb c "_" && Ascii.eqb c' "_")%bool
    then cur :: split_dunder_from EmptyString s
    else split_dunder_from (cur +:+ String c EmptyString) (String c' s).
Proof. reflexivity. Qed.

Lemma has_dunder_cons2 (c c' : ascii) (s : string) :
  has_dunder (String c (String c' s))
  = ((Ascii.eqb c "_" && Ascii.eqb c' "_") || has_dunder (String c' s))%bool.
Proof. reflexivity. Qed.

Lemma split_dunder_from_nonempty (s cur : string) :
  split_dunder_from cur s <> [].
Proof.
  assert (H : forall s,
    (forall cur, split_dunder_from cur s <> []) /\
    (forall c cur, split_dunder_from cur (String c s) <> [])).
  { clear. induction s as [| c' s' [IH1 IH2]].
    - split; intros; discriminate.
    - split; [exact (IH2 c')|]. intros c cur.
      rewrite split_dunder_from_cons2.
      destruct (Ascii.eqb c "_" && Ascii.eqb c' "_")%bool;
        [discriminate | apply (IH2 c')]. }
  apply H.
Qed.

Lemma join_dunder_cons (s : string) (rest : list string) :
  rest <> [] -> join_dunder (s :: rest) = s +:+ "__" +:+ join_dunder rest.
Proof. destruct rest; [contradiction | reflexivity]. Qed.

Lemma join_split_from (s cur : string) :
  join_dunder (split_dunder_from cur s) = cur +:+ s.
Proof.
  assert (H : forall s,
    (forall cur, join_dunder (split_dunder_from cur s) = cur +:+ s) /\
    (forall c cur,
       join_dunder (split_dunder_from cur (String c s)) = cur +:+ String c s)).
  { clear. induction s as [| c' s' [IH1 IH2]].
    - split; intros.
      + cbn [split_dunder_from join_dunder]. now rewrite str_append_nil_r.
      + reflexivity.
    - split; [exact (IH2 c')|]. intros c cur.
      rewrite split_dunder_from_cons2.
      destruct (Ascii.eqb_spec c "_") as [-> | Hc];
        [destruct (Ascii.eqb_spec c' "_") as [-> | Hc']|]; cbn [andb].
      + rewrite join_dunder_cons by apply split_dunder_from_nonempty.
        now rewrite IH1.
      + rewrite IH2. now rewrite str_append_assoc.
      + rewrite IH2. now rewrite str_append_assoc. }
  apply H.
Qed.

(** X13. Splitting a filter name at its double underscores loses
    nothing: joining the segments with a double underscore gives the name
    back. *)
Theorem split_join_round_trip (name : string) :
  join_dunder (split_dunder name) = name.
Proof. unfold split_dunder. now rewrite join_split_from. Qed.

Lemma split_no_dunder_from (s cur : string) :
  has_dunder s = false -> split_dunder_from cur s = [cur +:+ s].
Proof.
  assert (H : forall s,
    (forall cur, has_dunder s = false ->
                 split_dunder_from cur s = [cur +:+ s]) /\
    (forall c cur, has_dunder (String c s) = false ->
                   split_dunder_from cur (String c s) = [cur +:+ String c s])).
  { clear. induction s as [| c' s' [IH1 IH2]].
    - split; intros.
      + cbn [split_dunder_from]. now rewrite str_append_nil_r.
      + reflexivity.
    - split; [exact (IH2 c')|]. intros c cur Hd.
      rewrite has_dunder_cons2 in Hd.
      apply orb_false_iff in Hd as [Hcc Hd].
      rewrite split_dunder_from_cons2, Hcc, (IH2 c' _ Hd).
      now rewrite str_append_assoc. }
  apply H.
Qed.

Lemma split_at_dunder (col rest cur : string) :
  has_dunder col = false -> ends_with_underscore col = false ->
  split_dunder_from cur (col +:+ "__" +:+ rest)
  = (cur +:+ col) :: split_dunder_from EmptyString rest.
Proof.
  revert cur. induction col as [| a col IH]; intros cur Hd He.
  - rewrite str_append_nil_l, str_append_nil_r. reflexivity.
  - assert (Hstep :
      split_dunder_from cur (String a col +:+ "__" +:+ rest)
      = split_dunder_from (cur +:+ String a EmptyString)
          (col +:+ "__" +:+ rest)).
    { destruct col as [| b col'].
      - cbn [ends_with_underscore] in He.
        change (String a "" +:+ "__" +:+ rest)
          with (String a (String "_" (String "_" rest))).
        rewrite split_dunder_from_cons2, He. reflexivity.
      - rewrite has_dunder_cons2 in Hd.
        apply orb_false_iff in Hd as [Hab _].
        rewrite !str_append_cons, split_dunder_from_cons2, Hab.
        reflexivity. }
    rewrite Hstep, IH.
    + now rewrite str_append_assoc.
    + destruct col as [| b col']; [reflexivity|].
      rewrite has_dunder_cons2 in Hd.
      now apply orb_false_iff in Hd as [_ Hd].
    + destruct col as [| b col']; [reflexivity | exact He].
Qed.

Section Parsing.

Context {engine : SqlEngine}.

(** X14. A filter name without double underscore that names a declared
    column adds the equality of that column with the value; no operator
    is read into it. *)
Theorem parse_plain_column (m : ModelClass) (qs : Queryset) (name : string)
    (value : Value) :
  is_column m name = true -> has_dunder name = false ->
  parse_filter m qs name value = inr (qs ++ [CEq name value])%list.
Proof.
  unfold parse_filter, is_column. intros Hc Hd. rewrite query_parser_spec.
  unfold filter_criterion, first_segment, operator_suffix, split_dunder,
    getattr_model.
  rewrite (split_no_dunder_from name EmptyString Hd), str_append_nil_l.
  cbn [nth length Nat.ltb Nat.leb].
  destruct (find_column m name) as [c |] eqn:E; [|discriminate Hc].
  apply find_column_name in E as [Hn _]. cbn [bind expr_eq ret].
  now rewrite Hn.
Qed.

(** X15. For a declared column whose name has no double underscore and
    does not end with an underscore, and an operator without double
    underscore, the name [column__operator] is read as that column and
    that operator: each of the seven operators adds its criterion on the
    column, and any other operator raises InvalidFilterMethod. *)
Theorem parse_column_operator (m : ModelClass) (qs : Queryset)
    (col op : string) (value : Value) :
  is_column m col = true -> has_dunder col = false ->
  ends_with_underscore col = false -> has_dunder op = false ->
  first_segment (col +:+ "__" +:+ op) = col /\
  operator_suffix (col +:+ "__" +:+ op) = Some op /\
  parse_filter m qs (col +:+ "__" +:+ op) value
  = if String.eqb op "in" then
      match value with
      | VList vs => inr (qs ++ [CIn col vs])%list
      | _ => inl SqlArgumentError
      end
    else if String.eqb op "contains"
    then inr (qs ++ [CCompare OpContains col value])%list
    else if String.eqb op "icontains"
    then inr (qs ++ [CCompare OpILike col value])%list
    else if String.eqb op "gt" then inr (qs ++ [CCompare OpGt col value])%list
    else if String.eqb op "gte" then inr (qs ++ [CCompare OpGe col value])%list
    else if String.eqb op "lt" then inr (qs ++ [CCompare OpLt col value])%list
    else if String.eqb op "lte" then inr (qs ++ [CCompare OpLe col value])%list
    else inl (InvalidFilterMethod col op).
Proof.
  intros Hc Hd He Hop.
  assert (Hsplit : split_dunder (col +:+ "__" +:+ op) = [col; op]).
  { unfold split_dunder. rewrite (split_at_dunder col op EmptyString Hd He).
    now rewrite (split_no_dunder_from op EmptyString Hop), !str_append_nil_l. }
  assert (Hfirst : first_segment (col +:+ "__" +:+ op) = col)
    by (unfold first_segment; now rewrite Hsplit).
  assert (Hsuffix : operator_suffix (col +:+ "__" +:+ op) = Some op)
    by (unfold operator_suffix; now rewrite Hsplit).
  split; [exact Hfirst|]. split; [exact Hsuffix|].
  unfold parse_filter. rewrite query_parser_spec.
  unfold filter_criterion, getattr_model. rewrite Hfirst, Hsuffix.
  unfold is_column in Hc.
  destruct (find_column m col) as [c |] eqn:E; [|discriminate Hc].
  apply find_column_name in E as [Hn _].
  repeat (match goal with
          | |- context [String.eqb ?a ?b] => destruct (String.eqb a b)
          end;
          [ cbn [expr_in expr_like expr_order raise ret bind]; rewrite ?Hn;
            try (destruct value); reflexivity |]).
  cbn [attr_name bind raise]. now rewrite Hn.
Qed.

(** X16. Only the first two segments of a filter name count: what
    follows a second double underscore changes nothing in what the parser
    does. *)
Theorem parse_ignores_later_segments (m : ModelClass) (qs : Queryset)
    (col op rest : string) (value : Value) :
  has_dunder col = false -> ends_with_underscore col = false ->
  has_dunder op = false -> ends_with_underscore op = false ->
  parse_filter m qs (col +:+ "__" +:+ op +:+ "__" +:+ rest) value
  = parse_filter m qs (col +:+ "__" +:+ op) value.
Proof.
  intros Hd He Hop Hoe.
  assert (Hshort : split_dunder (col +:+ "__" +:+ op) = [col; op]).
  { unfold split_dunder. rewrite (split_at_dunder col op EmptyString Hd He).
    now rewrite (split_no_dunder_from op EmptyString Hop), !str_append_nil_l. }
  assert (Hlong : split_dunder (col +:+ "__" +:+ op +:+ "__" +:+ rest)
                  = col :: op :: split_dunder rest).
  { unfold split_dunder.
    rewrite (split_at_dunder col _ EmptyString Hd He).
    now rewrite (split_at_dunder op rest EmptyString Hop Hoe),
      !str_append_nil_l. }
  unfold parse_filter. rewrite !query_parser_spec.
  unfold filter_criterion, first_segment, operator_suffix.
  rewrite Hshort, Hlong. reflexivity.
Qed.

End Parsing.

Lemma parse_plain_column_witness :
  parse_filter Organizations [] "organization_name" (VStr "Acme")
  = inr ([] ++ [CEq "organization_name" (VStr "Acme")])%list.
Proof.
  apply (parse_plain_column Organizations [] "organization_name" (VStr "Acme"));
    reflexivity.
Defined.

Lemma parse_column_operator_witness :
  parse_filter Organizations [] ("created_at" +:+ "__" +:+ "gte") (VTime 5)
  = inr ([] ++ [CCompare OpGe "created_at" (VTime 5)])%list.
Proof.
  exact (proj2 (proj2 (parse_column_operator Organizations [] "created_at"
                         "gte" (VTime 5) eq_refl eq_refl eq_refl eq_refl))).
Defined.

Lemma parse_ignores_later_segments_witness :
  parse_filter Organizations []
    ("created_at" +:+ "__" +:+ "gte" +:+ "__" +:+ "year") (VTime 5)
  = parse_filter Organizations [] ("created_at" +:+ "__" +:+ "gte") (VTime 5).
Proof.
  apply (parse_ignores_later_segments Organizations [] "created_at" "gte"
           "year" (VTime 5)); reflexivity.
Defined.

(** ** The service *)

Lemma create_org_row (hashed_password organization_id : string) (now : Z)
    (org_name admin_email : string) (t : Table) :
  create OrganizationsDAO
    [ ("created_at", VTime now);
      ("created_by", VStr admin_email);
      ("created_by_password", VStr hashed_password);
      ("organizations_id", VStr organization_id);
      ("organization_name", VStr org_name) ] t
  = if violates_constraints Organizations t
         (org_row hashed_password organization_id now org_name admin_email)
    then (inl IntegrityError, t)
    else (inr tt,
          (t ++ [org_row hashed_password organization_id now org_name
                   admin_email])%list).
Proof.
  cbv -[violates_constraints].
  destruct (violates_constraints _ _ _); reflexivity.
Qed.

Lemma create_admin_row (hashed_password admin_id : string) (now : Z)
    (admin_email : string) (t : Table) :
  create UsersDAO
    [ ("created_at", VTime now);
      ("created_by", VStr admin_email);
      ("users_id", VStr admin_id);
      ("user_email", VStr admin_email);
      ("user_password", VStr hashed_password);
      ("user_type", VStr "ADMIN") ] t
  = if violates_constraints Users t
         (admin_row hashed_password admin_id now admin_email)
    then (inl IntegrityError, t)
    else (inr tt, (t ++ [admin_row hashed_password admin_id now admin_email])%list).
Proof.
  cbv -[violates_constraints].
  destruct (violates_constraints _ _ _); reflexivity.
Qed.

(** The query [get_organization_by_name] runs. *)
Lemma organizations_by_name `{engine : SqlEngine} (t : Table) (org_name : string) :
  (forall qs, raises_data_error t qs = false) ->
  fetch_row_based_on_column (dao_list_of OrganizationsDAO t)
    "organization_name" (VStr org_name) 0 10 "CREATED_AT_ASC"
  = inr (qs_limit_offset 100 0
           (qs_order_by (mkOrdering "created_at" false)
              (sql_tie_rank t
                 [ CEq "is_deleted" (VBool false);
                   CEq "organization_name" (VStr org_name) ]
                 (mkOrdering "created_at" false) 100 0)
              (List.filter
                 (fun r =>
                    value_eqb (cell r "is_deleted") (VBool false)
                    && value_eqb (cell r "organization_name") (VStr org_name))%bool
                 t))).
Proof.
  intros Heng. rewrite fetch_on_table by reflexivity. rewrite list_unfold.
  change (base_queryset (_model_class OrganizationsDAO) false [])
    with (@inr Exn Queryset [CEq "is_deleted" (VBool false)]).
  change (filter_criteria (_model_class OrganizationsDAO)
            [("organization_name", VStr org_name)])
    with (@inr Exn (list Criterion) [CEq "organization_name" (VStr org_name)]).
  cbn [bind Z.ltb Z.compare orb Z.mul]. rewrite Heng.
  change (getattr_ordering (_model_ordering_class OrganizationsDAO)
            "CREATED_AT_ASC")
    with (Some (mkOrdering "created_at" false)).
  unfold ret. f_equal. cbv [items]. change (0 * 100) with 0.
  unfold qs_rows. f_equal. f_equal. apply filter_ext. intros r. cbn. now rewrite andb_true_r.
Qed.

(** The query [authenticate_admin] runs. *)
Lemma users_by_email `{engine : SqlEngine} (t : Table) (email : string) :
  (forall qs, raises_data_error t qs = false) ->
  fetch_row_based_on_column (dao_list_of UsersDAO t)
    "user_email" (VStr email) 0 10 "CREATED_AT_ASC"
  = inr (qs_limit_offset 100 0
           (qs_order_by (mkOrdering "created_at" false)
              (sql_tie_rank t
                 [ CEq "is_deleted" (VBool false);
                   CEq "user_email" (VStr email) ]
                 (mkOrdering "created_at" false) 100 0)
              (List.filter
                 (fun r =>
                    value_eqb (cell r "is_deleted") (VBool false)
                    && value_eqb (cell r "user_email") (VStr email))%bool
                 t))).
Proof.
  intros Heng. rewrite fetch_on_table by reflexivity. rewrite list_unfold.
  change (base_queryset (_model_class UsersDAO) false [])
    with (@inr Exn Queryset [CEq "is_deleted" (VBool false)]).
  change (filter_criteria (_model_class UsersDAO) [("user_email", VStr email)])
    with (@inr Exn (list Criterion) [CEq "user_email" (VStr email)]).
  cbn [bind Z.ltb Z.compare orb Z.mul]. rewrite Heng.
  change (getattr_ordering (_model_ordering_class UsersDAO) "CREATED_AT_ASC")
    with (Some (mkOrdering "created_at" false)).
  unfold ret. f_equal. cbv [items]. change (0 * 100) with 0.
  unfold qs_rows. f_equal. f_equal. apply filter_ext. intros r. cbn. now rewrite andb_true_r.
Qed.

(** A page of an ordered selection is empty exactly when nothing is
    selected. *)
Lemma first_page_empty (o : Ordering) (rank : Row -> Z) (rows : Table) :
  qs_limit_offset 100 0 (qs_order_by o rank rows) = [] <-> rows = [].
Proof.
  split.
  - intros H. pose proof (qs_order_by_length o rank rows) as Hlen.
    destruct (qs_order_by o rank rows) as [| x l]; [|discriminate H].
    destruct rows; [reflexivity | discriminate Hlen].
  - intros ->. reflexivity.
Qed.

Lemma first_page_singleton (o : Ordering) (rank : Row -> Z) (x : Row) :
  qs_limit_offset 100 0 (qs_order_by o rank [x]) = [x].
Proof. reflexivity. Qed.

(** The constraints of the two tables, for the rows the service stores. *)
Lemma org_row_violates (hashed_password organization_id : string) (now : Z)
    (org_name admin_email : string) (t : Table) :
  violates_constraints Organizations t
    (org_row hashed_password organization_id now org_name admin_email) = true
  <-> exists r, In r t /\
        (cell r "organizations_id" = VStr organization_id \/
         cell r "organization_name" = VStr org_name \/
         cell r "created_by_password" = VStr hashed_password).
Proof.
  unfold violates_constraints. rewrite existsb_exists. split.
  - intros (c & Hc & H). cbn in Hc.
    repeat (destruct Hc as [<- | Hc]; [cbn in H; try discriminate H|]);
      try contradiction;
      apply existsb_exists in H as (r & Hr & Heq);
      apply value_eqb_eq in Heq; exists r; auto.
  - intros (r & Hr & [H | [H | H]]).
    + exists (mkColumn "organizations_id" TString false None true false).
      split; [cbn; tauto|]. cbn. apply existsb_exists. exists r.
      split; [exact Hr|]. rewrite H. apply value_eqb_refl.
    + exists (mkColumn "organization_name" TString false None false true).
      split; [cbn; tauto|]. cbn. apply existsb_exists. exists r.
      split; [exact Hr|]. rewrite H. apply value_eqb_refl.
    + exists (mkColumn "created_by_password" TString false None false true).
      split; [cbn; tauto|]. cbn. apply existsb_exists. exists r.
      split; [exact Hr|]. rewrite H. apply value_eqb_refl.
Qed.

Lemma admin_row_violates (hashed_password admin_id : string) (now : Z)
    (admin_email : string) (t : Table) :
  violates_constraints Users t
    (admin_row hashed_password admin_id now admin_email) = true
  <-> exists r, In r t /\
        (cell r "users_id" = VStr admin_id \/
         cell r "user_email" = VStr admin_email).
Proof.
  unfold violates_constraints. rewrite existsb_exists. split.
  - intros (c & Hc & H). cbn in Hc.
    repeat (destruct Hc as [<- | Hc]; [cbn in H; try discriminate H|]);
      try contradiction;
      apply existsb_exists in H as (r & Hr & Heq);
      apply value_eqb_eq in Heq; exists r; auto.
  - intros (r & Hr & [H | H]).
    + exists (mkColumn "users_id" TString false None true false).
      split; [cbn; tauto|]. cbn. apply existsb_exists. exists r.
      split; [exact Hr|]. rewrite H. apply value_eqb_refl.
    + exists (mkColumn "user_email" TString false None false true).
      split; [cbn; tauto|]. cbn. apply existsb_exists. exists r.
      split; [exact Hr|]. rewrite H. apply value_eqb_refl.
Qed.

Lemma filter_fresh_app {A : Type} (p : A -> bool) (l : list A) (x : A) :
  (forall y, In y l -> p y = false) -> p x = true ->
  List.filter p (l ++ [x])%list = [x].
Proof.
  intros Hl Hx. rewrite List.filter_app, (filter_none p l Hl). cbn.
  now rewrite Hx.
Qed.

(** The three outcomes of [create_organization]. *)
Lemma create_organization_eval (hashed_password organization_id admin_id : string)
    (now_org now_user : Z) (org_name admin_email : string) (s : ServiceStore) :
  create_organization hashed_password organization_id admin_id now_org now_user
    org_name admin_email s
  = if violates_constraints Organizations (organizations s)
         (org_row hashed_password organization_id now_org org_name admin_email)
    then (inl (ServiceException
                 "Organization or Admin with this email already exists"), s)
    else
      let organizations' :=
        (organizations s
         ++ [org_row hashed_password organization_id now_org org_name
               admin_email])%list in
      if violates_constraints Users (users s)
           (admin_row hashed_password admin_id now_user admin_email)
      then (inl (ServiceException
                   "Organization or Admin with this email already exists"),
            mkStore organizations' (users s))
      else (inr [ ("message", VStr "Organization created successfully");
                  ("organization_id", VStr organization_id) ],
            mkStore organizations'
              (users s
               ++ [admin_row hashed_password admin_id now_user admin_email])%list).
Proof.
  unfold create_organization. cbv zeta. rewrite create_org_row.
  destruct (violates_constraints Organizations _ _); [reflexivity|].
  cbn [users organizations]. rewrite create_admin_row.
  destruct (violates_constraints Users _ _); reflexivity.
Qed.

Lemma create_organization_success_inv
    (hashed_password organization_id admin_id : string)
    (now_org now_user : Z) (org_name admin_email : string)
    (s s' : ServiceStore) (d : Kwargs) :
  create_organization hashed_password organization_id admin_id now_org now_user
    org_name admin_email s = (inr d, s') ->
  violates_constraints Organizations (organizations s)
    (org_row hashed_password organization_id now_org org_name admin_email)
  = false /\
  violates_constraints Users (users s)
    (admin_row hashed_password admin_id now_user admin_email) = false /\
  s' = mkStore
         (organizations s
          ++ [org_row hashed_password organization_id now_org org_name
                admin_email])%list
         (users s
          ++ [admin_row hashed_password admin_id now_user admin_email])%list.
Proof.
  rewrite create_organization_eval. cbv zeta.
  destruct (violates_constraints Organizations _ _); [intros H; discriminate H|].
  destruct (violates_constraints Users _ _); [intros H; discriminate H|].
  intros H. injection H as _ <-. auto.
Qed.

Lemma not_violates_iff (b : bool) (P : Prop) :
  (b = true <-> P) -> (b = false <-> ~ P).
Proof. intros H. destruct b; intuition congruence. Qed.

(** X17. [create_organization] succeeds exactly when no stored
    organization, soft-deleted ones included, has the new identifier, the
    new name or the same password hash, and no stored user, soft-deleted
    ones included, has the new identifier or the admin's email. *)
Theorem create_organization_succeeds_iff
    (hashed_password organization_id admin_id : string)
    (now_org now_user : Z) (org_name admin_email : string)
    (s : ServiceStore) :
  (exists d s',
     create_organization hashed_password organization_id admin_id now_org
       now_user org_name admin_email s = (inr d, s'))
  <->
  (forall r, In r (organizations s) ->
     cell r "organizations_id" <> VStr organization_id /\
     cell r "organization_name" <> VStr org_name /\
     cell r "created_by_password" <> VStr hashed_password) /\
  (forall r, In r (users s) ->
     cell r "users_id" <> VStr admin_id /\
     cell r "user_email" <> VStr admin_email).
Proof.
  pose proof (not_violates_iff _ _
    (org_row_violates hashed_password organization_id now_org org_name
       admin_email (organizations s))) as Horg.
  pose proof (not_violates_iff _ _
    (admin_row_violates hashed_password admin_id now_user admin_email
       (users s))) as Husr.
  split.
  - intros (d & s' & H).
    apply create_organization_success_inv in H as (Ho & Hu & _).
    apply Horg in Ho. apply Husr in Hu. split.
    + intros r Hr. repeat split; intros Heq; apply Ho; exists r; tauto.
    + intros r Hr. repeat split; intros Heq; apply Hu; exists r; tauto.
  - intros [Ho Hu]. rewrite create_organization_eval. cbv zeta.
    replace (violates_constraints Organizations _ _) with false.
    2:{ symmetry. apply Horg. intros (r & Hr & Hcase).
        destruct (Ho r Hr) as (H1 & H2 & H3). tauto. }
    replace (violates_constraints Users _ _) with false.
    2:{ symmetry. apply Husr. intros (r & Hr & Hcase).
        destruct (Hu r Hr) as (H1 & H2). tauto. }
    eauto.
Qed.

(** X18. After [create_organization] succeeded, the lookup by the new name
    finds the organization just stored: its identifier, its name and the
    admin's email as creator. *)
Theorem create_organization_then_lookup `{engine : SqlEngine}
    (hashed_password organization_id admin_id : string)
    (now_org now_user : Z) (org_name admin_email : string)
    (s s' : ServiceStore) (d : Kwargs) :
  (forall t qs, raises_data_error t qs = false) ->
  create_organization hashed_password organization_id admin_id now_org now_user
    org_name admin_email s = (inr d, s') ->
  get_organization_by_name org_name s'
  = inr (Some [ ("org_id", VStr organization_id);
                ("org_name", VStr org_name);
                ("created_by", VStr admin_email) ]).
Proof.
  intros Heng H.
  apply create_organization_success_inv in H as (Ho & _ & ->).
  apply (not_violates_iff _ _ (org_row_violates _ _ _ _ _ _)) in Ho.
  unfold get_organization_by_name. cbn [organizations].
  rewrite (organizations_by_name _ _ (Heng _)).
  rewrite filter_fresh_app.
  - reflexivity.
  - intros y Hy. apply andb_false_intro2. apply value_eqb_neq.
    intros Heq. apply Ho. exists y. tauto.
  - cbn. now rewrite String.eqb_refl.
Qed.

Lemma create_organization_then_lookup_witness :
  get_organization_by_name (engine := reference_engine) "Acme" acme_store
  = inr (Some [ ("org_id", VStr "o1");
                ("org_name", VStr "Acme");
                ("created_by", VStr "a@x.com") ]).
Proof.
  apply (create_organization_then_lookup (engine := reference_engine)
           "hash:secret" "o1" "u1" 1732838400 1732838401 "Acme" "a@x.com"
           (mkStore [] []) acme_store
           [ ("message", VStr "Organization created successfully");
             ("organization_id", VStr "o1") ]).
  - intros t qs. reflexivity.
  - vm_compute. reflexivity.
Defined.

(** X19. After [create_organization] succeeded, the admin is authenticated
    exactly by the passwords that verify against the stored hash: such a
    password yields the token for the admin's email, any other yields
    None. *)
Theorem create_organization_then_authenticate `{engine : SqlEngine}
    (_verify_password : string -> string -> bool)
    (_generate_jwt_token : string -> string)
    (hashed_password organization_id admin_id : string)
    (now_org now_user : Z) (org_name admin_email password : string)
    (s s' : ServiceStore) (d : Kwargs) :
  (forall t qs, raises_data_error t qs = false) ->
  create_organization hashed_password organization_id admin_id now_org now_user
    org_name admin_email s = (inr d, s') ->
  authenticate_admin _verify_password _generate_jwt_token admin_email password s'
  = inr (if _verify_password password hashed_password
         then Some (_generate_jwt_token admin_email)
         else None).
Proof.
  intros Heng H.
  apply create_organization_success_inv in H as (_ & Hu & ->).
  apply (not_violates_iff _ _ (admin_row_violates _ _ _ _ _)) in Hu.
  unfold authenticate_admin. cbn [users].
  rewrite (users_by_email _ _ (Heng _)).
  rewrite filter_fresh_app.
  - rewrite first_page_singleton. cbn.
    destruct (_verify_password password hashed_password); reflexivity.
  - intros y Hy. apply andb_false_intro2. apply value_eqb_neq.
    intros Heq. apply Hu. exists y. tauto.
  - cbn. now rewrite String.eqb_refl.
Qed.

Lemma create_organization_then_authenticate_witness :
  authenticate_admin (engine := reference_engine) plain_verify plain_token
    "a@x.com" "secret" acme_store
  = inr (Some "token:a@x.com").
Proof.
  apply (create_organization_then_authenticate (engine := reference_engine)
           plain_verify plain_token
           "hash:secret" "o1" "u1" 1732838400 1732838401 "Acme" "a@x.com"
           "secret" (mkStore [] []) acme_store
           [ ("message", VStr "Organization created successfully");
             ("organization_id", VStr "o1") ]).
  - intros t qs. reflexivity.
  - vm_compute. reflexivity.
Defined.

(** X20. [create_organization] is not atomic. When the organization is
    new but a stored user already has the admin's email, the call fails
    with the message for an existing organization or admin, the users are
    left as they were, and yet the organization stays stored: the lookup
    by its name finds it. *)
Theorem create_organization_keeps_organization `{engine : SqlEngine}
    (hashed_password organization_id admin_id : string)
    (now_org now_user : Z) (org_name admin_email : string)
    (s : ServiceStore) :
  (forall t qs, raises_data_error t qs = false) ->
  (forall r, In r (organizations s) ->
     cell r "organizations_id" <> VStr organization_id /\
     cell r "organization_name" <> VStr org_name /\
     cell r "created_by_password" <> VStr hashed_password) ->
  (exists u, In u (users s) /\ cell u "user_email" = VStr admin_email) ->
  exists s',
    create_organization hashed_password organization_id admin_id now_org
      now_user org_name admin_email s
    = (inl (ServiceException
              "Organization or Admin with this email already exists"), s') /\
    users s' = users s /\
    get_organization_by_name org_name s'
    = inr (Some [ ("org_id", VStr organization_id);
                  ("org_name", VStr org_name);
                  ("created_by", VStr admin_email) ]).
Proof.
  intros Heng Ho (u & Hu & Hemail).
  rewrite create_organization_eval. cbv zeta.
  replace (violates_constraints Organizations _ _) with false.
  2:{ symmetry.
      apply (not_violates_iff _ _ (org_row_violates _ _ _ _ _ _)).
      intros (r & Hr & Hcase). destruct (Ho r Hr) as (H1 & H2 & H3). tauto. }
  replace (violates_constraints Users _ _) with true.
  2:{ symmetry. apply admin_row_violates. exists u. tauto. }
  eexists. split; [reflexivity|]. split; [reflexivity|].
  unfold get_organization_by_name. cbn [organizations].
  rewrite (organizations_by_name _ _ (Heng _)).
  rewrite filter_fresh_app.
  - reflexivity.
  - intros y Hy. apply andb_false_intro2. apply value_eqb_neq.
    intros Heq. destruct (Ho y Hy) as (H1 & H2 & H3). tauto.
  - cbn. now rewrite String.eqb_refl.
Qed.

Lemma create_organization_keeps_organization_witness :
  exists s',
    create_organization "hash:other" "o2" "u2" 1732838500 1732838501
      "Globex" "a@x.com" acme_store
    = (inl (ServiceException
              "Organization or Admin with this email already exists"), s') /\
    users s' = users acme_store /\
    get_organization_by_name (engine := reference_engine) "Globex" s'
    = inr (Some [ ("org_id", VStr "o2");
                  ("org_name", VStr "Globex");
                  ("created_by", VStr "a@x.com") ]).
Proof.
  apply (create_organization_keeps_organization (engine := reference_engine)
           "hash:other" "o2" "u2" 1732838500 1732838501 "Globex" "a@x.com"
           acme_store).
  - intros t qs. reflexivity.
  - intros r Hr. vm_compute in Hr. destruct Hr as [<- | []].
    repeat split; intros H; vm_compute in H; discriminate H.
  - exists (admin_row "hash:secret" "u1" 1732838401 "a@x.com").
    split; [vm_compute; left; reflexivity | reflexivity].
Defined.

Lemma organization_lookup_cases `{engine : SqlEngine}
    (org_name : string) (s : ServiceStore) :
  (forall t qs, raises_data_error t qs = false) ->
  (get_organization_by_name org_name s = inr None /\
   forall r, In r (organizations s) ->
     cell r "is_deleted" = VBool false ->
     cell r "organization_name" <> VStr org_name)
  \/
  (exists r, In r (organizations s) /\
     cell r "is_deleted" = VBool false /\
     cell r "organization_name" = VStr org_name /\
     get_organization_by_name org_name s
     = inr (Some [ ("org_id", cell r "organizations_id");
                   ("org_name", VStr org_name);
                   ("created_by", cell r "created_by") ])).
Proof.
  intros Heng. unfold get_organization_by_name.
  rewrite (organizations_by_name _ _ (Heng _)).
  set (p := fun r : Row =>
              (value_eqb (cell r "is_deleted") (VBool false)
               && value_eqb (cell r "organization_name") (VStr org_name))%bool).
  set (o := mkOrdering "created_at" false).
  set (rank := sql_tie_rank _ _ _ _ _).
  destruct (qs_limit_offset 100 0
              (qs_order_by o rank (List.filter p (organizations s))))
    as [| record rest] eqn:E.
  - left. split; [reflexivity|]. apply first_page_empty in E.
    intros r Hr Hdel Hname.
    assert (Hin : In r (List.filter p (organizations s))).
    { apply filter_In. split; [exact Hr|]. unfold p.
      rewrite Hdel, Hname. cbn. now rewrite String.eqb_refl. }
    rewrite E in Hin. destruct Hin.
  - right. exists record.
    assert (Hin : In record (List.filter p (organizations s))).
    { apply (qs_order_by_in o rank). apply (in_skipn (Z.to_nat 0)).
      apply (in_firstn (Z.to_nat 100)). unfold qs_limit_offset in E.
      rewrite E. now left. }
    apply filter_In in Hin as [Hr Hp]. unfold p in Hp.
    apply andb_prop in Hp as [Hdel Hname].
    apply value_eqb_eq in Hdel. apply value_eqb_eq in Hname.
    repeat split; try assumption. cbn. now rewrite Hname.
Qed.


(** X21. Without a data error, [get_organization_by_name] either returns
    None, and then no stored organization that is not soft-deleted has
    the name, or returns the identifier, the name and the creator of a
    stored organization that is not soft-deleted and has the name. *)
Theorem get_organization_by_name_spec `{engine : SqlEngine}
    (org_name : string) (s : ServiceStore) :
  (forall t qs, raises_data_error t qs = false) ->
  (get_organization_by_name org_name s = inr None /\
   forall r, In r (organizations s) ->
     cell r "is_deleted" = VBool false ->
     cell r "organization_name" <> VStr org_name)
  \/
  (exists r, In r (organizations s) /\
     cell r "is_deleted" = VBool false /\
     cell r "organization_name" = VStr org_name /\
     get_organization_by_name org_name s
     = inr (Some [ ("org_id", cell r "organizations_id");
                   ("org_name", VStr org_name);
                   ("created_by", cell r "created_by") ])).
Proof. apply organization_lookup_cases. Qed.

Lemma get_organization_by_name_spec_witness :
  (get_organization_by_name (engine := reference_engine) "Initech" acme_store
   = inr None /\
   forall r, In r (organizations acme_store) ->
     cell r "is_deleted" = VBool false ->
     cell r "organization_name" <> VStr "Initech")
  \/
  (exists r, In r (organizations acme_store) /\
     cell r "is_deleted" = VBool false /\
     cell r "organization_name" = VStr "Initech" /\
     get_organization_by_name (engine := reference_engine) "Initech" acme_store
     = inr (Some [ ("org_id", cell r "organizations_id");
                   ("org_name", VStr "Initech");
                   ("created_by", cell r "created_by") ])).
Proof.
  apply (get_organization_by_name_spec (engine := reference_engine)
           "Initech" acme_store).
  intros t qs. reflexivity.
Defined.

Lemma authenticate_admin_token_inv `{engine : SqlEngine}
    (_verify_password : string -> string -> bool)
    (_generate_jwt_token : string -> string)
    (email password token : string) (s : ServiceStore) :
  authenticate_admin _verify_password _generate_jwt_token email password s
  = inr (Some token) ->
  token = _generate_jwt_token email /\
  exists r hashed_password,
    In r (users s) /\
    cell r "is_deleted" = VBool false /\
    cell r "user_email" = VStr email /\
    cell r "user_password" = VStr hashed_password /\
    _verify_password password hashed_password = true.
Proof.
  unfold authenticate_admin. rewrite fetch_on_table by reflexivity.
  destruct (list_ UsersDAO 0 100 "CREATED_AT_ASC" [] false
              [("user_email", VStr email)] (users s)) as [e | resp] eqn:E;
    [intros H; discriminate H|].
  cbn [bind]. destruct (items resp) as [| record rest] eqn:Ei;
    [intros H; discriminate H|].
  destruct (list_items_match _ _ _ _ _ _ _ _ _ record E) as [Hin Hm];
    [rewrite Ei; now left|].
  destruct (cell record "user_password") as [| | | hashed | |] eqn:Ep;
    try (intros H; discriminate H).
  destruct (_verify_password password hashed) eqn:Ev;
    [|intros H; discriminate H].
  cbn. intros H. injection H as <-. split; [reflexivity|].
  exists record, hashed.
  unfold record_matches in Hm. cbn in Hm.
  apply andb_prop in Hm as [Hm Hname]. rewrite andb_true_r in Hm, Hname.
  apply value_eqb_eq in Hm. apply value_eqb_eq in Hname. auto.
Qed.


(** X22. A token comes only from a stored user: when [authenticate_admin]
    returns a token, it is the token for the given email, and some stored
    user that is not soft-deleted has this email and a password hash
    against which the given password verifies. *)
Theorem authenticate_admin_sound `{engine : SqlEngine}
    (_verify_password : string -> string -> bool)
    (_generate_jwt_token : string -> string)
    (email password token : string) (s : ServiceStore) :
  authenticate_admin _verify_password _generate_jwt_token email password s
  = inr (Some token) ->
  token = _generate_jwt_token email /\
  exists r hashed_password,
    In r (users s) /\
    cell r "is_deleted" = VBool false /\
    cell r "user_email" = VStr email /\
    cell r "user_password" = VStr hashed_password /\
    _verify_password password hashed_password = true.
Proof. apply authenticate_admin_token_inv. Qed.

Lemma authenticate_admin_sound_witness :
  "token:a@x.com" = plain_token "a@x.com" /\
  exists r hashed_password,
    In r (users acme_store) /\
    cell r "is_deleted" = VBool false /\
    cell r "user_email" = VStr "a@x.com" /\
    cell r "user_password" = VStr hashed_password /\
    plain_verify "secret" hashed_password = true.
Proof.
  apply (authenticate_admin_sound (engine := reference_engine)
           plain_verify plain_token "a@x.com" "secret" "token:a@x.com"
           acme_store).
  vm_compute. reflexivity.
Defined.

(** X23. Without a data error, an email that no stored user that is not
    soft-deleted has is refused whatever the password: [authenticate_admin]
    returns None. *)
Theorem authenticate_admin_unknown_email `{engine : SqlEngine}
    (_verify_password : string -> string -> bool)
    (_generate_jwt_token : string -> string)
    (email password : string) (s : ServiceStore) :
  (forall t qs, raises_data_error t qs = false) ->
  (forall r, In r (users s) ->
     cell r "is_deleted" = VBool false ->
     cell r "user_email" <> VStr email) ->
  authenticate_admin _verify_password _generate_jwt_token email password s
  = inr None.
Proof.
  intros Heng Hnone. unfold authenticate_admin.
  rewrite (users_by_email _ _ (Heng _)).
  rewrite filter_none; [reflexivity|].
  intros y Hy.
  destruct (value_eqb (cell y "is_deleted") (VBool false)) eqn:Hd;
    [|reflexivity].
  apply value_eqb_eq in Hd. cbn. apply value_eqb_neq. now apply Hnone.
Qed.

Lemma authenticate_admin_unknown_email_witness :
  authenticate_admin (engine := reference_engine) plain_verify plain_token
    "b@x.com" "secret" acme_store
  = inr None.
Proof.
  apply (authenticate_admin_unknown_email (engine := reference_engine)
           plain_verify plain_token "b@x.com" "secret" acme_store).
  - intros t qs. reflexivity.
  - intros r Hr. vm_compute in Hr. destruct Hr as [<- | []].
    intros _ H. vm_compute in H. discriminate H.
Defined.

(** ** The endpoints *)

(** X24. The endpoint [create_org] answers 200 with the success message
    and the new identifier when the organization and its admin clash with
    no stored row, and otherwise 404 with the failure code of a failed
    creation and the message for an existing organization or admin. *)
Theorem create_org_answer
    (hashed_password organization_id admin_id : string)
    (now_org now_user : Z) (org_name admin_email : string)
    (s : ServiceStore) :
  let fresh :=
    (forall r, In r (organizations s) ->
       cell r "organizations_id" <> VStr organization_id /\
       cell r "organization_name" <> VStr org_name /\
       cell r "created_by_password" <> VStr hashed_password) /\
    (forall r, In r (users s) ->
       cell r "users_id" <> VStr admin_id /\
       cell r "user_email" <> VStr admin_email) in
  let answer :=
    fst (create_org hashed_password organization_id admin_id now_org now_user
           org_name admin_email s) in
  (fresh /\
   answer = mkResponse 200
              (JsonObject
                 [ ("message", VStr "Organization created successfully");
                   ("organization_id", VStr organization_id) ]))
  \/
  (~ fresh /\
   answer = mkResponse 404
              (ErrorResponse 404 "Failed to create Organization"
                 "Organization or Admin with this email already exists")).
Proof.
  cbv zeta.
  pose proof (org_row_violates hashed_password organization_id now_org org_name
                admin_email (organizations s)) as Horg.
  pose proof (admin_row_violates hashed_password admin_id now_user admin_email
                (users s)) as Husr.
  unfold create_org. rewrite create_organization_eval. cbv zeta.
  destruct (violates_constraints Organizations _ _) eqn:Eo.
  - right. split; [|reflexivity]. intros [Ho _].
    destruct Horg as [Horg _]. destruct (Horg eq_refl) as (r & Hr & Hcase).
    destruct (Ho r Hr) as (H1 & H2 & H3). tauto.
  - destruct (violates_constraints Users _ _) eqn:Eu.
    + right. split; [|reflexivity]. intros [_ Hu].
      destruct Husr as [Husr _]. destruct (Husr eq_refl) as (r & Hr & Hcase).
      destruct (Hu r Hr) as (H1 & H2). tauto.
    + left. split; [|reflexivity]. split.
      * intros r Hr. repeat split; intros Heq;
          (assert (Hex : false = true);
           [apply Horg; exists r; tauto | discriminate Hex]).
      * intros r Hr. repeat split; intros Heq;
          (assert (Hex : false = true);
           [apply Husr; exists r; tauto | discriminate Hex]).
Qed.

(** X25. The endpoint [admin_login] has two answers. One is 401 with
    the code and message of invalid credentials. The other is 200 with an
    access token, and then the token is not empty, is the token for the
    given email, and some stored user that is not soft-deleted has this
    email and a password hash against which the given password verifies. *)
Theorem admin_login_answer `{engine : SqlEngine}
    (_verify_password : string -> string -> bool)
    (_generate_jwt_token : string -> string)
    (user_email user_password : string) (s : ServiceStore)
    (answer : HttpResponse) :
  admin_login _verify_password _generate_jwt_token user_email user_password s
  = inr answer ->
  answer = mkResponse 401
             (ErrorResponse 401 "Invalid credentials" "Invalid credentials")
  \/
  (exists token r hashed_password,
     answer = mkResponse 200 (JsonObject [("access_token", VStr token)]) /\
     token <> EmptyString /\
     token = _generate_jwt_token user_email /\
     In r (users s) /\
     cell r "is_deleted" = VBool false /\
     cell r "user_email" = VStr user_email /\
     cell r "user_password" = VStr hashed_password /\
     _verify_password user_password hashed_password = true).
Proof.
  unfold admin_login.
  destruct (authenticate_admin _verify_password _generate_jwt_token user_email
              user_password s) as [e | [token |]] eqn:E; cbn [bind].
  - intros H. discriminate H.
  - destruct (authenticate_admin_token_inv _ _ _ _ _ _ E)
      as (Htok & r & hashed & Hr & Hdel & Hmail & Hpw & Hv).
    destruct token as [| c token'].
    + intros H. injection H as <-. now left.
    + intros H. injection H as <-. right.
      exists (String c token'), r, hashed.
      repeat split; try assumption. discriminate.
  - intros H. injection H as <-. now left.
Qed.

Lemma admin_login_answer_witness :
  mkResponse 200 (JsonObject [("access_token", VStr "token:a@x.com")])
  = mkResponse 401
      (ErrorResponse 401 "Invalid credentials" "Invalid credentials")
  \/
  (exists token r hashed_password,
     mkResponse 200 (JsonObject [("access_token", VStr "token:a@x.com")])
     = mkResponse 200 (JsonObject [("access_token", VStr token)]) /\
     token <> EmptyString /\
     token = plain_token "a@x.com" /\
     In r (users acme_store) /\
     cell r "is_deleted" = VBool false /\
     cell r "user_email" = VStr "a@x.com" /\
     cell r "user_password" = VStr hashed_password /\
     plain_verify "secret" hashed_password = true).
Proof.
  apply (admin_login_answer (engine := reference_engine)
           plain_verify plain_token "a@x.com" "secret" acme_store).
  vm_compute. reflexivity.
Defined.

(** X26. Without a data error, the endpoint [get_org] answers 404 with
    the code and message of an organization not found when no stored
    organization that is not soft-deleted has the name, and otherwise 200
    with the identifier, the name and the creator of such an
    organization. *)
Theorem get_org_answer `{engine : SqlEngine}
    (org_name : string) (s : ServiceStore) :
  (forall t qs, raises_data_error t qs = false) ->
  (get_org org_name s
   = inr (mkResponse 404
            (ErrorResponse 404 "Organization not found"
               "Organization not found")) /\
   forall r, In r (organizations s) ->
     cell r "is_deleted" = VBool false ->
     cell r "organization_name" <> VStr org_name)
  \/
  (exists r, In r (organizations s) /\
     cell r "is_deleted" = VBool false /\
     cell r "organization_name" = VStr org_name /\
     get_org org_name s
     = inr (mkResponse 200
              (JsonObject [ ("org_id", cell r "organizations_id");
                            ("org_name", VStr org_name);
                            ("created_by", cell r "created_by") ]))).
Proof.
  intros Heng. unfold get_org.
  destruct (organization_lookup_cases org_name s Heng)
    as [[-> Hnone] | (r & Hr & Hdel & Hname & ->)].
  - left. split; [reflexivity | exact Hnone].
  - right. exists r. repeat split; assumption || reflexivity.
Qed.

Lemma get_org_answer_witness :
  (get_org (engine := reference_engine) "Acme" acme_store
   = inr (mkResponse 404
            (ErrorResponse 404 "Organization not found"
               "Organization not found")) /\
   forall r, In r (organizations acme_store) ->
     cell r "is_deleted" = VBool false ->
     cell r "organization_name" <> VStr "Acme")
  \/
  (exists r, In r (organizations acme_store) /\
     cell r "is_deleted" = VBool false /\
     cell r "organization_name" = VStr "Acme" /\
     get_org (engine := reference_engine) "Acme" acme_store
     = inr (mkResponse 200
              (JsonObject [ ("org_id", cell r "organizations_id");
                            ("org_name", VStr "Acme");
                            ("created_by", cell r "created_by") ]))).
Proof.
  apply (get_org_answer (engine := reference_engine) "Acme" acme_store).
  intros t qs. reflexivity.
Defined.

(** ** Serialization *)

Lemma comprehension_values_inv {K A B : Type} (f : A -> Res B)
    (items : list (K * A)) (items' : list (K * B)) :
  comprehension_values f items = inr items' ->
  Forall2 (fun kv kv' => fst kv = fst kv' /\ f (snd kv) = inr (snd kv'))
    items items'.
Proof.
  revert items'. induction items as [| [k v] rest IH]; intros items' H.
  - cbn in H. injection H as <-. constructor.
  - cbn in H. destruct (f v) as [e | v'] eqn:Ev; [discriminate H|].
    cbn in H. destruct (comprehension_values f rest) as [e | rest'] eqn:Er;
      [discriminate H|].
    cbn in H. injection H as <-. constructor; [split; [reflexivity | exact Ev]|].
    now apply IH.
Qed.

Lemma comprehension_inv {A B : Type} (f : A -> Res B) (l : list A)
    (l' : list B) :
  comprehension f l = inr l' -> Forall2 (fun v v' => f v = inr v') l l'.
Proof.
  revert l'. induction l as [| v rest IH]; intros l' H.
  - cbn in H. injection H as <-. constructor.
  - cbn in H. destruct (f v) as [e | v'] eqn:Ev; [discriminate H|].
    cbn in H. destruct (comprehension f rest) as [e | rest'] eqn:Er;
      [discriminate H|].
    cbn in H. injection H as <-. constructor; [exact Ev|]. now apply IH.
Qed.

Lemma comprehension_values_fixed {K A : Type} (f : A -> Res A)
    (items : list (K * A)) :
  Forall (fun kv => f (snd kv) = inr (snd kv)) items ->
  comprehension_values f items = inr items.
Proof.
  induction 1 as [| [k v] rest Hv _ IH]; [reflexivity|].
  cbn in *. rewrite Hv. cbn. rewrite IH. reflexivity.
Qed.

Lemma comprehension_fixed {A : Type} (f : A -> Res A) (l : list A) :
  Forall (fun v => f v = inr v) l -> comprehension f l = inr l.
Proof.
  induction 1 as [| v rest Hv _ IH]; [reflexivity|].
  cbn in *. rewrite Hv. cbn. rewrite IH. reflexivity.
Qed.

Lemma serialize_values_plain (decode : list Byte.byte -> string -> Res string)
    (items items' : list (PyObject * PyObject)) :
  Forall (fun kv => forall decoder r,
            enums_plain (snd kv) = true ->
            serialize decode (snd kv) decoder = inr r -> plain r = true)
    items ->
  forallb (fun kv => enums_plain (snd kv)) items = true ->
  comprehension_values (fun v => serialize decode v "utf8") items = inr items' ->
  forallb (fun kv => plain (snd kv)) items' = true.
Proof.
  intros IH Hen H. apply comprehension_values_inv in H.
  induction H as [| kv kv' rest rest' [_ Hkv] _ IHrest]; [reflexivity|].
  cbn in Hen. apply andb_prop in Hen as [Hen1 Hen2].
  inversion IH as [| ? ? IH1 IH2]; subst.
  cbn. rewrite (IH1 _ _ Hen1 Hkv). now apply IHrest.
Qed.

Lemma serialize_elements_plain (decode : list Byte.byte -> string -> Res string)
    (l l' : list PyObject) :
  Forall (fun v => forall decoder r,
            enums_plain v = true ->
            serialize decode v decoder = inr r -> plain r = true) l ->
  forallb enums_plain l = true ->
  comprehension (fun v => serialize decode v "utf8") l = inr l' ->
  forallb plain l' = true.
Proof.
  intros IH Hen H. apply comprehension_inv in H.
  induction H as [| v v' rest rest' Hv _ IHrest]; [reflexivity|].
  cbn in Hen. apply andb_prop in Hen as [Hen1 Hen2].
  inversion IH as [| ? ? IH1 IH2]; subst.
  cbn. rewrite (IH1 _ _ Hen1 Hv). now apply IHrest.
Qed.

Lemma serialize_plain (decode : list Byte.byte -> string -> Res string)
    (obj : PyObject) :
  forall (decoder : string) (r : PyObject),
    enums_plain obj = true ->
    serialize decode obj decoder = inr r -> plain r = true.
Proof.
  induction obj as [| d IH | x | v IH | b | n | x | x | x | x | x | b
                    | d IH | d IH | l IH | l IH | x] using PyObject_induction;
    intros decoder r Hen H; cbn in H;
    try (injection H as <-; try reflexivity; exact Hen).
  - destruct (comprehension_values _ d) as [e | items] eqn:E; [discriminate H|].
    cbn in H. injection H as <-. cbn.
    exact (serialize_values_plain decode d items IH Hen E).
  - destruct (decode b decoder) as [e | s]; [discriminate H|].
    cbn in H. injection H as <-. reflexivity.
  - destruct (comprehension_values _ d) as [e | items] eqn:E; [discriminate H|].
    cbn in H. injection H as <-. cbn.
    exact (serialize_values_plain decode d items IH Hen E).
  - destruct (comprehension_values _ d) as [e | items] eqn:E; [discriminate H|].
    cbn in H. injection H as <-. cbn.
    exact (serialize_values_plain decode d items IH Hen E).
  - destruct (comprehension _ l) as [e | l'] eqn:E; [discriminate H|].
    cbn in H. injection H as <-. cbn.
    exact (serialize_elements_plain decode l l' IH Hen E).
  - destruct (comprehension _ l) as [e | l'] eqn:E; [discriminate H|].
    cbn in H. injection H as <-. cbn.
    exact (serialize_elements_plain decode l l' IH Hen E).
Qed.

Lemma serialize_fixes_plain (decode : list Byte.byte -> string -> Res string)
    (obj : PyObject) :
  forall decoder : string,
    plain obj = true -> serialize decode obj decoder = inr obj.
Proof.
  induction obj as [| d IH | x | v IH | b | n | x | x | x | x | x | b
                    | d IH | d IH | l IH | l IH | x] using PyObject_induction;
    intros decoder Hp; cbn in Hp; try discriminate Hp; try reflexivity.
  - cbn. rewrite comprehension_values_fixed; [reflexivity|].
    induction IH as [| kv rest Hkv _ IHrest]; constructor;
      cbn in Hp; apply andb_prop in Hp as [Hp1 Hp2]; auto.
  - cbn. rewrite comprehension_fixed; [reflexivity|].
    induction IH as [| v rest Hv _ IHrest]; constructor;
      cbn in Hp; apply andb_prop in Hp as [Hp1 Hp2]; auto.
Qed.

(** X27. When every enum member inside an object has a plain value, what
    [serialize] returns for it is plain: made of None, numbers, strings,
    booleans, dicts and lists only, whatever the keys of the dicts. *)
Theorem serialize_result_is_plain
    (decode : list Byte.byte -> string -> Res string)
    (obj r : PyObject) (decoder : string) :
  enums_plain obj = true ->
  serialize decode obj decoder = inr r ->
  plain r = true.
Proof. intros Hen H. exact (serialize_plain decode obj decoder r Hen H). Qed.

Lemma serialize_result_is_plain_witness :
  plain
    (PDict
       [ (PStr "user", PStr "6f1c");
         (PStr "type", PStr "ADMIN");
         (PStr "at", PList [PStr "2024-11-29T00:00:00+00:00"; PNone]);
         (PStr "raw", PStr "ab") ]) = true.
Proof.
  apply (serialize_result_is_plain latin1_decode login_event _ "utf8").
  - reflexivity.
  - reflexivity.
Defined.

(** X28. Serializing twice changes nothing more: when every enum member
    inside an object has a plain value, [serialize] returns its own
    result unchanged, under any decoder. *)
Theorem serialize_idempotent
    (decode : list Byte.byte -> string -> Res string)
    (obj r : PyObject) (decoder decoder' : string) :
  enums_plain obj = true ->
  serialize decode obj decoder = inr r ->
  serialize decode r decoder' = inr r.
Proof.
  intros Hen H. apply serialize_fixes_plain.
  exact (serialize_plain decode obj decoder r Hen H).
Qed.

Lemma serialize_idempotent_witness :
  serialize latin1_decode
    (PDict
       [ (PStr "user", PStr "6f1c");
         (PStr "type", PStr "ADMIN");
         (PStr "at", PList [PStr "2024-11-29T00:00:00+00:00"; PNone]);
         (PStr "raw", PStr "ab") ]) "ascii"
  = inr (PDict
           [ (PStr "user", PStr "6f1c");
             (PStr "type", PStr "ADMIN");
             (PStr "at", PList [PStr "2024-11-29T00:00:00+00:00"; PNone]);
             (PStr "raw", PStr "ab") ]).
Proof.
  apply (serialize_idempotent latin1_decode login_event _ "utf8" "ascii").
  - reflexivity.
  - reflexivity.
Defined.

(** X29. The decoder reaches a bytes object only when it is the argument
    itself: for every other object the decoder makes no difference, so
    bytes inside a mapping, an iterable or a model are decoded as utf8. *)
Theorem serialize_decoder_top_level_only
    (decode : list Byte.byte -> string -> Res string)
    (obj : PyObject) (decoder : string) :
  (forall b, obj <> PBytes b) ->
  serialize decode obj decoder = serialize decode obj "utf8".
Proof.
  intros Hb. destruct obj; try reflexivity. now contradiction (Hb b).
Qed.

Lemma serialize_decoder_top_level_only_witness :
  serialize latin1_decode login_event "ascii"
  = serialize latin1_decode login_event "utf8".
Proof.
  apply (serialize_decoder_top_level_only latin1_decode login_event "ascii").
  intros b H. discriminate H.
Defined.

(** X30. [serialize] leaves the keys of a mapping as they are and in
    their order: the dict it returns has the keys of the mapping, none of
    them serialized. *)
Theorem serialize_keeps_keys
    (decode : list Byte.byte -> string -> Res string)
    (items : list (PyObject * PyObject)) (r : PyObject) (decoder : string) :
  serialize decode (PMapping items) decoder = inr r ->
  exists items', r = PDict items' /\ map fst items' = map fst items.
Proof.
  cbn. destruct (comprehension_values _ items) as [e | items'] eqn:E;
    [intros H; discriminate H|].
  cbn. intros H. injection H as <-. exists items'. split; [reflexivity|].
  apply comprehension_values_inv in E.
  induction E as [| kv kv' rest rest' [Hk _] _ IH]; [reflexivity|].
  cbn. now rewrite Hk, IH.
Qed.

Lemma serialize_keeps_keys_witness :
  exists items',
    PDict [(PUUID "6f1c", PStr "6f1c")] = PDict items' /\
    map fst items' = map fst [(PUUID "6f1c", PUUID "6f1c")].
Proof.
  apply (serialize_keeps_keys latin1_decode [(PUUID "6f1c", PUUID "6f1c")]
           _ "utf8").
  reflexivity.
Defined.

(** ** The field check of the parser *)

Lemma first_page_of_nothing (o : Ordering) (rank : Row -> Z) (size offset : Z) :
  qs_limit_offset size offset (qs_order_by o rank []) = [].
Proof.
  unfold qs_limit_offset, qs_order_by. cbn [fold_right].
  now rewrite skipn_nil, firstn_nil.
Qed.

(** C3. The field check lets through what is no declared column. A
    filter name without double underscore that is an attribute of the
    model class but no column of it, a method of the base class such as
    [to_dict], with a value other than None: [list] with its defaults
    does not fail with InvalidFilterField; where the engine accepts the
    query, it returns an empty page with count 0. *)
Theorem filter_on_plain_attribute_is_not_refused `{engine : SqlEngine}
    (self : BaseDao) (page size : Z) (order_by name : string) (value : Value)
    (t : Table) (o : Ordering) :
  0 <= page -> 1 <= size <= 100 ->
  has_dunder name = false ->
  is_column (_model_class self) name = false ->
  hasattr_model (_model_class self) name = true ->
  value <> VNone ->
  raises_data_error t [CEq "is_deleted" (VBool false); CFalse] = false ->
  getattr_ordering (_model_ordering_class self) order_by = Some o ->
  list_ self page size order_by [] false [(name, value)] t
  = inr (mkListResponse [] 0).
Proof.
  intros Hpage Hsize Hd Hcol Hattr Hv Heng Ho. rewrite list_unfold.
  destruct (Z.ltb_spec page 0); [lia|].
  destruct (Z.ltb_spec size 1); [lia|].
  destruct (Z.ltb_spec 100 size); [lia|]. cbn [orb].
  change (base_queryset (_model_class self) false [])
    with (@inr Exn Queryset [CEq "is_deleted" (VBool false)]).
  cbn [bind].
  assert (Hc : filter_criteria (_model_class self) [(name, value)]
               = inr [CFalse]).
  { cbn [filter_criteria]. destruct value; try contradiction;
      cbn [is_none]; unfold filter_criterion, first_segment, operator_suffix,
        split_dunder;
      rewrite (split_no_dunder_from name EmptyString Hd), str_append_nil_l;
      cbn [nth length Nat.ltb Nat.leb];
      unfold hasattr_model, getattr_model, is_column in *;
      destruct (find_column (_model_class self) name); try discriminate Hcol;
      destruct (existsb _ _); try discriminate Hattr; reflexivity. }
  rewrite Hc. cbn [bind app]. rewrite Heng, Ho. unfold ret. f_equal.
  assert (Hrows : qs_rows [CEq "is_deleted" (VBool false); CFalse] t = []).
  { unfold qs_rows. apply filter_none. intros r _.
    unfold row_selected. cbn [forallb criterion_holds].
    now rewrite andb_false_r. }
  rewrite Hrows, first_page_of_nothing. reflexivity.
Qed.

Lemma filter_on_plain_attribute_is_not_refused_witness :
  list_ (engine := reference_engine) OrganizationsDAO 0 100 "CREATED_AT_DESC"
    [] false [("to_dict", VStr "x")] acme_table
  = inr (mkListResponse [] 0).
Proof.
  apply (filter_on_plain_attribute_is_not_refused (engine := reference_engine)
           OrganizationsDAO 0 100 "CREATED_AT_DESC" "to_dict" (VStr "x")
           acme_table (mkOrdering "created_at" true)).
  - lia.
  - lia.
  - reflexivity.
  - reflexivity.
  - reflexivity.
  - discriminate.
  - reflexivity.
  - reflexivity.
Defined.
